(** * libfutil, PostgreSQL access layer: [src/db/db_psql.c]

    A shallow embedding of the query pipeline of [db_psql.c]: the template
    compiler at the head of [db_query], the connect and execute loops, the
    release of a result and the typed accessors over a result.

    Conventions of the embedding.
    - A C string is the list of its characters; the end of the list stands
      for the terminating NUL, and a NUL met earlier ends the string as it
      does in C.
    - [db->q] is an array of characters: a list whose length is
      [sizeof db->q].  Every store into it is by index; a store at an index
      outside the array stops the run with [OutOfBounds] (the behaviour of
      the C program is undefined there).
    - The variadic arguments are a list of tagged values; reading one with
      the wrong type, or past the end, stops the run with [BadVaArg].
    - libpq and the thread primitives are collaborators from outside the
      repository.  What they answer is given by three oracles indexed by
      the number of earlier calls; what the code asks of them is recorded
      in a [world].
    - [logline] only reports and is left out. *)

From Stdlib Require Import String Ascii ZArith Lia Bool Arith List.
From Stdlib Require Import DecimalString Strings.Byte.
Import ListNotations.

(** ** Characters, strings, bytes *)

Definition NUL : ascii := Ascii.zero.

Definition s2l (s : string) : list ascii := list_ascii_of_string s.

(** [n] characters after [memzero]. *)
Definition zeros (n : nat) : list ascii := repeat NUL n.

(** The C string held at the start of a character array. *)
Fixpoint c_str (m : list ascii) : list ascii :=
  match m with
  | [] => []
  | c :: m' => if Ascii.eqb c NUL then [] else c :: c_str m'
  end.

Definition byte_to_Z (b : byte) : Z := Z.of_N (Byte.to_N b).

Definition Z_to_byte (z : Z) : byte :=
  match Byte.of_N (Z.to_N (z mod 256)) with
  | Some b => b
  | None => x00
  end.

(** The bytes of an [n]-byte unsigned integer in network order: what memory
    holds after [t = htonl(x)] (n = 4) or [t = htonll(x)] (n = 8),
    whatever the byte order of the host. *)
Fixpoint be_bytes (n : nat) (x : Z) : list byte :=
  match n with
  | O => []
  | S k => be_bytes k (x / 256) ++ [Z_to_byte x]
  end.

(** The unsigned integer whose bytes in network order are [bs]: the value of
    [ntohl( *(uint32_t * )d)] for the four bytes at [d], of [ntohll] for
    eight. *)
Definition be_val (bs : list byte) : Z :=
  fold_left (fun acc b => (acc * 256 + byte_to_Z b)%Z) bs 0%Z.

(** [t32[t32s] = htonl(t32[t32s])]: the four bytes of the slot afterwards. *)
Definition htonl_mem (x : Z) : list byte := be_bytes 4 x.

(** [ntohl( *(uint32_t * )d)]; [d] holds at least four bytes. *)
Definition ntohl_at (d : list byte) : Z := be_val (firstn 4 d).

(** Modelled from the spec: the macros [htonll] and [ntohll] of
    [libfutil/misc.h] are not in the source tree.  They are the 64-bit
    forms of [htonl] and [ntohl], the conversion between host byte order
    and network (big-endian) byte order of a fixed-width integer. *)
Definition htonll_mem (x : Z) : list byte := be_bytes 8 x.

Definition ntohll_at (d : list byte) : Z := be_val (firstn 8 d).

(** [printf]'s [%u]. *)
Definition utoa (n : nat) : list ascii :=
  s2l (NilZero.string_of_uint (Nat.to_uint n)).

(** ** Runs that may stop *)

Inductive fault : Type :=
| OutOfBounds    (* a store or a load outside its object *)
| BadVaArg       (* va_arg with no matching argument *)
| Aborted        (* abort() *)
| AssertFailed   (* assert(e) with e false, assertions compiled in *)
| OutOfFuel      (* the loop of db_connect was cut by the model *)
| Blocked.       (* mutex_lock on a mutex that is held *)

Inductive run (A : Type) : Type :=
| Done (a : A)
| Stop (f : fault).

Arguments Done {A} a.
Arguments Stop {A} f.

Definition bind {A B} (r : run A) (k : A -> run B) : run B :=
  match r with
  | Done a => k a
  | Stop f => Stop f
  end.

Notation "x <- r ;; k" := (bind r (fun x => k))
  (at level 61, r at next level, right associativity).
Notation "' p <- r ;; k" := (bind r (fun p => k))
  (at level 61, p pattern, r at next level, right associativity).

(** ** Types of the interface *)

(** Modelled from the spec: [dbreply_t] is declared in [libfutil/db/db.h],
    which is not in the source tree.  These are the three replies that
    [db_psql.c] returns; CompileError, ConnectionError and QueryError of
    the specification are all [DB_R_ERR], DuplicateKey is
    [DB_R_DUPLICATE_KEY]. *)
Inductive dbreply_t : Type := DB_R_OK | DB_R_ERR | DB_R_DUPLICATE_KEY.

(** PostgreSQL's type identifiers, with the values of its
    [catalog/pg_type.h]; the source takes them from [db_psql.h]. *)
Definition Oid := Z.
Definition BOOLOID : Oid := 16%Z.
Definition INT8OID : Oid := 20%Z.
Definition INT4OID : Oid := 23%Z.
Definition TEXTOID : Oid := 25%Z.
Definition CIDROID : Oid := 650%Z.
Definition INETOID : Oid := 869%Z.
Definition VARCHAROID : Oid := 1043%Z.

(** [ExecStatusType] of libpq ([libpq-fe.h]). *)
Inductive ExecStatusType : Type :=
| PGRES_EMPTY_QUERY | PGRES_COMMAND_OK | PGRES_TUPLES_OK | PGRES_COPY_OUT
| PGRES_COPY_IN | PGRES_BAD_RESPONSE | PGRES_NONFATAL_ERROR
| PGRES_FATAL_ERROR.

(** What the code can ask of a [PGresult]. *)
Record PGresult : Type := {
  PQresultStatus : ExecStatusType;
  PQresultErrorField_SQLSTATE : option (list ascii);
  PQftype : nat -> Oid;
  PQgetvalue : nat -> nat -> option (list byte);
  PQfnumber : list ascii -> Z;
  PQntuples : nat
}.

(** A [PGconn] is named by the number of the [PQconnectdb] call that made
    it. *)
Definition PGconn := nat.

(** What [vals[k]] points to: the C string of the caller, or the slot of
    [t32]/[t64] that holds the converted integer. *)
Inductive pval : Type :=
| PText (s : list ascii)
| PBin (bs : list byte).

(** Entry [k] of the four parallel arrays [typs], [vals], [lens], [fmts]. *)
Record param : Type := {
  typ : Oid;
  val : pval;
  len : Z;
  fmt : Z
}.

(** One variadic argument of [db_query]: a [uint32_t], a [uint64_t] or a
    [char *], given by the characters of its C string. *)
Inductive varg : Type :=
| VU32 (x : Z)
| VU64 (x : Z)
| VStr (s : list ascii).

(** Modelled from the spec: [dbconn_t] is declared in [libfutil/db/db.h],
    which is not in the source tree.  The fields are those that
    [db_psql.c] reads and writes, the Connection of section 3 of the
    specification.  [q] is the scratch buffer, an array of characters:
    [sizeof db->q] is the length of the list. *)
Record dbconn_t : Type := {
  dbname : option (list ascii);
  dbuser : option (list ascii);
  conninfo : option (list ascii);
  conn : option PGconn;
  mutex : bool;                (* true: held *)
  notices : bool;
  keeptrying : bool;
  q : list ascii
}.

(** Modelled from the spec: [dbres_t] is declared in [libfutil/db/db.h];
    [db_psql.c] uses its field [res], a pointer to a [PGresult] or
    null. *)
Record dbres_t : Type := { res : option PGresult }.

(** What the code has asked of its collaborators so far. *)
Record world : Type := {
  connects : nat;                                 (* PQconnectdb calls *)
  sent : list (PGconn * list ascii * list param); (* PQexecParams calls *)
  finished : list PGconn;                         (* PQfinish calls *)
  cleared : nat;                                  (* PQclear calls *)
  polls : nat;                                    (* thread_keep_running calls *)
  slept : list Z                                  (* thread_sleep calls *)
}.

Definition world0 : world :=
  {| connects := 0; sent := []; finished := []; cleared := 0;
     polls := 0; slept := [] |}.

Definition DB_MAX_PARAMS : nat := 16.

Definition ERRCODE_UNIQUE_VIOLATION : list ascii := s2l "23505".

(** ** Stores into a character array *)

(** [blit m i s]: the array [m] after the characters [s] are stored from
    index [i] on.  Meant for [i + length s <= length m]. *)
Definition blit (m : list ascii) (i : nat) (s : list ascii) : list ascii :=
  firstn i m ++ s ++ skipn (i + length s) m.

(** [snprintf(&m[i], size, ...)] where the formatted text is [s]: at most
    [size - 1] characters of [s] and a NUL are stored, nothing when [size]
    is 0; the value returned is the length of [s]. *)
Definition snprintf (m : list ascii) (i size : nat) (s : list ascii)
  : list ascii * nat :=
  match size with
  | O => (m, length s)
  | S room => (blit m i (firstn room s ++ [NUL]), length s)
  end.

(** Modelled from the spec: the macro [snprintfok] of [libfutil/misc.h] is
    not in the source tree.  It is the test of the "buffer-length bound":
    the value [n] returned by [snprintf] is not negative and is less than
    the size given, so nothing was cut.  Lengths are naturals here, which
    leaves the second half. *)
Definition snprintfok (n size : nat) : bool := n <? size.

(** ** Updates of the records *)

Definition set_conn (db : dbconn_t) (c : option PGconn) : dbconn_t :=
  {| dbname := dbname db; dbuser := dbuser db; conninfo := conninfo db;
     conn := c; mutex := mutex db; notices := notices db;
     keeptrying := keeptrying db; q := q db |}.

Definition set_mutex (db : dbconn_t) (held : bool) : dbconn_t :=
  {| dbname := dbname db; dbuser := dbuser db; conninfo := conninfo db;
     conn := conn db; mutex := held; notices := notices db;
     keeptrying := keeptrying db; q := q db |}.

Definition set_q (db : dbconn_t) (m : list ascii) : dbconn_t :=
  {| dbname := dbname db; dbuser := dbuser db; conninfo := conninfo db;
     conn := conn db; mutex := mutex db; notices := notices db;
     keeptrying := keeptrying db; q := m |}.

(** Modelled from the spec: [mutex_lock] and [mutex_unlock] are macros of
    [libfutil/misc.h], which is not in the source tree.  They are the
    per-connection lock of section 5: acquiring it blocks the caller until
    the query that holds it has finished its result.  In a sequential run
    nobody else releases the mutex, so [mutex_lock] on a mutex that is
    held does not return: the run stops with [Blocked].  On a free mutex
    it returns with the mutex held; [mutex_unlock] leaves it free. *)
Definition mutex_locked (db : dbconn_t) : dbconn_t := set_mutex db true.

Definition mutex_lock (db : dbconn_t) : run dbconn_t :=
  if mutex db then Stop Blocked else Done (mutex_locked db).

Definition mutex_unlock (db : dbconn_t) : dbconn_t := set_mutex db false.

Definition note_connect (w : world) : world :=
  {| connects := S (connects w); sent := sent w; finished := finished w;
     cleared := cleared w; polls := polls w; slept := slept w |}.

Definition note_sent (w : world) (c : PGconn) (sql : list ascii)
    (ps : list param) : world :=
  {| connects := connects w; sent := sent w ++ [(c, sql, ps)];
     finished := finished w; cleared := cleared w; polls := polls w;
     slept := slept w |}.

Definition note_finish (w : world) (c : PGconn) : world :=
  {| connects := connects w; sent := sent w; finished := finished w ++ [c];
     cleared := cleared w; polls := polls w; slept := slept w |}.

Definition note_clear (w : world) : world :=
  {| connects := connects w; sent := sent w; finished := finished w;
     cleared := S (cleared w); polls := polls w; slept := slept w |}.

Definition note_poll (w : world) : world :=
  {| connects := connects w; sent := sent w; finished := finished w;
     cleared := cleared w; polls := S (polls w); slept := slept w |}.

Definition note_sleep (w : world) (secs : Z) : world :=
  {| connects := connects w; sent := sent w; finished := finished w;
     cleared := cleared w; polls := polls w; slept := slept w ++ [secs] |}.

(** [db_init], lines 29-59, for a connection whose scratch buffer has [n]
    characters: the structure zeroed, the identity, the two flags, the
    text of [conninfo] printed into [buf[128]] and copied, the mutex
    initialised. *)
Definition db_init (n : nat) (name user : option (list ascii))
  : dbconn_t :=
  let part (pre : list ascii) (o : option (list ascii)) :=
    match o with Some s => pre ++ s | None => [] end in
  let gap :=
    match name, user with Some _, Some _ => s2l " " | _, _ => [] end in
  let buf :=
    firstn 127 (part (s2l "dbname = ") name ++ gap
                ++ part (s2l "user = ") user) in
  {| dbname := name; dbuser := user;
     conninfo := match name, user with
                 | None, None => None
                 | _, _ => Some (c_str buf)
                 end;
     conn := None; mutex := false; notices := true; keeptrying := false;
     q := zeros n |}.

(** ** The template compiler: lines 180-359 of [db_query] *)

(** The locals of [db_query] that the compiler works on.  [v] is the length
    of [f_params]: entry [v] is written and [v] incremented, which is an
    append.  [t32s] and [t64s] never exceed [v], so the slots of [t32] and
    [t64] exist; [f_params] holds their bytes. *)
Record frame : Type := {
  f_q : list ascii;          (* db->q *)
  f_o : nat;                 (* o *)
  f_params : list param;     (* typs, vals, lens, fmts: entries 0 .. v-1 *)
  f_ap : list varg;          (* ap *)
  f_rep : dbreply_t          (* rep *)
}.

Definition f_v (f : frame) : nat := length (f_params f).

(** [m[i] = c] for an array [m]. *)
Definition store (m : list ascii) (i : nat) (c : ascii) : run (list ascii) :=
  if i <? length m then Done (blit m i [c]) else Stop OutOfBounds.

Definition va_arg_str (ap : list varg) : run (list ascii * list varg) :=
  match ap with
  | VStr s :: ap' => Done (s, ap')
  | _ => Stop BadVaArg
  end.

Definition va_arg_u32 (ap : list varg) : run (Z * list varg) :=
  match ap with
  | VU32 x :: ap' => Done (x, ap')
  | _ => Stop BadVaArg
  end.

Definition va_arg_u64 (ap : list varg) : run (Z * list varg) :=
  match ap with
  | VU64 x :: ap' => Done (x, ap')
  | _ => Stop BadVaArg
  end.

(** [n = snprintf(&db->q[o], sizeof db->q - o, ...)] giving the text [s],
    then the test of [snprintfok] and [o += n]: the tail shared by the
    seven cases of the switch. *)
Definition emit (s : list ascii) (ps : list param) (ap : list varg)
    (f : frame) : frame :=
  let size := length (f_q f) - f_o f in
  let '(m, n) := snprintf (f_q f) (f_o f) size s in
  if snprintfok n size
  then {| f_q := m; f_o := f_o f + n; f_params := ps; f_ap := ap;
          f_rep := f_rep f |}
  else {| f_q := m; f_o := f_o f; f_params := ps; f_ap := ap;
          f_rep := DB_R_ERR |}.

(** The cases that bind a parameter: the entry is written at [v], [v] is
    incremented and ["$%u"] is printed with the new [v]. *)
Definition emit_bound (p : param) (ap : list varg) (f : frame) : frame :=
  let ps := f_params f ++ [p] in
  emit ("$"%char :: utoa (length ps)) ps ap f.

(** [switch (txt[i])], lines 202-353. *)
Definition directive (d : ascii) (f : frame) : run frame :=
  if Ascii.eqb d NUL then
    Done {| f_q := f_q f; f_o := f_o f; f_params := f_params f;
            f_ap := f_ap f; f_rep := DB_R_ERR |}
  else if Ascii.eqb d "a" then
    '(s, ap) <- va_arg_str (f_ap f);;
    Done (emit_bound {| typ := INETOID; val := PText s; len := 0; fmt := 0 |}
                     ap f)
  else if Ascii.eqb d "b" then
    '(s, ap) <- va_arg_str (f_ap f);;
    Done (emit_bound {| typ := CIDROID; val := PText s; len := 0; fmt := 0 |}
                     ap f)
  else if Ascii.eqb d "u" then
    '(x, ap) <- va_arg_u32 (f_ap f);;
    Done (emit_bound {| typ := INT4OID; val := PBin (htonl_mem x);
                        len := 4; fmt := 1 |} ap f)
  else if Ascii.eqb d "U" then
    '(x, ap) <- va_arg_u64 (f_ap f);;
    Done (emit_bound {| typ := INT8OID; val := PBin (htonll_mem x);
                        len := 8; fmt := 1 |} ap f)
  else if Ascii.eqb d "S" then
    '(s, ap) <- va_arg_str (f_ap f);;
    Done (emit_bound {| typ := TEXTOID; val := PText s; len := 0; fmt := 0 |}
                     ap f)
  else if Ascii.eqb d "s" then
    '(t, ap) <- va_arg_str (f_ap f);;
    Done (emit t (f_params f) ap f)
  else if Ascii.eqb d "t" then
    '(t, ap) <- va_arg_str (f_ap f);;
    Done (emit ("'"%char :: t ++ ["'"%char]) (f_params f) ap f)
  else
    Done {| f_q := f_q f; f_o := f_o f; f_params := f_params f;
            f_ap := f_ap f; f_rep := DB_R_ERR |}.

(** The loop of lines 184-354 over the characters of [txt] from [txt[i]]
    on.  The end of the list is the NUL that ends [txt]. *)
Fixpoint prepare (txt : list ascii) (f : frame) : run frame :=
  match f_rep f with
  | DB_R_OK =>
    match txt with
    | [] => Done f
    | c :: rest =>
      if Ascii.eqb c NUL then Done f
      else if negb (Ascii.eqb c "%") then
        (* db->q[o++] = txt[i]; continue; *)
        m <- store (f_q f) (f_o f) c;;
        prepare rest {| f_q := m; f_o := S (f_o f); f_params := f_params f;
                        f_ap := f_ap f; f_rep := f_rep f |}
      else if DB_MAX_PARAMS <=? f_v f then
        (* v >= lengthof(vals): logline; break; *)
        Done f
      else
        match rest with
        | [] => directive NUL f
        | d :: rest' => f' <- directive d f;; prepare rest' f'
        end
    end
  | _ => Done f
  end.

(** Lines 183-359: [o = 0], the loop, and [db->q[o] = '\0']. *)
Definition compile (m : list ascii) (txt : list ascii) (ap : list varg)
  : run frame :=
  f <- prepare txt {| f_q := m; f_o := 0; f_params := []; f_ap := ap;
                      f_rep := DB_R_OK |};;
  m' <- store (f_q f) (f_o f) NUL;;
  Done {| f_q := m'; f_o := f_o f; f_params := f_params f; f_ap := f_ap f;
          f_rep := f_rep f |}.



(** ** Connecting and executing *)

(** The state the calls work on: the connection, the result handle of the
    caller and the record of what was asked of the collaborators. *)
Record state : Type := {
  s_db : dbconn_t;
  s_result : dbres_t;
  s_world : world
}.

(** How a call of [db_query] ends. *)
Inductive outcome : Type :=
| Returned (rep : dbreply_t) (s : state)  (* return (rep) *)
| Abort (s : state)                       (* abort(), line 176 *)
| Fault (f : fault).

Section Collaborators.

(** [NDEBUG]: assertions are compiled out. *)
Variable NDEBUG : bool.
(** Whether the [k]-th [PQconnectdb] gives [CONNECTION_OK]. *)
Variable connect_ok : nat -> bool.
(** What the [k]-th [PQexecParams] returns; [None] is the null pointer. *)
Variable exec_reply : nat -> option PGresult.
(** What the [k]-th [thread_keep_running] returns. *)
Variable keep_running : nat -> bool.

Definition assert_ (e : bool) : run unit :=
  if NDEBUG || e then Done tt else Stop AssertFailed.

Definition is_null {A} (p : option A) : bool :=
  match p with None => true | Some _ => false end.

(** [db_tryconnect], lines 801-834. *)
Definition db_tryconnect (db : dbconn_t) (w : world)
  : run (bool * dbconn_t * world) :=
  _ <- assert_ (is_null (conn db));;
  match conninfo db with
  | None => Done (false, set_conn db None, w)
  | Some _ =>
    let k := connects w in
    let w1 := note_connect w in
    if connect_ok k
    then Done (true, set_conn db (Some k), w1)
    else Done (false, set_conn db None, note_finish w1 k)
  end.

(** The loop of [db_connect], lines 850-866, from the test of its
    condition with the counter at [i].  [i] is an [unsigned int].  Each
    turn of the loop takes one unit of [fuel]. *)
Fixpoint db_connect_loop (fuel : nat) (i : Z) (db : dbconn_t) (w : world)
  : run (dbconn_t * world) :=
  if keeptrying db || (i <? 3)%Z then
    match fuel with
    | O => Stop OutOfFuel
    | S fuel' =>
      '(ok, db1, w1) <- db_tryconnect db w;;
      if ok then Done (db1, w1)
      else
        let running := keep_running (polls w1) in
        let w2 := note_poll w1 in
        if negb running then Done (db1, w2)
        else
          let w3 := note_sleep w2 (i mod 28 + 2)%Z in
          db_connect_loop fuel' ((i + 1) mod 2 ^ 32)%Z db1 w3
    end
  else Done (db, w).

(** [db_connect], lines 838-869. *)
Definition db_connect (fuel : nat) (db : dbconn_t) (w : world)
  : run (bool * dbconn_t * world) :=
  _ <- assert_ (is_null (conn db));;
  '(db1, w1) <- db_connect_loop fuel 0%Z db w;;
  Done (negb (is_null (conn db1)), db1, w1).

Definition list_ascii_eqb (a b : list ascii) : bool :=
  String.eqb (string_of_list_ascii a) (string_of_list_ascii b).

Definition status_ok (est : ExecStatusType) : bool :=
  match est with
  | PGRES_COMMAND_OK | PGRES_TUPLES_OK => true
  | _ => false
  end.

Definition is_fatal (est : ExecStatusType) : bool :=
  match est with
  | PGRES_FATAL_ERROR => true
  | _ => false
  end.

(** [r != NULL && strcmp(r, dupcol) == 0], line 407. *)
Definition is_duplicate (r : option (list ascii)) : bool :=
  match r with
  | Some code => list_ascii_eqb (c_str code) ERRCODE_UNIQUE_VIOLATION
  | None => false
  end.

(** Lines 371-373: [if (db->conn == NULL) db_connect(db);] *)
Definition ensure_connected (fuel : nat) (db : dbconn_t) (w : world)
  : run (dbconn_t * world) :=
  if is_null (conn db)
  then '(_, db1, w1) <- db_connect fuel db w;; Done (db1, w1)
  else Done (db, w).

(** The loop of lines 368-442 with [left] turns to go ([left = 2 - i]),
    then [return (rep)]. *)
Fixpoint exec_loop (fuel : nat) (left : nat) (ps : list param)
    (rep : dbreply_t) (db : dbconn_t) (result : dbres_t) (w : world)
  : outcome :=
  match left with
  | O => Returned rep {| s_db := db; s_result := result; s_world := w |}
  | S left' =>
    match ensure_connected fuel db w with
    | Stop f => Fault f
    | Done (db1, w1) =>
      match conn db1 with
      | None =>
        Returned DB_R_ERR {| s_db := mutex_unlock db1; s_result := result;
                             s_world := w1 |}
      | Some c =>
        let reply := exec_reply (length (sent w1)) in
        let w2 := note_sent w1 c (c_str (q db1)) ps in
        let result1 := {| res := reply |} in
        match reply with
        | None =>
          exec_loop fuel left' ps DB_R_ERR (set_conn db1 None) result1
                    (note_finish w2 c)
        | Some pr =>
          let est := PQresultStatus pr in
          if negb (status_ok est) then
            let r := PQresultErrorField_SQLSTATE pr in
            let rep1 := if is_duplicate r then DB_R_DUPLICATE_KEY
                        else DB_R_ERR in
            if is_fatal est && is_null r then
              exec_loop fuel left' ps rep1 (set_conn db1 None) result1
                        (note_finish w2 c)
            else
              Returned rep1 {| s_db := db1; s_result := result1;
                               s_world := w2 |}
          else
            Returned DB_R_OK {| s_db := db1; s_result := result1;
                                s_world := w2 |}
        end
      end
    end
  end.

(** [db_query], lines 141-445. *)
Definition db_query (fuel : nat) (db : dbconn_t) (result : dbres_t)
    (txt : list ascii) (ap : list varg) (w : world) : outcome :=
  match mutex_lock db with
  | Stop f => Fault f
  | Done db1 =>
    match res result with
    | Some _ => Abort {| s_db := db1; s_result := result; s_world := w |}
    | None =>
      match compile (q db1) txt ap with
      | Stop f => Fault f
      | Done f =>
        let db2 := set_q db1 (f_q f) in
        match f_rep f with
        | DB_R_OK => exec_loop fuel 2 (f_params f) DB_R_OK db2 result w
        | _ =>
          Returned DB_R_ERR {| s_db := mutex_unlock db2;
                               s_result := result; s_world := w |}
        end
      end
    end
  end.

(** [db_query_finish], lines 447-458.  [result] may be the null pointer. *)
Definition db_query_finish (db : dbconn_t) (result : option dbres_t)
    (w : world) : dbconn_t * option dbres_t * world :=
  match result with
  | Some r =>
    match res r with
    | Some _ =>
      (mutex_unlock (set_q db (zeros (length (q db)))),
       Some {| res := None |}, note_clear w)
    | None => (mutex_unlock db, result, w)
    end
  | None => (mutex_unlock db, result, w)
  end.

(** ** The typed accessors over a result *)

(** [db_result_getval], lines 780-783.  [PQgetvalue] returns the null
    pointer for a null result and for a cell out of range. *)
Definition db_result_getval (result : dbres_t) (row column : nat)
  : option (list byte) :=
  match res result with
  | Some pr => PQgetvalue pr row column
  | None => None
  end.

(** [PQftype(result->res, column)]; [InvalidOid] is 0. *)
Definition result_ftype (result : dbres_t) (column : nat) : Oid :=
  match res result with
  | Some pr => PQftype pr column
  | None => 0%Z
  end.

(** A load of [n] bytes at [d]. *)
Definition load (n : nat) (d : list byte) : run (list byte) :=
  if n <=? length d then Done (firstn n d) else Stop OutOfBounds.

(** [db_result_get_string], lines 465-488.  [str] is [*str] before the
    call; the result is the value returned and [*str] after the call, the
    null pointer being [None]. *)
Definition db_result_get_string (result : dbres_t) (row column : nat)
    (str : option (list byte)) : run (bool * option (list byte)) :=
  match db_result_getval result row column with
  | None => _ <- assert_ false;; Done (false, str)
  | Some d =>
    let t := result_ftype result column in
    if (t =? TEXTOID)%Z || (t =? VARCHAROID)%Z then Done (true, Some d)
    else _ <- assert_ false;; Done (false, None)
  end.

(** [db_result_get_uint32], lines 506-538. *)
Definition db_result_get_uint32 (result : dbres_t) (row column : nat)
    (t32 : Z) : run (bool * Z) :=
  match db_result_getval result row column with
  | None => _ <- assert_ false;; Done (false, t32)
  | Some d =>
    let t := result_ftype result column in
    if (t =? INT4OID)%Z then
      bs <- load 4 d;; Done (true, ntohl_at bs)
    else if (t =? INT8OID)%Z then
      (* a uint64_t stored into a uint32_t *)
      bs <- load 8 d;; Done (true, ntohll_at bs mod 2 ^ 32)%Z
    else
      _ <- assert_ false;; Done (false, 0%Z)
  end.

(** [db_result_get_uint64], lines 540-571. *)
Definition db_result_get_uint64 (result : dbres_t) (row column : nat)
    (t64 : Z) : run (bool * Z) :=
  match db_result_getval result row column with
  | None => _ <- assert_ false;; Done (false, t64)
  | Some d =>
    let t := result_ftype result column in
    if (t =? INT4OID)%Z then
      (* a uint32_t stored into a uint64_t *)
      bs <- load 4 d;; Done (true, ntohl_at bs)
    else if (t =? INT8OID)%Z then
      bs <- load 8 d;; Done (true, ntohll_at bs)
    else
      _ <- assert_ false;; Done (false, 0%Z)
  end.

(** [*(bool * )d]: the first byte at [d]; an empty cell is its NUL. *)
Definition bool_at (d : list byte) : bool :=
  match d with
  | [] => false
  | b :: _ => negb (Byte.eqb b x00)
  end.

(** [db_result_get_bool], lines 573-594. *)
Definition db_result_get_bool (result : dbres_t) (row column : nat)
    (b : bool) : bool * bool :=
  match db_result_getval result row column with
  | None => (false, b)
  | Some d =>
    let t := result_ftype result column in
    if (t =? BOOLOID)%Z then (true, bool_at d) else (false, false)
  end.

End Collaborators.

(** ** Sample replies of the server *)

(** A result of one row and one column of type [t] whose cell holds [d]. *)
Definition cell_result (t : Oid) (d : list byte) : PGresult :=
  {| PQresultStatus := PGRES_TUPLES_OK;
     PQresultErrorField_SQLSTATE := None;
     PQftype := fun _ => t;
     PQgetvalue := fun r c => if (r =? 0) && (c =? 0) then Some d else None;
     PQfnumber := fun _ => (-1)%Z;
     PQntuples := 1 |}.

(** A result without rows, with status [est] and SQLSTATE [code]. *)
Definition status_result (est : ExecStatusType) (code : option (list ascii))
  : PGresult :=
  {| PQresultStatus := est;
     PQresultErrorField_SQLSTATE := code;
     PQftype := fun _ => 0%Z;
     PQgetvalue := fun _ _ => None;
     PQfnumber := fun _ => (-1)%Z;
     PQntuples := 0 |}.

(** A connection as [db_init] leaves it, with a scratch buffer of [n]
    characters, and the same connection once connected. *)
Definition fresh_db (n : nat) : dbconn_t :=
  db_init n (Some (s2l "ddb")) (Some (s2l "ddb")).

Definition live_db (n : nat) : dbconn_t := set_conn (fresh_db n) (Some 0).

Definition no_result : dbres_t := {| res := None |}.

(** ** The template compiler as the specification words it

    Sections 3, 4.1 and 4.2 of the specification: the closed set of
    parameter kinds, the table of directives, the encoder of a parameter
    and the scan that copies literal text, numbers the placeholders from
    [$1] and collects the parameters.  It works on lists, without a buffer;
    the two bounds are stated apart. *)

Inductive kind : Type :=
| Int32 | Int64 | Text | Address | Block | RawInline | QuotedInline.

Definition directive_table : list (ascii * kind) :=
  [ ("u"%char, Int32); ("U"%char, Int64); ("S"%char, Text);
    ("a"%char, Address); ("b"%char, Block);
    ("s"%char, RawInline); ("t"%char, QuotedInline) ].

Definition kind_of (d : ascii) : option kind :=
  option_map snd (find (fun e => Ascii.eqb d (fst e)) directive_table).

Definition is_bound (d : ascii) : bool :=
  match kind_of d with
  | Some RawInline | Some QuotedInline | None => false
  | Some _ => true
  end.

Definition placeholder (i : nat) : list ascii := "$"%char :: utoa i.

(** What a directive of kind [k] with argument [a] gives when [i] is the
    number of the next placeholder: the text for the SQL and the parameter
    bound, if any. *)
Definition contribution (k : kind) (a : varg) (i : nat)
  : option (list ascii * list param) :=
  match k, a with
  | Int32, VU32 x =>
    Some (placeholder i,
          [{| typ := INT4OID; val := PBin (be_bytes 4 x); len := 4;
              fmt := 1 |}])
  | Int64, VU64 x =>
    Some (placeholder i,
          [{| typ := INT8OID; val := PBin (be_bytes 8 x); len := 8;
              fmt := 1 |}])
  | Text, VStr s =>
    Some (placeholder i,
          [{| typ := TEXTOID; val := PText s; len := 0; fmt := 0 |}])
  | Address, VStr s =>
    Some (placeholder i,
          [{| typ := INETOID; val := PText s; len := 0; fmt := 0 |}])
  | Block, VStr s =>
    Some (placeholder i,
          [{| typ := CIDROID; val := PText s; len := 0; fmt := 0 |}])
  | RawInline, VStr s => Some (s, [])
  | QuotedInline, VStr s => Some ("'"%char :: s ++ ["'"%char], [])
  | _, _ => None
  end.

(** The scan of section 4.1 from placeholder number [i] on; [None] is
    CompileError for an unknown or truncated directive (or an argument that
    does not match its directive). *)
Fixpoint render (i : nat) (txt : list ascii) (ap : list varg)
  : option (list ascii * list param) :=
  match txt with
  | [] => Some ([], [])
  | c :: rest =>
    if Ascii.eqb c "%" then
      match rest with
      | [] => None
      | d :: rest' =>
        match kind_of d, ap with
        | Some k, a :: ap' =>
          match contribution k a i with
          | Some (s, p) =>
            match render (i + length p) rest' ap' with
            | Some (sql, ps) => Some (s ++ sql, p ++ ps)
            | None => None
            end
          | None => None
          end
        | _, _ => None
        end
      end
    else
      match render i rest ap with
      | Some (sql, ps) => Some (c :: sql, ps)
      | None => None
      end
  end.

(** The letters of the directives of a template, in order. *)
Fixpoint directive_letters (txt : list ascii) : list ascii :=
  match txt with
  | [] => []
  | c :: rest =>
    if Ascii.eqb c "%" then
      match rest with
      | [] => []
      | d :: rest' => d :: directive_letters rest'
      end
    else directive_letters rest
  end.

(** The number of bound directives among the first [k] directives. *)
Definition bound_before (k : nat) (txt : list ascii) : nat :=
  length (filter is_bound (firstn k (directive_letters txt))).

(** Every directive, bound or inline, comes after fewer than
    [DB_MAX_PARAMS] bound directives. *)
Definition directives_have_room (txt : list ascii) : Prop :=
  forall k, k < length (directive_letters txt) ->
            bound_before k txt < DB_MAX_PARAMS.

(** The compiler run on the buffer [m] returns without error, leaving the
    C string [sql] in the buffer and the parameters [ps]. *)
Definition compiles_to (m : list ascii) (txt : list ascii) (ap : list varg)
    (sql : list ascii) (ps : list param) : Prop :=
  exists f, compile m txt ap = Done f /\ f_rep f = DB_R_OK
            /\ c_str (f_q f) = sql /\ f_params f = ps.

(** A character that the compiler copies as it is. *)
Definition is_literal (c : ascii) : bool :=
  negb (Ascii.eqb c NUL) && negb (Ascii.eqb c "%").

(** ** Sample templates *)

Definition scenario_template : list ascii :=
  s2l "SELECT id FROM t WHERE gw=%u AND name=%S".

Definition scenario_args : list varg := [VU32 7; VStr (s2l "alice")].

(** Seventeen bound directives. *)
Definition insert17_template : list ascii :=
  s2l "INSERT INTO t VALUES(%u,%u,%u,%u,%u,%u,%u,%u,%u,%u,%u,%u,%u,%u,%u,%u,%u)".

Definition insert17_args : list varg :=
  map (fun n => VU32 (Z.of_nat n)) (seq 1 17).

(** Sixteen bound directives and then an inline one. *)
Definition select16_order_template : list ascii :=
  s2l "SELECT %u,%u,%u,%u,%u,%u,%u,%u,%u,%u,%u,%u,%u,%u,%u,%u ORDER BY %s".

Definition select16_order_args : list varg :=
  map (fun n => VU32 (Z.of_nat n)) (seq 1 16) ++ [VStr (s2l "gw_id")].

(** [directives_have_room] read along the list of letters, with [v]
    parameters bound so far. *)
Fixpoint room_from (v : nat) (ds : list ascii) : Prop :=
  match ds with
  | [] => True
  | d :: ds' =>
    v < DB_MAX_PARAMS /\ room_from (if is_bound d then S v else v) ds'
  end.

(** The seventeen-directive template cut after its sixteenth placeholder,
    and the sixteen parameters bound by then. *)
Definition insert17_cut : list ascii :=
  s2l "INSERT INTO t VALUES($1,$2,$3,$4,$5,$6,$7,$8,$9,$10,$11,$12,$13,$14,$15,$16,".

Definition u32_params (n : nat) : list param :=
  map (fun k => {| typ := INT4OID; val := PBin (be_bytes 4 (Z.of_nat k));
                   len := 4; fmt := 1 |}) (seq 1 n).

(** The sixteen-and-one template as the specification renders it, and cut
    where its inline directive stood. *)
Definition select16_order_full : list ascii :=
  s2l "SELECT $1,$2,$3,$4,$5,$6,$7,$8,$9,$10,$11,$12,$13,$14,$15,$16 ORDER BY gw_id".

Definition select16_order_cut : list ascii :=
  s2l "SELECT $1,$2,$3,$4,$5,$6,$7,$8,$9,$10,$11,$12,$13,$14,$15,$16 ORDER BY ".

(** Sixteen bound directives and then an inline one that carries a
    condition of the statement; the text as the specification renders it,
    and cut where the inline directive stood. *)
Definition delete16_template : list ascii :=
  s2l "DELETE FROM t WHERE id IN (%u,%u,%u,%u,%u,%u,%u,%u,%u,%u,%u,%u,%u,%u,%u,%u) %s".

Definition delete16_args : list varg :=
  map (fun n => VU32 (Z.of_nat n)) (seq 1 16)
  ++ [VStr (s2l "AND owner='bob'")].

Definition delete16_full : list ascii :=
  s2l "DELETE FROM t WHERE id IN ($1,$2,$3,$4,$5,$6,$7,$8,$9,$10,$11,$12,$13,$14,$15,$16) AND owner='bob'".

Definition delete16_cut : list ascii :=
  s2l "DELETE FROM t WHERE id IN ($1,$2,$3,$4,$5,$6,$7,$8,$9,$10,$11,$12,$13,$14,$15,$16) ".

Definition scenario_sql : list ascii :=
  s2l "SELECT id FROM t WHERE gw=$1 AND name=$2".

Definition scenario_params : list param :=
  [ {| typ := INT4OID; val := PBin [x00; x00; x00; x07]; len := 4;
       fmt := 1 |};
    {| typ := TEXTOID; val := PText (s2l "alice"); len := 0; fmt := 0 |} ].

(** ** The other operations of [db_psql.c] *)

(** [db_initres], lines 62-66: the structure zeroed. *)
Definition db_initres : dbres_t := {| res := None |}.

Definition set_conninfo (db : dbconn_t) (ci : option (list ascii))
  : dbconn_t :=
  {| dbname := dbname db; dbuser := dbuser db; conninfo := ci;
     conn := conn db; mutex := mutex db; notices := notices db;
     keeptrying := keeptrying db; q := q db |}.

(** [db_cleanup], lines 69-85: the connection finished and its handle
    nulled, [conninfo] freed and nulled.  [mutex_destroy] has no effect
    that a sequential run can see. *)
Definition db_cleanup (db : dbconn_t) (w : world) : dbconn_t * world :=
  let '(db1, w1) :=
    match conn db with
    | Some c => (set_conn db None, note_finish w c)
    | None => (db, w)
    end in
  match conninfo db1 with
  | Some _ => (set_conninfo db1 None, w1)
  | None => (db1, w1)
  end.

(** [db_set_notices], lines 1014-1017. *)
Definition db_set_notices (db : dbconn_t) (b : bool) : dbconn_t :=
  {| dbname := dbname db; dbuser := dbuser db; conninfo := conninfo db;
     conn := conn db; mutex := mutex db; notices := b;
     keeptrying := keeptrying db; q := q db |}.

(** [db_set_keeptrying], lines 1019-1026: the old flag is returned. *)
Definition db_set_keeptrying (db : dbconn_t) (b : bool) : bool * dbconn_t :=
  (keeptrying db,
   {| dbname := dbname db; dbuser := dbuser db; conninfo := conninfo db;
      conn := conn db; mutex := mutex db; notices := notices db;
      keeptrying := b; q := q db |}).

(** [PQfnumber(result->res, field)]; -1 for a null result. *)
Definition result_fnumber (result : dbres_t) (field : list ascii) : Z :=
  match res result with
  | Some pr => PQfnumber pr field
  | None => (-1)%Z
  end.

(** [db_result_columnno], lines 460-463. *)
Definition db_result_columnno (result : dbres_t) (field : list ascii) : Z :=
  result_fnumber result field.

(** [db_result_getnumrows], lines 596-599; [PQntuples] of a null result
    is 0. *)
Definition db_result_getnumrows (result : dbres_t) : nat :=
  match res result with
  | Some pr => PQntuples pr
  | None => 0
  end.

(** [db_result_get_enum], lines 490-504: no look at the type of the
    column. *)
Definition db_result_get_enum (NDEBUG : bool) (result : dbres_t)
    (row column : nat) (str : option (list byte))
  : run (bool * option (list byte)) :=
  match db_result_getval result row column with
  | None => _ <- assert_ NDEBUG false;; Done (false, str)
  | Some d => Done (true, Some d)
  end.

(** An [int] column number passed for an [unsigned int] parameter. *)
Definition column_arg (column : Z) : nat := Z.to_nat (column mod 2 ^ 32).

(** [db_result_field_bool], lines 601-621. *)
Definition db_result_field_bool (result : dbres_t) (row : nat)
    (field : list ascii) (b : bool) : bool * bool :=
  let column := result_fnumber result field in
  if (column =? -1)%Z then (false, b)
  else
    let '(ok, b1) := db_result_get_bool result row (column_arg column) b in
    if ok then (true, b1) else (false, b1).

(** [db_result_field_string], lines 623-643. *)
Definition db_result_field_string (NDEBUG : bool) (result : dbres_t)
    (row : nat) (field : list ascii) (str : option (list byte))
  : run (bool * option (list byte)) :=
  let column := result_fnumber result field in
  if (column =? -1)%Z then Done (false, str)
  else
    '(ok, str1) <- db_result_get_string NDEBUG result row
                                        (column_arg column) str;;
    Done (if ok then (true, str1) else (false, str1)).

(** [db_result_field_uint32], lines 645-665. *)
Definition db_result_field_uint32 (NDEBUG : bool) (result : dbres_t)
    (row : nat) (field : list ascii) (t32 : Z) : run (bool * Z) :=
  let column := result_fnumber result field in
  if (column =? -1)%Z then Done (false, t32)
  else
    '(ok, v) <- db_result_get_uint32 NDEBUG result row
                                     (column_arg column) t32;;
    Done (if ok then (true, v) else (false, v)).

(** [db_result_field_uint64], lines 667-687. *)
Definition db_result_field_uint64 (NDEBUG : bool) (result : dbres_t)
    (row : nat) (field : list ascii) (t64 : Z) : run (bool * Z) :=
  let column := result_fnumber result field in
  if (column =? -1)%Z then Done (false, t64)
  else
    '(ok, v) <- db_result_get_uint64 NDEBUG result row
                                     (column_arg column) t64;;
    Done (if ok then (true, v) else (false, v)).

(** Two states of the compiler that differ at most in what the buffer
    holds from [o] on. *)
Definition same_frame (f g : frame) : Prop :=
  f_o f = f_o g /\ f_params f = f_params g /\ f_ap f = f_ap g
  /\ f_rep f = f_rep g /\ length (f_q f) = length (f_q g)
  /\ firstn (f_o f) (f_q f) = firstn (f_o g) (f_q g).

(** Two runs that end alike. *)
Definition same_run {A : Type} (R : A -> A -> Prop) (a b : run A) : Prop :=
  match a, b with
  | Done x, Done y => R x y
  | Stop e, Stop e' => e = e'
  | _, _ => False
  end.

(** How a call that runs queries ends: with a value, at [abort()], or at a
    fault. *)
Inductive call (A : Type) : Type :=
| Gives (a : A) (s : state)
| Aborts (s : state)
| Faults (f : fault).

Arguments Gives {A} a s.
Arguments Aborts {A} s.
Arguments Faults {A} f.

Section Create.

Variable NDEBUG : bool.
Variable connect_ok : nat -> bool.
Variable exec_reply : nat -> option PGresult.
Variable keep_running : nat -> bool.

(** [rep = db_query(db, &res, ...); db_query_finish(db, &res);], the pair
    of calls of each loop of [db_create]. *)
Definition query_finish (fuel : nat) (txt : list ascii) (ap : list varg)
    (s : state) : call dbreply_t :=
  match db_query NDEBUG connect_ok exec_reply keep_running fuel
                 (s_db s) (s_result s) txt ap (s_world s) with
  | Returned rep s1 =>
    let '(db2, r2, w2) :=
      db_query_finish (s_db s1) (Some (s_result s1)) (s_world s1) in
    Gives rep {| s_db := db2;
                 s_result := match r2 with
                             | Some r => r
                             | None => s_result s1
                             end;
                 s_world := w2 |}
  | Abort s1 => Aborts s1
  | Fault f => Faults f
  end.

(** One loop of [db_create]: a statement for each entry, in order; the
    first reply that is not [DB_R_OK] makes [db_create] return [false]. *)
Fixpoint query_each (fuel : nat) (stmts : list (list ascii * list varg))
    (s : state) : call bool :=
  match stmts with
  | [] => Gives true s
  | (txt, ap) :: rest =>
    match query_finish fuel txt ap s with
    | Gives DB_R_OK s1 => query_each fuel rest s1
    | Gives _ s1 => Gives false s1
    | Aborts s1 => Aborts s1
    | Faults f => Faults f
    end
  end.

Definition drop_table (name : list ascii) : list ascii * list varg :=
  (s2l "DROP TABLE IF EXISTS %s CASCADE", [VStr name]).

Definition drop_type (name : list ascii) : list ascii * list varg :=
  (s2l "DROP TYPE IF EXISTS %s CASCADE", [VStr name]).

Definition as_it_is (query : list ascii) : list ascii * list varg :=
  (query, []).

(** The statements that the two DROP templates stand for. *)
Definition drop_table_sql (name : list ascii) : list ascii :=
  s2l "DROP TABLE IF EXISTS " ++ name ++ s2l " CASCADE".

Definition drop_type_sql (name : list ascii) : list ascii :=
  s2l "DROP TYPE IF EXISTS " ++ name ++ s2l " CASCADE".

(** [db_create], lines 709-776.  [types] and [tables] are the parallel
    arrays of the source, [num_types] and [num_tables] entries of a name
    and its CREATE statement. *)
Definition db_create (fuel : nat) (db : dbconn_t)
    (types tables : list (list ascii * list ascii)) (w : world)
  : call bool :=
  let s0 := {| s_db := db; s_result := db_initres; s_world := w |} in
  match query_each fuel (map (fun t => drop_table (fst t)) tables) s0 with
  | Gives true s1 =>
    match query_each fuel (map (fun t => drop_type (fst t)) types) s1 with
    | Gives true s2 =>
      match query_each fuel (map (fun t => as_it_is (snd t)) types) s2 with
      | Gives true s3 =>
        query_each fuel (map (fun t => as_it_is (snd t)) tables) s3
      | other => other
      end
    | other => other
    end
  | other => other
  end.

End Create.


(** * Properties *)

(** ** Helper facts *)

Lemma list_ascii_eqb_eq (a b : list ascii) :
  list_ascii_eqb a b = true <-> a = b.
Proof.
  unfold list_ascii_eqb. rewrite String.eqb_eq. split.
  - intros H.
    rewrite <- (list_ascii_of_string_of_list_ascii a),
            <- (list_ascii_of_string_of_list_ascii b).
    now rewrite H.
  - now intros ->.
Qed.

Lemma byte_to_Z_range (b : byte) : (0 <= byte_to_Z b < 256)%Z.
Proof.
  unfold byte_to_Z. pose proof (Byte.to_N_bounded b). lia.
Qed.

Lemma be_val_snoc (bs : list byte) (b : byte) :
  be_val (bs ++ [b]) = (be_val bs * 256 + byte_to_Z b)%Z.
Proof. unfold be_val. now rewrite fold_left_app. Qed.

Lemma be_val_range (bs : list byte) :
  (0 <= be_val bs < 256 ^ Z.of_nat (length bs))%Z.
Proof.
  induction bs as [|b bs IH] using rev_ind.
  - cbn. lia.
  - rewrite be_val_snoc, length_app, Nat.add_comm. cbn [length Nat.add].
    rewrite Nat2Z.inj_succ, Z.pow_succ_r by lia.
    pose proof (byte_to_Z_range b). nia.
Qed.

Lemma be_val_app (hi lo : list byte) :
  be_val (hi ++ lo) = (be_val hi * 256 ^ Z.of_nat (length lo) + be_val lo)%Z.
Proof.
  induction lo as [|b lo IH] using rev_ind.
  - rewrite app_nil_r. cbn. lia.
  - rewrite app_assoc, !be_val_snoc, IH, length_app, Nat.add_comm.
    cbn [length Nat.add]. rewrite Nat2Z.inj_succ, Z.pow_succ_r by lia. ring.
Qed.

(** ** The typed accessors *)

Lemma load_exact (n : nat) (d : list byte) :
  length d = n -> load n d = Done d.
Proof.
  intros <-. unfold load. rewrite Nat.leb_refl, firstn_all. reflexivity.
Qed.

Lemma be_val_low_bytes (d : list byte) :
  length d = 8 -> (be_val d mod 2 ^ 32 = be_val (skipn 4 d))%Z.
Proof.
  intros Hlen.
  rewrite <- (firstn_skipn 4 d) at 1.
  rewrite be_val_app.
  assert (Hlo : length (skipn 4 d) = 4) by (rewrite length_skipn; lia).
  rewrite Hlo. change (256 ^ Z.of_nat 4)%Z with (2 ^ 32)%Z.
  rewrite Z.add_comm, Z_mod_plus_full.
  apply Z.mod_small.
  pose proof (be_val_range (skipn 4 d)) as R. rewrite Hlo in R.
  exact R.
Qed.

(** C8: for a cell of a 64-bit integer column (eight bytes in network
    order), [db_result_get_uint32] succeeds and returns the value of the
    cell modulo 2^32, which is the value of its four low-order bytes; for a
    cell of a 32-bit integer column (four bytes), [db_result_get_uint64]
    succeeds and returns the value of the cell, whose bits from 32 up are
    zero. *)
Theorem get_uint_across_widths :
  forall (NDEBUG : bool) (result : dbres_t) (row column : nat)
         (d : list byte) (old : Z),
    db_result_getval result row column = Some d ->
    (result_ftype result column = INT8OID -> length d = 8 ->
       db_result_get_uint32 NDEBUG result row column old
         = Done (true, (be_val d mod 2 ^ 32)%Z)
       /\ (be_val d mod 2 ^ 32)%Z = be_val (skipn 4 d))
    /\
    (result_ftype result column = INT4OID -> length d = 4 ->
       db_result_get_uint64 NDEBUG result row column old
         = Done (true, be_val d)
       /\ (0 <= be_val d < 2 ^ 32)%Z
       /\ Z.shiftr (be_val d) 32 = 0%Z).
Proof.
  intros NDEBUG result row column d old Hd. split.
  - intros Ht Hlen. split.
    + unfold db_result_get_uint32. rewrite Hd, Ht. cbn [Z.eqb INT8OID INT4OID].
      change (20 =? 23)%Z with false. change (20 =? 20)%Z with true.
      cbv iota. rewrite (load_exact _ d Hlen). cbn [bind].
      unfold ntohll_at. rewrite <- Hlen, firstn_all. reflexivity.
    + now apply be_val_low_bytes.
  - intros Ht Hlen.
    assert (R : (0 <= be_val d < 2 ^ 32)%Z).
    { pose proof (be_val_range d) as R. rewrite Hlen in R. exact R. }
    split; [|split].
    + unfold db_result_get_uint64. rewrite Hd, Ht.
      change (INT4OID =? INT4OID)%Z with true. cbv iota.
      rewrite (load_exact _ d Hlen). cbn [bind].
      unfold ntohl_at. rewrite <- Hlen, firstn_all. reflexivity.
    + exact R.
    + rewrite Z.shiftr_div_pow2 by lia. apply Z.div_small. exact R.
Qed.

Lemma get_uint_across_widths_witness :
  db_result_get_uint32 false
      {| res := Some (cell_result INT8OID [x00; x00; x00; x01;
                                           x00; x00; x00; x07]) |} 0 0 0%Z
    = Done (true, 7%Z)
  /\ db_result_get_uint64 false
      {| res := Some (cell_result INT4OID [x00; x00; x01; x00]) |} 0 0 0%Z
    = Done (true, 256%Z).
Proof.
  split.
  - exact (proj1 (proj1 (get_uint_across_widths false
      {| res := Some (cell_result INT8OID [x00; x00; x00; x01;
                                           x00; x00; x00; x07]) |}
      0 0 _ 0%Z eq_refl) eq_refl eq_refl)).
  - exact (proj1 (proj2 (get_uint_across_widths false
      {| res := Some (cell_result INT4OID [x00; x00; x01; x00]) |}
      0 0 _ 0%Z eq_refl) eq_refl eq_refl)).
Defined.

(** C9, as amended: when the type of the column is neither text nor
    varchar, [db_result_get_string] never returns success with a value: with
    assertions compiled out it returns failure and leaves the null pointer
    in [*str] (or [*str] untouched when there is no cell), with assertions
    compiled in the run ends at its [assert(false)].  When the type of the
    column is not boolean, [db_result_get_bool] returns failure and [*b] is
    [false] (or untouched when there is no cell). *)
Theorem get_string_and_bool_check_type :
  forall (NDEBUG : bool) (result : dbres_t) (row column : nat),
    (forall str : option (list byte),
       result_ftype result column <> TEXTOID ->
       result_ftype result column <> VARCHAROID ->
       (forall v, db_result_get_string NDEBUG result row column str
                  <> Done (true, v))
       /\ (NDEBUG = true ->
           db_result_get_string NDEBUG result row column str
           = Done (false, match db_result_getval result row column with
                          | Some _ => None
                          | None => str
                          end))
       /\ (NDEBUG = false ->
           db_result_get_string NDEBUG result row column str
           = Stop AssertFailed))
    /\
    (forall b : bool,
       result_ftype result column <> BOOLOID ->
       db_result_get_bool result row column b
       = (false, match db_result_getval result row column with
                 | Some _ => false
                 | None => b
                 end)).
Proof.
  intros NDEBUG result row column. split.
  - intros str Ht Hv.
    apply Z.eqb_neq in Ht. apply Z.eqb_neq in Hv.
    unfold db_result_get_string, assert_.
    destruct (db_result_getval result row column) as [d|];
      rewrite ?Ht, ?Hv; destruct NDEBUG; cbn;
      (repeat split; try congruence; try discriminate).
  - intros b Ht. apply Z.eqb_neq in Ht.
    unfold db_result_get_bool.
    destruct (db_result_getval result row column) as [d|];
      rewrite ?Ht; reflexivity.
Qed.

Lemma get_string_and_bool_check_type_witness :
  db_result_get_string true
      {| res := Some (cell_result INT4OID [x00; x00; x00; x07]) |} 0 0
      (Some [x41])
    = Done (false, None)
  /\ db_result_get_bool
      {| res := Some (cell_result INT4OID [x00; x00; x00; x07]) |} 0 0 true
    = (false, false).
Proof.
  pose proof (get_string_and_bool_check_type true
    {| res := Some (cell_result INT4OID [x00; x00; x00; x07]) |} 0 0)
    as [Hs Hb].
  split.
  - refine (proj1 (proj2 (Hs (Some [x41]) _ _)) eq_refl);
      vm_compute; discriminate.
  - refine (Hb true _). vm_compute; discriminate.
Defined.

(** With assertions compiled in, [db_result_get_string] on a cell of an
    INT4 column does not return a failure to its caller: the run ends at
    the [assert(false)] of line 485. *)
Lemma get_string_wrong_type_asserts :
  result_ftype {| res := Some (cell_result INT4OID [x00; x00; x00; x07]) |}
               0 = INT4OID
  /\ db_result_get_string false
       {| res := Some (cell_result INT4OID [x00; x00; x00; x07]) |} 0 0
       None
     = Stop AssertFailed
  /\ (forall r : bool * option (list byte),
        db_result_get_string false
          {| res := Some (cell_result INT4OID [x00; x00; x00; x07]) |} 0 0
          None
        <> Done r).
Proof.
  split; [reflexivity|].
  assert (E : db_result_get_string false
                {| res := Some (cell_result INT4OID [x00; x00; x00; x07]) |}
                0 0 None
              = Stop AssertFailed) by (vm_compute; reflexivity).
  split; [exact E|]. intros r. rewrite E. discriminate.
Qed.

(** ** Releasing a result *)

(** C10: [db_query_finish] always leaves the mutex free.  When [result] is
    not null and holds a result, the scratch buffer is zeroed and the
    handle set to null; when [result] is null or holds no result, the
    buffer and the handle are as before. *)
Theorem db_query_finish_effects :
  forall (db : dbconn_t) (result : option dbres_t) (w : world),
    let '(db', result', w') := db_query_finish db result w in
    mutex db' = false
    /\ conn db' = conn db
    /\ match result with
       | Some {| res := Some _ |} =>
           q db' = zeros (length (q db)) /\ result' = Some {| res := None |}
           /\ cleared w' = S (cleared w)
       | _ => q db' = q db /\ result' = result /\ w' = w
       end.
Proof.
  intros db [[[pr|]]|] w; cbn; repeat split; reflexivity.
Qed.

(** ** Connecting *)

Lemma set_conn_same (db : dbconn_t) : set_conn db (conn db) = db.
Proof. now destruct db. Qed.

Lemma set_conn_twice (db : dbconn_t) (a b : option PGconn) :
  set_conn (set_conn db a) b = set_conn db b.
Proof. reflexivity. Qed.

Section Connect.

Variable NDEBUG : bool.
Variable connect_ok : nat -> bool.
Variable keep_running : nat -> bool.

Local Abbreviation tryconnect := (db_tryconnect NDEBUG connect_ok).
Local Abbreviation connect_loop := (db_connect_loop NDEBUG connect_ok keep_running).
Local Abbreviation connect := (db_connect NDEBUG connect_ok keep_running).

Lemma assert_true : assert_ NDEBUG true = Done tt.
Proof. unfold assert_. now rewrite orb_true_r. Qed.

(** What one call of [db_tryconnect] leaves behind. *)
Lemma db_tryconnect_frame (db db' : dbconn_t) (w w' : world) (ok : bool) :
  tryconnect db w = Done (ok, db', w') ->
  db' = set_conn db (conn db')
  /\ sent w' = sent w /\ cleared w' = cleared w
  /\ connects w <= connects w' <= S (connects w)
  /\ (ok = false -> conn db' = None)
  /\ (ok = true -> conn db' = Some (connects w)
                   /\ connect_ok (connects w) = true).
Proof.
  unfold db_tryconnect, assert_.
  destruct (NDEBUG || is_null (conn db)); cbn [bind]; [|discriminate].
  destruct (conninfo db).
  - destruct (connect_ok (connects w)) eqn:E; intros [= <- <- <-]; cbn;
      repeat split; try lia; try discriminate; auto.
  - intros [= <- <- <-]; cbn; repeat split; try lia; discriminate.
Qed.

(** The loop of [db_connect] neither sends nor clears anything and touches
    only the handle of the connection. *)
Lemma db_connect_loop_frame (fuel : nat) :
  forall (i : Z) (db db' : dbconn_t) (w w' : world),
    connect_loop fuel i db w = Done (db', w') ->
    db' = set_conn db (conn db')
    /\ sent w' = sent w /\ cleared w' = cleared w
    /\ connects w <= connects w'.
Proof.
  induction fuel as [|fuel IH]; intros i db db' w w'; cbn [db_connect_loop].
  - destruct (keeptrying db || (i <? 3)%Z); [discriminate|].
    intros [= <- <-]. rewrite set_conn_same. auto.
  - destruct (keeptrying db || (i <? 3)%Z).
    2:{ intros [= <- <-]. rewrite set_conn_same. auto. }
    destruct (tryconnect db w) as [[[ok db1] w1]|] eqn:T; cbn [bind];
      [|discriminate].
    apply db_tryconnect_frame in T as (Hdb & Hs & Hc & Hn & _).
    destruct ok.
    + intros [= <- <-]. repeat split; auto; lia.
    + destruct (keep_running (polls w1)); cbn [negb].
      * intros L. apply IH in L as (Hdb' & Hs' & Hc' & Hn').
        cbn in Hs', Hc', Hn'.
        rewrite Hdb' , Hdb at 1. rewrite set_conn_twice.
        repeat split; try congruence; lia.
      * intros [= <- <-]. cbn. repeat split; auto; lia.
Qed.

Lemma db_connect_frame (fuel : nat) (db db' : dbconn_t) (w w' : world)
    (b : bool) :
  connect fuel db w = Done (b, db', w') ->
  db' = set_conn db (conn db')
  /\ sent w' = sent w /\ cleared w' = cleared w
  /\ connects w <= connects w'.
Proof.
  unfold db_connect.
  destruct (assert_ NDEBUG (is_null (conn db))); cbn [bind]; [|discriminate].
  destruct (connect_loop fuel 0 db w) as [[db1 w1]|] eqn:L; cbn [bind];
    [|discriminate].
  intros [= _ <- <-]. now apply db_connect_loop_frame in L.
Qed.

Lemma db_tryconnect_runs (db : dbconn_t) (w : world) :
  conn db = None ->
  exists ok db' w', tryconnect db w = Done (ok, db', w').
Proof.
  intros Hc. unfold db_tryconnect. rewrite Hc. cbn [is_null].
  rewrite assert_true. cbn [bind].
  destruct (conninfo db); [destruct (connect_ok (connects w))|]; eauto.
Qed.

(** A handle left by the loop comes from a [PQconnectdb] that gave
    [CONNECTION_OK]. *)
Lemma db_connect_loop_conn (fuel : nat) :
  forall (i : Z) (db db' : dbconn_t) (w w' : world) (k : PGconn),
    conn db = None ->
    connect_loop fuel i db w = Done (db', w') ->
    conn db' = Some k -> connect_ok k = true.
Proof.
  induction fuel as [|fuel IH]; intros i db db' w w' k Hc; cbn [db_connect_loop].
  - destruct (keeptrying db || (i <? 3)%Z); [discriminate|].
    intros [= <- <-]. congruence.
  - destruct (keeptrying db || (i <? 3)%Z).
    2:{ intros [= <- <-]. congruence. }
    destruct (tryconnect db w) as [[[ok db1] w1]|] eqn:T; cbn [bind];
      [|discriminate].
    apply db_tryconnect_frame in T as (_ & _ & _ & _ & Hf & Ht).
    destruct ok.
    + intros [= <- <-] Hk. destruct (Ht eq_refl) as [E1 E2]. congruence.
    + specialize (Hf eq_refl).
      destruct (keep_running (polls w1)); cbn [negb].
      * intros L Hk. exact (IH _ _ _ _ _ _ Hf L Hk).
      * intros [= <- <-]. congruence.
Qed.

(** Without [keeptrying] the loop is left after at most [3 - i] calls of
    [PQconnectdb], and [3 - i] units of fuel are enough. *)
Lemma db_connect_loop_bounded (fuel : nat) :
  forall (i : Z) (db : dbconn_t) (w : world),
    keeptrying db = false -> conn db = None ->
    (0 <= i <= 3)%Z -> (3 - i <= Z.of_nat fuel)%Z ->
    exists db' w',
      connect_loop fuel i db w = Done (db', w')
      /\ (Z.of_nat (connects w') <= Z.of_nat (connects w) + (3 - i))%Z.
Proof.
  induction fuel as [|fuel IH]; intros i db w Hk Hc Hi Hf;
    cbn [db_connect_loop]; rewrite Hk; cbn [orb].
  - assert (i = 3%Z) as -> by lia. cbn. exists db, w. split; [reflexivity|lia].
  - destruct (i <? 3)%Z eqn:Hlt.
    2:{ exists db, w. split; [reflexivity|lia]. }
    apply Z.ltb_lt in Hlt.
    destruct (db_tryconnect_runs db w Hc) as (ok & db1 & w1 & T).
    rewrite T. cbn [bind].
    apply db_tryconnect_frame in T as (Hdb & _ & _ & Hn & Hno & _).
    destruct ok.
    + exists db1, w1. split; [reflexivity|]. lia.
    + specialize (Hno eq_refl).
      destruct (keep_running (polls w1)); cbn [negb].
      * rewrite Z.mod_small by lia.
        assert (Hk1 : keeptrying db1 = false) by (rewrite Hdb; exact Hk).
        destruct (IH (i + 1)%Z db1 (note_sleep (note_poll w1) (i mod 28 + 2))
                     Hk1 Hno) as (db' & w' & L & B); try lia.
        exists db', w'. split; [exact L|]. cbn [connects note_sleep note_poll] in B. lia.
      * exists db1, (note_poll w1). split; [reflexivity|].
        cbn [connects note_poll]. lia.
Qed.

End Connect.

(** ** Executing *)

Section Execute.

Variable NDEBUG : bool.
Variable connect_ok : nat -> bool.
Variable exec_reply : nat -> option PGresult.
Variable keep_running : nat -> bool.

Local Abbreviation connect := (db_connect NDEBUG connect_ok keep_running).
Local Abbreviation ensure :=
  (ensure_connected NDEBUG connect_ok keep_running).
Local Abbreviation loop :=
  (exec_loop NDEBUG connect_ok exec_reply keep_running).
Local Abbreviation query :=
  (db_query NDEBUG connect_ok exec_reply keep_running).

Lemma ensure_connected_frame (fuel : nat) (db db' : dbconn_t)
    (w w' : world) :
  ensure fuel db w = Done (db', w') ->
  db' = set_conn db (conn db')
  /\ sent w' = sent w /\ cleared w' = cleared w
  /\ connects w <= connects w'.
Proof.
  unfold ensure_connected. destruct (is_null (conn db)).
  - destruct (connect fuel db w) as [[[b db1] w1]|] eqn:C; cbn [bind];
      [|discriminate].
    intros [= <- <-]. now apply db_connect_frame in C.
  - intros [= <- <-]. rewrite set_conn_same. auto.
Qed.

Lemma ensure_connected_live (fuel : nat) (db : dbconn_t) (w : world)
    (c : PGconn) :
  conn db = Some c -> ensure fuel db w = Done (db, w).
Proof. intros H. unfold ensure_connected. now rewrite H. Qed.

Lemma ensure_connected_down (fuel : nat) (db db' : dbconn_t) (w w' : world)
    (b : bool) :
  conn db = None -> connect fuel db w = Done (b, db', w') ->
  ensure fuel db w = Done (db', w').
Proof.
  intros H C. unfold ensure_connected. now rewrite H, C.
Qed.

(** A turn of the loop whose [PQexecParams] returns the null pointer. *)
Lemma exec_turn_no_result (fuel left : nat) (ps : list param)
    (rep : dbreply_t) (db db1 : dbconn_t) (result : dbres_t)
    (w w1 : world) (c : PGconn) :
  ensure fuel db w = Done (db1, w1) -> conn db1 = Some c ->
  exec_reply (length (sent w1)) = None ->
  loop fuel (S left) ps rep db result w
  = loop fuel left ps DB_R_ERR (set_conn db1 None) {| res := None |}
         (note_finish (note_sent w1 c (c_str (q db1)) ps) c).
Proof.
  intros E C R. cbn [exec_loop]. rewrite E, C, R. reflexivity.
Qed.

(** A turn of the loop whose [PQexecParams] returns a result. *)
Lemma exec_turn_result (fuel left : nat) (ps : list param)
    (rep : dbreply_t) (db db1 : dbconn_t) (result : dbres_t)
    (w w1 : world) (c : PGconn) (pr : PGresult) :
  ensure fuel db w = Done (db1, w1) -> conn db1 = Some c ->
  exec_reply (length (sent w1)) = Some pr ->
  loop fuel (S left) ps rep db result w
  = let w2 := note_sent w1 c (c_str (q db1)) ps in
    let rep1 := if is_duplicate (PQresultErrorField_SQLSTATE pr)
                then DB_R_DUPLICATE_KEY else DB_R_ERR in
    if status_ok (PQresultStatus pr) then
      Returned DB_R_OK {| s_db := db1; s_result := {| res := Some pr |};
                          s_world := w2 |}
    else if is_fatal (PQresultStatus pr)
            && is_null (PQresultErrorField_SQLSTATE pr) then
      loop fuel left ps rep1 (set_conn db1 None) {| res := Some pr |}
           (note_finish w2 c)
    else
      Returned rep1 {| s_db := db1; s_result := {| res := Some pr |};
                       s_world := w2 |}.
Proof.
  intros E C R. cbn [exec_loop]. rewrite E, C, R.
  destruct (status_ok (PQresultStatus pr)); reflexivity.
Qed.

(** A turn of the loop that finds no connection and gets none. *)
Lemma exec_turn_no_connection (fuel left : nat) (ps : list param)
    (rep : dbreply_t) (db db1 : dbconn_t) (result : dbres_t)
    (w w1 : world) :
  ensure fuel db w = Done (db1, w1) -> conn db1 = None ->
  loop fuel (S left) ps rep db result w
  = Returned DB_R_ERR {| s_db := mutex_unlock db1; s_result := result;
                         s_world := w1 |}.
Proof.
  intros E C. cbn [exec_loop]. rewrite E, C. reflexivity.
Qed.

(** The loop calls [PQexecParams] at most once a turn. *)
Lemma exec_loop_sends (fuel left : nat) :
  forall (ps : list param) (rep rep' : dbreply_t) (db : dbconn_t)
         (result : dbres_t) (w : world) (s : state),
    loop fuel left ps rep db result w = Returned rep' s ->
    length (sent (s_world s)) <= length (sent w) + left.
Proof.
  induction left as [|left IH]; intros ps rep rep' db result w s.
  - cbn. intros [= _ <-]. cbn. lia.
  - destruct (ensure fuel db w) as [[db1 w1]|] eqn:E.
    2:{ cbn [exec_loop]. rewrite E. discriminate. }
    pose proof (ensure_connected_frame _ _ _ _ _ E) as (_ & Hs & _).
    destruct (conn db1) as [c|] eqn:C.
    2:{ rewrite (exec_turn_no_connection _ _ _ _ _ _ _ _ _ E C).
        intros [= _ <-]. cbn. rewrite Hs. lia. }
    destruct (exec_reply (length (sent w1))) as [pr|] eqn:R.
    + rewrite (exec_turn_result _ _ _ _ _ _ _ _ _ _ _ E C R). cbv zeta.
      destruct (status_ok (PQresultStatus pr)).
      * intros [= _ <-]. cbn. rewrite length_app, Hs. cbn. lia.
      * destruct (is_fatal (PQresultStatus pr)
                  && is_null (PQresultErrorField_SQLSTATE pr)).
        -- intros L. apply IH in L. cbn in L.
           rewrite length_app, Hs in L. cbn in L. lia.
        -- intros [= _ <-]. cbn. rewrite length_app, Hs. cbn. lia.
    + rewrite (exec_turn_no_result _ _ _ _ _ _ _ _ _ _ E C R).
      intros L. apply IH in L. cbn in L.
      rewrite length_app, Hs in L. cbn in L. lia.
Qed.

(** [db_query] called with the mutex held waits for it. *)
Lemma db_query_blocked (fuel : nat) (db : dbconn_t) (result : dbres_t)
    (txt : list ascii) (ap : list varg) (w : world) :
  mutex db = true -> query fuel db result txt ap w = Fault Blocked.
Proof. intros M. unfold db_query, mutex_lock. now rewrite M. Qed.

(** [db_query] called with the mutex free, from line 167 on. *)
Lemma db_query_free (fuel : nat) (db : dbconn_t) (result : dbres_t)
    (txt : list ascii) (ap : list varg) (w : world) :
  mutex db = false ->
  query fuel db result txt ap w
  = match res result with
    | Some _ => Abort {| s_db := mutex_locked db; s_result := result;
                         s_world := w |}
    | None =>
      match compile (q db) txt ap with
      | Stop f => Fault f
      | Done f =>
        match f_rep f with
        | DB_R_OK => loop fuel 2 (f_params f) DB_R_OK
                          (set_q (mutex_locked db) (f_q f)) result w
        | _ =>
          Returned DB_R_ERR
            {| s_db := mutex_unlock (set_q (mutex_locked db) (f_q f));
               s_result := result; s_world := w |}
        end
      end
    end.
Proof. intros M. unfold db_query, mutex_lock. now rewrite M. Qed.

(** After a template that compiled, [db_query] is its loop of two turns. *)
Lemma db_query_compiled (fuel : nat) (db : dbconn_t) (result : dbres_t)
    (txt : list ascii) (ap : list varg) (w : world) (f : frame) :
  mutex db = false ->
  res result = None -> compile (q db) txt ap = Done f ->
  f_rep f = DB_R_OK ->
  query fuel db result txt ap w
  = loop fuel 2 (f_params f) DB_R_OK (set_q (mutex_locked db) (f_q f))
         result w.
Proof.
  intros M R C K. rewrite (db_query_free _ _ _ _ _ _ M), R, C, K.
  reflexivity.
Qed.

End Execute.

(** ** [db_query]: classification of a failed statement *)

Lemma is_duplicate_code (code : list ascii) :
  is_duplicate (Some code) = true <-> c_str code = ERRCODE_UNIQUE_VIOLATION.
Proof. cbn [is_duplicate]. apply list_ascii_eqb_eq. Qed.

(** C6: on any turn of the loop of [db_query], when [PQexecParams] returns
    a result whose status is neither [PGRES_COMMAND_OK] nor
    [PGRES_TUPLES_OK] and which carries an SQLSTATE, the call returns at
    once, with the statement sent once on this turn and the connection
    kept: [DB_R_DUPLICATE_KEY] when the SQLSTATE is "23505", [DB_R_ERR]
    otherwise.  The first turn of [db_query], called with the mutex free,
    after a template that compiled is such a turn.  The two replies are
    different values. *)
Theorem coded_failure_classified_not_retried :
  forall (NDEBUG : bool) (connect_ok : nat -> bool)
         (exec_reply : nat -> option PGresult) (keep_running : nat -> bool)
         (fuel left : nat) (ps : list param) (rep : dbreply_t)
         (db db1 : dbconn_t) (result : dbres_t) (w w1 : world)
         (c : PGconn) (pr : PGresult) (code : list ascii),
    ensure_connected NDEBUG connect_ok keep_running fuel db w
      = Done (db1, w1) ->
    conn db1 = Some c ->
    exec_reply (length (sent w1)) = Some pr ->
    status_ok (PQresultStatus pr) = false ->
    PQresultErrorField_SQLSTATE pr = Some code ->
    let s := {| s_db := db1; s_result := {| res := Some pr |};
                s_world := note_sent w1 c (c_str (q db1)) ps |} in
    let reply := if list_ascii_eqb (c_str code) ERRCODE_UNIQUE_VIOLATION
                 then DB_R_DUPLICATE_KEY else DB_R_ERR in
    exec_loop NDEBUG connect_ok exec_reply keep_running fuel (S left) ps
              rep db result w = Returned reply s
    /\ (c_str code = ERRCODE_UNIQUE_VIOLATION -> reply = DB_R_DUPLICATE_KEY)
    /\ (c_str code <> ERRCODE_UNIQUE_VIOLATION -> reply = DB_R_ERR)
    /\ sent (s_world s) = sent w ++ [(c, c_str (q db1), ps)]
    /\ (forall (db0 : dbconn_t) (txt : list ascii) (ap : list varg)
               (f : frame),
          mutex db0 = false ->
          res result = None -> compile (q db0) txt ap = Done f ->
          f_rep f = DB_R_OK -> db = set_q (mutex_locked db0) (f_q f) ->
          ps = f_params f -> left = 1 ->
          db_query NDEBUG connect_ok exec_reply keep_running fuel db0
                   result txt ap w = Returned reply s)
    /\ DB_R_DUPLICATE_KEY <> DB_R_ERR.
Proof.
  intros NDEBUG connect_ok exec_reply keep_running fuel left ps rep db db1
         result w w1 c pr code E C R St Co s reply.
  assert (L : forall left' rep',
             exec_loop NDEBUG connect_ok exec_reply keep_running fuel
                       (S left') ps rep' db result w = Returned reply s).
  { intros left' rep'.
    rewrite (exec_turn_result _ _ _ _ _ _ _ _ _ _ _ _ _ _ _ E C R).
    cbv zeta. rewrite St, Co. cbn [is_null andb is_duplicate].
    rewrite andb_false_r. reflexivity. }
  split; [apply L|]. split; [|split; [|split; [|split]]].
  - intros H. subst reply. apply list_ascii_eqb_eq in H. now rewrite H.
  - intros H. subst reply.
    destruct (list_ascii_eqb (c_str code) ERRCODE_UNIQUE_VIOLATION) eqn:Q;
      [|reflexivity].
    apply list_ascii_eqb_eq in Q. contradiction.
  - cbn. apply ensure_connected_frame in E as (_ & Hs & _). now rewrite Hs.
  - intros db0 txt ap f M Rn Cf K -> -> ->.
    rewrite (db_query_compiled _ _ _ _ _ _ _ _ _ _ _ M Rn Cf K). apply L.
  - discriminate.
Qed.

Lemma coded_failure_classified_not_retried_witness :
  db_query false (fun _ => true)
           (fun _ => Some (status_result PGRES_FATAL_ERROR
                                         (Some (s2l "23505"))))
           (fun _ => true) 3 (live_db 64) no_result
           (s2l "INSERT INTO t VALUES(%u)") [VU32 7%Z] world0
  = Returned DB_R_DUPLICATE_KEY
      {| s_db := set_q (mutex_locked (live_db 64))
                       (blit (zeros 64) 0 (s2l "INSERT INTO t VALUES($1)"));
         s_result := {| res := Some (status_result PGRES_FATAL_ERROR
                                                   (Some (s2l "23505"))) |};
         s_world := note_sent world0 0 (s2l "INSERT INTO t VALUES($1)")
                      [ {| typ := INT4OID;
                           val := PBin [x00; x00; x00; x07];
                           len := 4; fmt := 1 |} ] |}.
Proof.
  set (p := {| typ := INT4OID; val := PBin [x00; x00; x00; x07];
               len := 4; fmt := 1 |}).
  set (m := blit (zeros 64) 0 (s2l "INSERT INTO t VALUES($1)")).
  set (db := set_q (mutex_locked (live_db 64)) m).
  set (pr := status_result PGRES_FATAL_ERROR (Some (s2l "23505"))).
  pose proof (coded_failure_classified_not_retried false (fun _ => true)
                (fun _ => Some pr) (fun _ => true) 3 1 [p] DB_R_OK
                db db no_result world0 world0 0 pr (s2l "23505")) as H.
  assert (E : ensure_connected false (fun _ => true) (fun _ => true) 3 db
                world0 = Done (db, world0)) by (vm_compute; reflexivity).
  assert (C : conn db = Some 0) by (vm_compute; reflexivity).
  assert (R : (fun _ : nat => Some pr) (length (sent world0)) = Some pr)
    by reflexivity.
  assert (St : status_ok (PQresultStatus pr) = false)
    by (vm_compute; reflexivity).
  assert (Co : PQresultErrorField_SQLSTATE pr = Some (s2l "23505"))
    by (vm_compute; reflexivity).
  specialize (H E C R St Co). cbv zeta in H.
  destruct H as (_ & _ & _ & _ & H & _).
  assert (Cf : compile (q (live_db 64)) (s2l "INSERT INTO t VALUES(%u)")
                 [VU32 7%Z]
               = Done {| f_q := m; f_o := 24; f_params := [p]; f_ap := [];
                         f_rep := DB_R_OK |}) by (vm_compute; reflexivity).
  specialize (H (live_db 64) (s2l "INSERT INTO t VALUES(%u)") [VU32 7%Z] _
                eq_refl eq_refl Cf eq_refl eq_refl eq_refl eq_refl).
  rewrite H. vm_compute. reflexivity.
Defined.

(** ** [db_query]: the resend after a transport failure *)

(** C5: a call of [db_query] that returns has called [PQexecParams] at most
    twice.  In a call made with the mutex free (on a held mutex the call
    waits at line 166), when the first [PQexecParams] returns no result,
    the connection
    is finished and its handle cleared, and [db_connect] is run once more.
    If that leaves no connection the call returns [DB_R_ERR] with the
    statement sent once.  Otherwise the statement is sent a second and last
    time: a result with status command-ok or rows-ok makes the call return
    [DB_R_OK], and no result again makes it return [DB_R_ERR] with the new
    connection finished and cleared as well. *)
Theorem transport_failure_resent_once :
  forall (NDEBUG : bool) (connect_ok : nat -> bool)
         (exec_reply : nat -> option PGresult) (keep_running : nat -> bool)
         (fuel : nat) (db : dbconn_t) (result : dbres_t)
         (txt : list ascii) (ap : list varg) (w : world),
    let query := db_query NDEBUG connect_ok exec_reply keep_running fuel db
                          result txt ap w in
    (forall rep s, query = Returned rep s ->
                   length (sent (s_world s)) <= length (sent w) + 2)
    /\
    (forall (f : frame) (db1 : dbconn_t) (w1 : world) (c : PGconn),
       mutex db = false ->
       res result = None -> compile (q db) txt ap = Done f ->
       f_rep f = DB_R_OK ->
       ensure_connected NDEBUG connect_ok keep_running fuel
                        (set_q (mutex_locked db) (f_q f)) w = Done (db1, w1) ->
       conn db1 = Some c ->
       exec_reply (length (sent w)) = None ->
       let sql := c_str (f_q f) in
       let ps := f_params f in
       let w2 := note_finish (note_sent w1 c sql ps) c in
       forall (b : bool) (db3 : dbconn_t) (w3 : world),
         db_connect NDEBUG connect_ok keep_running fuel (set_conn db1 None)
                    w2 = Done (b, db3, w3) ->
         match conn db3 with
         | None =>
           query = Returned DB_R_ERR
                     {| s_db := mutex_unlock db3;
                        s_result := {| res := None |}; s_world := w3 |}
           /\ sent w3 = sent w ++ [(c, sql, ps)]
         | Some c' =>
           let w4 := note_sent w3 c' sql ps in
           sent w4 = sent w ++ [(c, sql, ps); (c', sql, ps)]
           /\ (forall pr,
                 exec_reply (S (length (sent w))) = Some pr ->
                 status_ok (PQresultStatus pr) = true ->
                 query = Returned DB_R_OK
                           {| s_db := db3; s_result := {| res := Some pr |};
                              s_world := w4 |})
           /\ (exec_reply (S (length (sent w))) = None ->
               query = Returned DB_R_ERR
                         {| s_db := set_conn db3 None;
                            s_result := {| res := None |};
                            s_world := note_finish w4 c' |})
         end).
Proof.
  intros NDEBUG connect_ok exec_reply keep_running fuel db result txt ap w
         query.
  split.
  - intros rep s Q. subst query. unfold db_query, mutex_lock in Q.
    destruct (mutex db); [discriminate|].
    destruct (res result); [discriminate|].
    destruct (compile (q (mutex_locked db)) txt ap) as [f|]; [|discriminate].
    destruct (f_rep f).
    + now apply exec_loop_sends in Q.
    + injection Q as _ <-. cbn. lia.
    + injection Q as _ <-. cbn. lia.
  - intros f db1 w1 c M Rn Cf K E C R0 sql ps w2 b db3 w3 D.
    pose proof (ensure_connected_frame _ _ _ _ _ _ _ _ E) as (Hdb1 & Hs1 & _).
    pose proof (db_connect_frame _ _ _ _ _ _ _ _ _ D) as (Hdb3 & Hs3 & _).
    assert (Hq1 : q db1 = f_q f) by (rewrite Hdb1; reflexivity).
    assert (Hq3 : q db3 = f_q f) by (rewrite Hdb3; exact Hq1).
    assert (Hsent : sent w3 = sent w ++ [(c, sql, ps)]).
    { rewrite Hs3. cbn. now rewrite Hs1. }
    assert (Hlen : length (sent w3) = S (length (sent w))).
    { rewrite Hsent, length_app. cbn. lia. }
    assert (Q1 : query
                 = exec_loop NDEBUG connect_ok exec_reply keep_running fuel 1
                     ps DB_R_ERR (set_conn db1 None) {| res := None |} w2).
    { subst query.
      rewrite (db_query_compiled _ _ _ _ _ _ _ _ _ _ _ M Rn Cf K).
      rewrite <- Hs1 in R0.
      rewrite (exec_turn_no_result _ _ _ _ _ _ _ _ _ _ _ _ _ _ E C R0).
      now rewrite Hq1. }
    assert (E2 : ensure_connected NDEBUG connect_ok keep_running fuel
                   (set_conn db1 None) w2 = Done (db3, w3)).
    { now apply (ensure_connected_down _ _ _ _ _ _ _ _ b). }
    destruct (conn db3) as [c'|] eqn:C3.
    + cbv zeta. split; [|split].
      * cbn. now rewrite Hsent, <- app_assoc.
      * intros pr R1 St. rewrite Q1. rewrite <- Hlen in R1.
        rewrite (exec_turn_result _ _ _ _ _ _ _ _ _ _ _ _ _ _ _ E2 C3 R1).
        cbv zeta. now rewrite St, Hq3.
      * intros R1. rewrite Q1. rewrite <- Hlen in R1.
        rewrite (exec_turn_no_result _ _ _ _ _ _ _ _ _ _ _ _ _ _ E2 C3 R1).
        cbn [exec_loop]. now rewrite Hq3.
    + split; [|exact Hsent].
      rewrite Q1.
      now rewrite (exec_turn_no_connection _ _ _ _ _ _ _ _ _ _ _ _ _ E2 C3).
Qed.

Lemma transport_failure_resent_once_witness :
  let exec_reply := fun k : nat =>
        if k =? 0 then None else Some (status_result PGRES_TUPLES_OK None) in
  db_query false (fun _ => true) exec_reply (fun _ => true) 3 (live_db 64)
           no_result (s2l "SELECT 1") [] world0
  = Returned DB_R_OK
      {| s_db := set_conn
                   (set_q (mutex_locked (live_db 64))
                          (blit (zeros 64) 0 (s2l "SELECT 1")))
                   (Some 0);
         s_result := {| res := Some (status_result PGRES_TUPLES_OK None) |};
         s_world := note_sent
                      (note_connect
                         (note_finish
                            (note_sent world0 0 (s2l "SELECT 1") []) 0))
                      0 (s2l "SELECT 1") [] |}.
Proof.
  intros exec_reply.
  set (m := blit (zeros 64) 0 (s2l "SELECT 1")).
  set (f := {| f_q := m; f_o := 8; f_params := []; f_ap := [];
               f_rep := DB_R_OK |}).
  set (db1 := set_q (mutex_locked (live_db 64)) m).
  set (w2 := note_finish (note_sent world0 0 (s2l "SELECT 1") []) 0).
  pose proof (transport_failure_resent_once false (fun _ => true) exec_reply
                (fun _ => true) 3 (live_db 64) no_result (s2l "SELECT 1") []
                world0) as H.
  cbv zeta in H. destruct H as [_ H].
  assert (Cf : compile (q (live_db 64)) (s2l "SELECT 1") [] = Done f)
    by (vm_compute; reflexivity).
  assert (E : ensure_connected false (fun _ => true) (fun _ => true) 3
                (set_q (mutex_locked (live_db 64)) (f_q f)) world0
              = Done (db1, world0)) by (vm_compute; reflexivity).
  assert (C : conn db1 = Some 0) by (vm_compute; reflexivity).
  assert (R : exec_reply (length (sent world0)) = None)
    by (vm_compute; reflexivity).
  assert (D : db_connect false (fun _ => true) (fun _ => true) 3
                (set_conn db1 None)
                (note_finish (note_sent world0 0 (c_str (f_q f)) (f_params f))
                             0)
              = Done (true, set_conn db1 (Some 0), note_connect w2))
    by (vm_compute; reflexivity).
  specialize (H f db1 world0 0 eq_refl eq_refl Cf eq_refl E C R _ _ _ D).
  change (conn (set_conn db1 (Some 0))) with (Some 0) in H.
  cbv iota in H. destruct H as (_ & H & _).
  rewrite (H (status_result PGRES_TUPLES_OK None) eq_refl eq_refl).
  vm_compute. reflexivity.
Defined.

(** ** [db_query]: no connection to be had *)

(** C7: without [keeptrying], on a connection that is down and with every
    [PQconnectdb] failing, a call of [db_query] made with the mutex free
    and whose template compiler returns comes back with [DB_R_ERR] when
    given three units of fuel or more: [PQconnectdb] was called at most
    three times, nothing was sent, the connection is still down and the
    mutex is free again. *)
Theorem db_query_gives_up_connecting :
  forall (NDEBUG : bool) (connect_ok : nat -> bool)
         (exec_reply : nat -> option PGresult) (keep_running : nat -> bool)
         (fuel : nat) (db : dbconn_t) (result : dbres_t)
         (txt : list ascii) (ap : list varg) (w : world) (f : frame),
    3 <= fuel ->
    mutex db = false ->
    keeptrying db = false -> conn db = None ->
    (forall k, connect_ok k = false) ->
    res result = None -> compile (q db) txt ap = Done f ->
    exists s,
      db_query NDEBUG connect_ok exec_reply keep_running fuel db result
               txt ap w = Returned DB_R_ERR s
      /\ connects (s_world s) <= connects w + 3
      /\ sent (s_world s) = sent w
      /\ conn (s_db s) = None
      /\ mutex (s_db s) = false.
Proof.
  intros NDEBUG connect_ok exec_reply keep_running fuel db result txt ap w f
         Hfuel M Hk Hc Hfail Rn Cf.
  destruct (f_rep f) eqn:K.
  - rewrite (db_query_compiled _ _ _ _ _ _ _ _ _ _ _ M Rn Cf K).
    set (db0 := set_q (mutex_locked db) (f_q f)).
    assert (Hc0 : conn db0 = None) by exact Hc.
    destruct (db_connect_loop_bounded NDEBUG connect_ok keep_running fuel
                0%Z db0 w Hk Hc0) as (db1 & w1 & L & B); try lia.
    assert (D : db_connect NDEBUG connect_ok keep_running fuel db0 w
                = Done (negb (is_null (conn db1)), db1, w1)).
    { unfold db_connect. rewrite Hc0.
      cbn [is_null]. rewrite assert_true. cbn [bind]. rewrite L.
      reflexivity. }
    assert (C1 : conn db1 = None).
    { destruct (conn db1) as [k|] eqn:C1; [|reflexivity].
      pose proof (db_connect_loop_conn _ _ _ _ _ _ _ _ _ _ Hc0 L C1) as T.
      rewrite Hfail in T. discriminate. }
    pose proof (db_connect_loop_frame _ _ _ _ _ _ _ _ _ L) as (_ & Hs & _).
    rewrite (exec_turn_no_connection _ _ _ _ _ _ _ _ _ _ _ _ _
               (ensure_connected_down _ _ _ _ _ _ _ _ _ Hc0 D) C1).
    eexists. split; [reflexivity|]. cbn. repeat split; auto. lia.
  - rewrite (db_query_free _ _ _ _ _ _ _ _ _ _ M), Rn, Cf, K.
    eexists. split; [reflexivity|]. cbn.
    repeat split; auto. lia.
  - rewrite (db_query_free _ _ _ _ _ _ _ _ _ _ M), Rn, Cf, K.
    eexists. split; [reflexivity|]. cbn.
    repeat split; auto. lia.
Qed.

Lemma db_query_gives_up_connecting_witness :
  exists s,
    db_query false (fun _ => false)
             (fun _ => Some (status_result PGRES_TUPLES_OK None))
             (fun _ => true) 3 (fresh_db 64) no_result
             (s2l "SELECT 1") [] world0 = Returned DB_R_ERR s
    /\ connects (s_world s) <= connects world0 + 3
    /\ sent (s_world s) = sent world0
    /\ conn (s_db s) = None
    /\ mutex (s_db s) = false.
Proof.
  assert (Cf : compile (q (fresh_db 64)) (s2l "SELECT 1") []
               = Done {| f_q := blit (zeros 64) 0 (s2l "SELECT 1");
                         f_o := 8; f_params := []; f_ap := [];
                         f_rep := DB_R_OK |}) by (vm_compute; reflexivity).
  exact (db_query_gives_up_connecting false (fun _ => false)
           (fun _ => Some (status_result PGRES_TUPLES_OK None))
           (fun _ => true) 3 (fresh_db 64) no_result (s2l "SELECT 1") []
           world0 _ (le_n 3) eq_refl eq_refl eq_refl (fun _ => eq_refl)
           eq_refl Cf).
Defined.

(** ** The template compiler *)

(** Evaluates the left-hand side of an equation on closed terms. *)
Ltac compiles_by_evaluation :=
  lazymatch goal with
  | |- compiles_to ?m ?txt ?ap _ _ =>
    let v := eval vm_compute in (compile m txt ap) in
    lazymatch v with
    | Done ?f =>
      exists f; split; [vm_cast_no_check (eq_refl (Done f))|];
      split; [|split]; vm_compute; reflexivity
    end
  end.

Example compile_scenario_64 :
  compiles_to (zeros 64) scenario_template scenario_args
    (s2l "SELECT id FROM t WHERE gw=$1 AND name=$2")
    [ {| typ := INT4OID; val := PBin [x00; x00; x00; x07]; len := 4;
         fmt := 1 |};
      {| typ := TEXTOID; val := PText (s2l "alice"); len := 0; fmt := 0 |} ].
Proof. compiles_by_evaluation. Qed.

Example render_scenario :
  render 1 scenario_template scenario_args
  = Some (s2l "SELECT id FROM t WHERE gw=$1 AND name=$2",
          [ {| typ := INT4OID; val := PBin [x00; x00; x00; x07]; len := 4;
               fmt := 1 |};
            {| typ := TEXTOID; val := PText (s2l "alice"); len := 0;
               fmt := 0 |} ]).
Proof. vm_compute. reflexivity. Qed.

(** *** Stores into the buffer *)

Lemma blit_length (m : list ascii) (i : nat) (s : list ascii) :
  i + length s <= length m -> length (blit m i s) = length m.
Proof.
  intros H. unfold blit.
  rewrite !length_app, length_firstn, length_skipn. lia.
Qed.

Lemma blit_prefix (m : list ascii) (i : nat) (s t : list ascii) :
  i <= length m ->
  firstn (i + length s) (blit m i (s ++ t)) = firstn i m ++ s.
Proof.
  intros H. unfold blit.
  rewrite <- (app_assoc s t), (app_assoc (firstn i m) s).
  assert (L : length (firstn i m ++ s) = i + length s).
  { rewrite length_app, length_firstn. lia. }
  rewrite <- L, firstn_app, Nat.sub_diag, firstn_O, app_nil_r.
  apply firstn_all.
Qed.

Lemma blit_split (m : list ascii) (i : nat) (s : list ascii) :
  blit m i s = firstn i m ++ s ++ skipn (i + length s) m.
Proof. vm_compute. reflexivity. Qed.

Lemma c_str_terminated (s t : list ascii) :
  ~ In NUL s -> c_str (s ++ NUL :: t) = s.
Proof.
  induction s as [|c s IH]; intros H; cbn.
  - reflexivity.
  - destruct (Ascii.eqb c NUL) eqn:E.
    + apply Ascii.eqb_eq in E. exfalso. apply H. now left.
    + f_equal. apply IH. intros I. apply H. now right.
Qed.

Lemma store_in_bounds (m : list ascii) (i : nat) (c : ascii) :
  i < length m -> store m i c = Done (blit m i [c]).
Proof.
  intros H. unfold store. apply Nat.ltb_lt in H. now rewrite H.
Qed.

Lemma store_out_of_bounds (m : list ascii) (i : nat) (c : ascii) :
  length m <= i -> store m i c = Stop OutOfBounds.
Proof.
  intros H. unfold store. apply Nat.ltb_ge in H. now rewrite H.
Qed.

(** [snprintf] with room for the text and its NUL. *)
Lemma emit_fits (s : list ascii) (ps : list param) (ap : list varg)
    (f : frame) :
  f_o f + length s < length (f_q f) ->
  emit s ps ap f
  = {| f_q := blit (f_q f) (f_o f) (s ++ [NUL]);
       f_o := f_o f + length s; f_params := ps; f_ap := ap;
       f_rep := f_rep f |}.
Proof.
  intros H. unfold emit, snprintf, snprintfok.
  destruct (length (f_q f) - f_o f) as [|room] eqn:E; [lia|].
  rewrite firstn_all2 by lia.
  assert (L : (length s <? S room) = true) by (apply Nat.ltb_lt; lia).
  now rewrite L.
Qed.

(** [snprintf] without that room: [rep] becomes [DB_R_ERR], [o] stays. *)
Lemma emit_cut (s : list ascii) (ps : list param) (ap : list varg)
    (f : frame) :
  length (f_q f) <= f_o f + length s ->
  f_rep (emit s ps ap f) = DB_R_ERR /\ f_o (emit s ps ap f) = f_o f.
Proof.
  intros H. unfold emit.
  destruct (snprintf (f_q f) (f_o f) (length (f_q f) - f_o f) s)
    as [m n] eqn:E.
  assert (n = length s) as ->.
  { unfold snprintf in E. destruct (length (f_q f) - f_o f); now inversion E. }
  assert (L : snprintfok (length s) (length (f_q f) - f_o f) = false).
  { apply Nat.ltb_ge. lia. }
  rewrite L. cbn. auto.
Qed.

(** *** One step of the loop *)

Lemma prepare_literal (c : ascii) (rest : list ascii) (f : frame) :
  f_rep f = DB_R_OK -> is_literal c = true ->
  prepare (c :: rest) f
  = (m <- store (f_q f) (f_o f) c;;
     prepare rest {| f_q := m; f_o := S (f_o f); f_params := f_params f;
                     f_ap := f_ap f; f_rep := f_rep f |}).
Proof.
  intros K L. unfold is_literal in L. apply andb_prop in L as [L1 L2].
  cbn [prepare]. rewrite K.
  destruct (Ascii.eqb c NUL); [discriminate|].
  destruct (Ascii.eqb c "%"); [discriminate|]. reflexivity.
Qed.

Lemma prepare_directive (d : ascii) (rest : list ascii) (f : frame) :
  f_rep f = DB_R_OK -> f_v f < DB_MAX_PARAMS ->
  prepare ("%"%char :: d :: rest) f
  = (f' <- directive d f;; prepare rest f').
Proof.
  intros K V. cbn [prepare]. rewrite K.
  change (Ascii.eqb "%" NUL) with false.
  change (Ascii.eqb "%" "%") with true. cbn [negb].
  apply Nat.leb_gt in V. now rewrite V.
Qed.

(** The guard of line 195 leaves the loop and leaves [rep] as it is. *)
Lemma prepare_full (rest : list ascii) (f : frame) :
  f_rep f = DB_R_OK -> DB_MAX_PARAMS <= f_v f ->
  prepare ("%"%char :: rest) f = Done f.
Proof.
  intros K V. cbn [prepare]. rewrite K.
  change (Ascii.eqb "%" NUL) with false.
  change (Ascii.eqb "%" "%") with true. cbn [negb].
  apply Nat.leb_le in V. now rewrite V.
Qed.

Lemma prepare_stopped (txt : list ascii) (f : frame) :
  f_rep f <> DB_R_OK -> prepare txt f = Done f.
Proof.
  intros K. destruct txt; cbn [prepare]; destruct (f_rep f); congruence.
Qed.

Lemma kind_of_table (d : ascii) (k : kind) :
  kind_of d = Some k -> In (d, k) directive_table.
Proof.
  unfold kind_of. intros H.
  destruct (find (fun e => Ascii.eqb d (fst e)) directive_table)
    as [[d' k']|] eqn:F; [|discriminate].
  cbn in H. injection H as ->.
  apply find_some in F as [I E]. cbn in E.
  apply Ascii.eqb_eq in E. now subst d'.
Qed.

(** The switch of the code and the table of the specification agree. *)
Lemma directive_contribution (d : ascii) (k : kind) (a : varg)
    (ap : list varg) (s : list ascii) (p : list param) (f : frame) :
  kind_of d = Some k -> f_ap f = a :: ap ->
  contribution k a (S (f_v f)) = Some (s, p) ->
  directive d f = Done (emit s (f_params f ++ p) ap f)
  /\ length p = (if is_bound d then 1 else 0).
Proof.
  intros Hk Ha Hc. apply kind_of_table in Hk.
  unfold directive_table in Hk. cbn [In] in Hk.
  repeat (destruct Hk as [Hk|Hk]; [injection Hk as <- <-|]);
    try contradiction;
    destruct a; cbn in Hc; try discriminate;
    injection Hc as <- <-;
    unfold directive; cbn [Ascii.eqb Bool.eqb NUL zero]; rewrite Ha;
    cbn [va_arg_str va_arg_u32 va_arg_u64 bind];
    unfold emit_bound, placeholder, htonl_mem, htonll_mem, f_v;
    rewrite ?length_app, ?app_nil_r; cbn [length];
    rewrite ?Nat.add_1_r; split; reflexivity.
Qed.

(** *** The loop follows the scan of the specification *)

Lemma room_from_intro (ds : list ascii) :
  forall v,
    (forall k, k < length ds ->
               v + length (filter is_bound (firstn k ds)) < DB_MAX_PARAMS) ->
    room_from v ds.
Proof.
  induction ds as [|d ds IH]; intros v H; cbn [room_from]; [exact I|].
  split.
  - specialize (H 0). cbn in H. lia.
  - apply IH. intros k Hk.
    specialize (H (S k)). cbn [length firstn filter] in H.
    destruct (is_bound d); cbn [length] in H; lia.
Qed.

Lemma directives_have_room_from (txt : list ascii) :
  directives_have_room txt -> room_from 0 (directive_letters txt).
Proof.
  intros H. apply room_from_intro. intros k Hk. apply (H k Hk).
Qed.

(** The loop renders the template up to the first directive, if any, that
    it meets with the parameter list full, and stops there with [rep]
    unchanged.  When at most [DB_MAX_PARAMS] parameters are bound in all,
    the part [txt2] left out binds none. *)
Lemma prepare_refines (n : nat) :
  forall (txt : list ascii) (f : frame) (sql : list ascii)
         (ps : list param),
    length txt <= n ->
    f_rep f = DB_R_OK ->
    render (S (f_v f)) txt (f_ap f) = Some (sql, ps) ->
    f_v f + length ps <= DB_MAX_PARAMS ->
    ~ In NUL sql ->
    f_o f + length sql < length (f_q f) ->
    exists f' txt1 txt2 sql1 sql2,
      txt = txt1 ++ txt2 /\ sql = sql1 ++ sql2
      /\ render (S (f_v f)) txt1 (f_ap f) = Some (sql1, ps)
      /\ prepare txt f = Done f' /\ f_rep f' = DB_R_OK
      /\ f_o f' = f_o f + length sql1
      /\ length (f_q f') = length (f_q f)
      /\ firstn (f_o f') (f_q f') = firstn (f_o f) (f_q f) ++ sql1
      /\ f_params f' = f_params f ++ ps
      /\ (room_from (f_v f) (directive_letters txt) ->
          txt2 = [] /\ sql2 = []).
Proof.
  assert (Base : forall f : frame,
             f_rep f = DB_R_OK ->
             exists f' txt1 txt2 sql1 sql2,
               @nil ascii = txt1 ++ txt2 /\ @nil ascii = sql1 ++ sql2
               /\ render (S (f_v f)) txt1 (f_ap f) = Some (sql1, [])
               /\ prepare [] f = Done f' /\ f_rep f' = DB_R_OK
               /\ f_o f' = f_o f + length sql1
               /\ length (f_q f') = length (f_q f)
               /\ firstn (f_o f') (f_q f') = firstn (f_o f) (f_q f) ++ sql1
               /\ f_params f' = f_params f ++ []
               /\ (room_from (f_v f) (directive_letters []) ->
                   txt2 = [] /\ sql2 = [])).
  { intros f K. exists f, [], [], [], []. cbn [prepare render app length].
    rewrite K, !app_nil_r, Nat.add_0_r. repeat split. }
  induction n as [|n IH]; intros txt f sql ps Hn K R Cap Nul Fit.
  - destruct txt; [|cbn in Hn; lia].
    cbn in R. injection R as <- <-. now apply Base.
  - destruct txt as [|c rest].
    { cbn in R. injection R as <- <-. now apply Base. }
    cbn [length] in Hn. cbn [render] in R.
    destruct (Ascii.eqb c "%") eqn:E.
    + apply Ascii.eqb_eq in E. subst c.
      destruct rest as [|d rest']; [discriminate|].
      cbn [length] in Hn.
      destruct (kind_of d) as [k|] eqn:Hk; [|discriminate].
      destruct (f_ap f) as [|a ap'] eqn:Ha; [discriminate|].
      destruct (contribution k a (S (f_v f))) as [[s p]|] eqn:Hc;
        [|discriminate].
      destruct (render (S (f_v f) + length p) rest' ap')
        as [[sql' ps']|] eqn:R'; [|discriminate].
      injection R as <- <-.
      rewrite length_app in Fit, Cap.
      destruct (Nat.lt_ge_cases (f_v f) DB_MAX_PARAMS) as [V|V].
      * (* the directive is taken *)
        destruct (directive_contribution d k a ap' s p f Hk Ha Hc)
          as [D Lp].
        rewrite (prepare_directive d rest' f K V), D. cbn [bind].
        rewrite emit_fits by lia.
        set (f1 := {| f_q := blit (f_q f) (f_o f) (s ++ [NUL]);
                      f_o := f_o f + length s;
                      f_params := f_params f ++ p;
                      f_ap := ap'; f_rep := f_rep f |}).
        assert (Lq : length (f_q f1) = length (f_q f)).
        { cbn. apply blit_length. rewrite length_app. cbn. lia. }
        assert (Hv : f_v f1 = f_v f + length p).
        { unfold f_v. cbn. now rewrite length_app. }
        destruct (IH rest' f1 sql' ps')
          as (f' & t1 & t2 & s1 & s2 & Ht & Hs & R1 & P & K' & O' & Q'
              & F' & S' & Whole).
        -- lia.
        -- exact K.
        -- rewrite Hv. exact R'.
        -- rewrite Hv. lia.
        -- intros I. apply Nul. apply in_or_app. now right.
        -- rewrite Lq. cbn. lia.
        -- exists f', ("%"%char :: d :: t1), t2, (s ++ s1), s2.
           split; [cbn; now rewrite Ht|].
           split; [now rewrite Hs, app_assoc|].
           split.
           { cbn [render]. change (Ascii.eqb "%" "%") with true. cbv iota.
             rewrite Hk, Hc. rewrite Hv in R1. cbn [f_ap f1] in R1.
             change (S (f_v f) + length p) with (S (f_v f + length p)).
             now rewrite R1. }
           split; [exact P|]. split; [exact K'|].
           split; [rewrite O', length_app; cbn; lia|].
           split; [congruence|].
           split.
           { rewrite F'. cbn [f_q f_o f1].
             rewrite blit_prefix by lia. now rewrite <- app_assoc. }
           split; [rewrite S'; cbn; now rewrite <- app_assoc|].
           cbn [directive_letters]. change (Ascii.eqb "%" "%") with true.
           cbv iota. cbn [room_from]. intros [_ Room]. apply Whole.
           rewrite Hv, Lp. destruct (is_bound d).
           ++ now rewrite Nat.add_1_r.
           ++ now rewrite Nat.add_0_r.
      * (* the parameter list is full: the loop is left *)
        assert (p = []) as -> by (destruct p; [reflexivity|cbn in Cap; lia]).
        assert (ps' = []) as ->
          by (destruct ps'; [reflexivity|cbn in Cap; lia]).
        exists f, [], ("%"%char :: d :: rest'), [], (s ++ sql').
        rewrite (prepare_full (d :: rest') f K V).
        cbn [render app length]. rewrite !app_nil_r, Nat.add_0_r.
        repeat split; [exact K| |];
          match goal with
          | H : room_from _ _ |- _ =>
            cbn [directive_letters] in H;
            change (Ascii.eqb "%" "%") with true in H; cbv iota in H;
            cbn [room_from] in H; destruct H; lia
          end.
    + destruct (render (S (f_v f)) rest (f_ap f)) as [[sql' ps']|] eqn:R';
        [|discriminate].
      injection R as <- <-. cbn [length] in Fit.
      assert (Lc : is_literal c = true).
      { unfold is_literal. rewrite E. cbn [negb andb].
        destruct (Ascii.eqb c NUL) eqn:E0; [|reflexivity].
        apply Ascii.eqb_eq in E0. exfalso. apply Nul. now left. }
      rewrite (prepare_literal c rest f K Lc).
      rewrite store_in_bounds by lia. cbn [bind].
      set (f1 := {| f_q := blit (f_q f) (f_o f) [c]; f_o := S (f_o f);
                    f_params := f_params f; f_ap := f_ap f;
                    f_rep := f_rep f |}).
      assert (Lq : length (f_q f1) = length (f_q f)).
      { cbn. apply blit_length. cbn. lia. }
      destruct (IH rest f1 sql' ps')
        as (f' & t1 & t2 & s1 & s2 & Ht & Hs & R1 & P & K' & O' & Q'
            & F' & S' & Whole).
      * lia.
      * exact K.
      * exact R'.
      * exact Cap.
      * intros I. apply Nul. now right.
      * rewrite Lq. cbn. lia.
      * exists f', (c :: t1), t2, (c :: s1), s2.
        split; [cbn; now rewrite Ht|].
        split; [cbn; now rewrite Hs|].
        split.
        { cbn [render]. rewrite E. cbn [f_ap f_v f1] in R1.
          change (f_v f1) with (f_v f) in R1. now rewrite R1. }
        split; [exact P|]. split; [exact K'|].
        split; [rewrite O'; cbn; lia|].
        split; [congruence|].
        split.
        { rewrite F'. cbn [f_q f_o f1].
          pose proof (blit_prefix (f_q f) (f_o f) [c] []) as B.
          cbn [length app] in B. rewrite Nat.add_1_r in B.
          rewrite B by lia. now rewrite <- app_assoc. }
        split; [exact S'|].
        cbn [directive_letters]. rewrite E. exact Whole.
Qed.

(** The compiler on a template whose bound directives fit the parameter
    list and whose rendered text fits the buffer. *)
Lemma compile_refines (m txt : list ascii) (ap : list varg)
    (sql : list ascii) (ps : list param) :
  render 1 txt ap = Some (sql, ps) ->
  length ps <= DB_MAX_PARAMS ->
  ~ In NUL sql ->
  length sql < length m ->
  exists txt1 txt2 sql1 sql2,
    txt = txt1 ++ txt2 /\ sql = sql1 ++ sql2
    /\ render 1 txt1 ap = Some (sql1, ps)
    /\ compiles_to m txt ap sql1 ps
    /\ (directives_have_room txt -> txt2 = [] /\ sql2 = []).
Proof.
  intros R Cap Nul Fit.
  set (f0 := {| f_q := m; f_o := 0; f_params := []; f_ap := ap;
                f_rep := DB_R_OK |}).
  destruct (prepare_refines (length txt) txt f0 sql ps)
    as (f' & t1 & t2 & s1 & s2 & Ht & Hs & R1 & P & K' & O' & Q' & F'
        & S' & Whole); auto.
  exists t1, t2, s1, s2.
  split; [exact Ht|]. split; [exact Hs|]. split; [exact R1|].
  cbn in O', Q', F', S'.
  assert (L1 : length s1 < length m).
  { rewrite Hs, length_app in Fit. lia. }
  split.
  - unfold compiles_to, compile. fold f0. rewrite P. cbn [bind].
    rewrite store_in_bounds by lia. cbn [bind].
    eexists. split; [reflexivity|]. cbn.
    split; [exact K'|]. split; [|exact S'].
    rewrite blit_split, O', <- O', F'. apply c_str_terminated.
    intros I. apply Nul. rewrite Hs. apply in_or_app. now left.
  - intros Room. apply Whole. now apply directives_have_room_from.
Qed.

Lemma no_nul_check (s : list ascii) :
  forallb (fun c => negb (Ascii.eqb c NUL)) s = true -> ~ In NUL s.
Proof.
  intros H I. rewrite forallb_forall in H. specialize (H NUL I).
  discriminate.
Qed.

Lemma bound_before_le (k : nat) (txt : list ascii) : bound_before k txt <= k.
Proof.
  unfold bound_before.
  etransitivity; [apply filter_length_le|].
  rewrite length_firstn. lia.
Qed.

Lemma few_directives_have_room (txt : list ascii) :
  length (directive_letters txt) <= DB_MAX_PARAMS ->
  directives_have_room txt.
Proof.
  intros H k Hk. pose proof (bound_before_le k txt). lia.
Qed.

(** The scan binds one parameter for each bound directive. *)
Lemma render_params (n : nat) :
  forall (txt : list ascii) (i : nat) (ap : list varg) (sql : list ascii)
         (ps : list param),
    length txt <= n ->
    render i txt ap = Some (sql, ps) ->
    length ps = length (filter is_bound (directive_letters txt)).
Proof.
  induction n as [|n IH]; intros txt i ap sql ps Hn R.
  - destruct txt; [|cbn in Hn; lia]. cbn in R. now injection R as <- <-.
  - destruct txt as [|c rest]; [cbn in R; now injection R as <- <-|].
    cbn [length] in Hn. cbn [render directive_letters] in *.
    destruct (Ascii.eqb c "%").
    + destruct rest as [|d rest']; [discriminate|]. cbn [length] in Hn.
      destruct (kind_of d) as [k|] eqn:Hk; [|discriminate].
      destruct ap as [|a ap']; [discriminate|].
      destruct (contribution k a i) as [[s p]|] eqn:Hc; [|discriminate].
      destruct (render (i + length p) rest' ap') as [[sql' ps']|] eqn:R';
        [|discriminate].
      injection R as <- <-.
      rewrite length_app, (IH rest' _ _ _ _ ltac:(lia) R').
      cbn [filter]. unfold is_bound at 2. rewrite Hk.
      destruct k, a; cbn in Hc; try discriminate;
        injection Hc as <- <-; reflexivity.
    + destruct (render i rest ap) as [[sql' ps']|] eqn:R'; [|discriminate].
      injection R as <- <-. apply (IH rest _ _ _ _ ltac:(lia) R').
Qed.

(** Where the compiler follows the scan of the specification.  For every
    template with N <= 16 bound directives whose text, as the scan renders
    it, is shorter than the buffer, the compiler of [db_query] returns
    without error with the parameters of the scan: exactly N, one for each
    bound directive, in order, each with the type and the encoding of its
    directive.  The buffer holds the rendering of an initial part [txt1]
    of the template in which all N bound directives lie; that part is the
    whole template when no directive comes after a sixteenth bound
    directive.  The template "SELECT id FROM t WHERE gw=%u AND name=%S"
    with arguments 7 and "alice" compiles in any buffer of more than 40
    characters to "SELECT id FROM t WHERE gw=$1 AND name=$2" with the
    parameters (INT4, binary, 4 bytes 00 00 00 07) and (TEXT, text,
    "alice"). *)
Lemma compile_follows_template :
  (forall (m txt : list ascii) (ap : list varg) (sql : list ascii)
          (ps : list param),
     render 1 txt ap = Some (sql, ps) ->
     length (filter is_bound (directive_letters txt)) <= DB_MAX_PARAMS ->
     ~ In NUL sql ->
     length sql < length m ->
     length ps = length (filter is_bound (directive_letters txt))
     /\ exists txt1 txt2 sql1 sql2,
          txt = txt1 ++ txt2 /\ sql = sql1 ++ sql2
          /\ render 1 txt1 ap = Some (sql1, ps)
          /\ length (filter is_bound (directive_letters txt1)) = length ps
          /\ compiles_to m txt ap sql1 ps
          /\ (directives_have_room txt -> txt2 = [] /\ sql2 = []))
  /\
  (forall m : list ascii,
     40 < length m ->
     compiles_to m scenario_template scenario_args scenario_sql
                 scenario_params).
Proof.
  assert (G : forall m txt ap sql ps,
             render 1 txt ap = Some (sql, ps) ->
             length (filter is_bound (directive_letters txt))
               <= DB_MAX_PARAMS ->
             ~ In NUL sql -> length sql < length m ->
             length ps = length (filter is_bound (directive_letters txt))
             /\ exists txt1 txt2 sql1 sql2,
                  txt = txt1 ++ txt2 /\ sql = sql1 ++ sql2
                  /\ render 1 txt1 ap = Some (sql1, ps)
                  /\ length (filter is_bound (directive_letters txt1))
                     = length ps
                  /\ compiles_to m txt ap sql1 ps
                  /\ (directives_have_room txt -> txt2 = [] /\ sql2 = [])).
  { intros m txt ap sql ps R Cap Nul Fit.
    pose proof (render_params (length txt) txt 1 ap sql ps (le_n _) R) as N.
    split; [exact N|].
    rewrite <- N in Cap.
    destruct (compile_refines m txt ap sql ps R Cap Nul Fit)
      as (t1 & t2 & s1 & s2 & Ht & Hs & R1 & C & Whole).
    exists t1, t2, s1, s2.
    split; [exact Ht|]. split; [exact Hs|]. split; [exact R1|].
    split; [|split; [exact C|exact Whole]].
    symmetry. exact (render_params (length t1) t1 1 ap s1 ps (le_n _) R1). }
  split; [exact G|].
  intros m Hm.
  destruct (G m scenario_template scenario_args scenario_sql scenario_params)
    as (_ & t1 & t2 & s1 & s2 & Ht & Hs & R1 & _ & C & Whole).
  - vm_compute. reflexivity.
  - vm_compute. lia.
  - apply no_nul_check. vm_compute. reflexivity.
  - change (length scenario_sql) with 40. exact Hm.
  - assert (Room : directives_have_room scenario_template).
    { apply few_directives_have_room. vm_compute. lia. }
    destruct (Whole Room) as [_ E2].
    rewrite E2, app_nil_r in Hs. now rewrite Hs.
Qed.

Lemma compile_follows_template_scenario :
  length scenario_params = 2
  /\ compiles_to (zeros 64) scenario_template scenario_args scenario_sql
                 scenario_params.
Proof.
  destruct (proj1 compile_follows_template (zeros 64) scenario_template
              scenario_args scenario_sql scenario_params)
    as (N & t1 & t2 & s1 & s2 & Ht & Hs & R1 & _ & C & Whole).
  - vm_compute. reflexivity.
  - vm_compute. lia.
  - apply no_nul_check. vm_compute. reflexivity.
  - vm_compute. lia.
  - split; [exact N|].
    assert (Room : directives_have_room scenario_template).
    { apply few_directives_have_room. vm_compute. lia. }
    destruct (Whole Room) as [_ E2].
    rewrite E2, app_nil_r in Hs. now rewrite Hs.
Defined.

(** The guard of line 195 stands before the switch, so it also stops the
    loop at an inline directive: the template of [select16_order_template]
    has sixteen bound directives and an inline one after them, its rendered
    text is shorter than a buffer of 128 characters, and the compiler
    returns without error with the text cut where the inline directive
    stood. *)
Lemma sixteen_params_then_inline_cut :
  render 1 select16_order_template select16_order_args
    = Some (select16_order_full, u32_params 16)
  /\ length select16_order_full < length (zeros 128)
  /\ compiles_to (zeros 128) select16_order_template select16_order_args
                 select16_order_cut (u32_params 16)
  /\ ~ compiles_to (zeros 128) select16_order_template select16_order_args
                   select16_order_full (u32_params 16).
Proof.
  assert (C : compiles_to (zeros 128) select16_order_template
                          select16_order_args select16_order_cut
                          (u32_params 16)) by compiles_by_evaluation.
  split. { vm_compute; reflexivity. }
  split. { vm_compute; lia. }
  split. { exact C. }
  intros (f & Cf & _ & S & _). destruct C as (f' & Cf' & _ & S' & _).
  assert (E : f = f') by congruence. subst f'.
  assert (D : select16_order_full = select16_order_cut) by congruence.
  apply (f_equal (fun l => length l =? length select16_order_cut)) in D.
  vm_compute in D. discriminate.
Qed.

(** C4, the run of the code at the failing input: the template of
    [delete16_template] has sixteen bound directives, which is within the
    capacity, and after them the inline directive [%s]; the text that the
    scan of the specification gives for it, with the sixteen placeholders
    and the condition spliced in, has 98 characters and is shorter than a
    buffer of 128.  The guard of line 195 is met at the [%s] with
    [v = 16] and leaves the loop with [rep] still [DB_R_OK]: the compiler
    returns without error with the sixteen parameters and the statement
    cut before the condition, which is not the text of the scan, and
    [db_query] on a live connection sends the cut statement and returns
    [DB_R_OK]. *)
Theorem sixteen_bound_then_inline_cut_and_sent :
  length (filter is_bound (directive_letters delete16_template)) = 16
  /\ render 1 delete16_template delete16_args
     = Some (delete16_full, u32_params 16)
  /\ length delete16_full < length (zeros 128)
  /\ compiles_to (zeros 128) delete16_template delete16_args delete16_cut
                 (u32_params 16)
  /\ delete16_cut <> delete16_full
  /\ exists s,
       db_query false (fun _ => true)
                (fun _ => Some (status_result PGRES_COMMAND_OK None))
                (fun _ => true) 3 (live_db 128) no_result
                delete16_template delete16_args world0
       = Returned DB_R_OK s
       /\ sent (s_world s) = [(0, delete16_cut, u32_params 16)].
Proof.
  split. { vm_compute; reflexivity. }
  split. { vm_compute; reflexivity. }
  split. { vm_compute; lia. }
  split. { compiles_by_evaluation. }
  split.
  { intros D.
    apply (f_equal (fun l => length l =? length delete16_cut)) in D.
    vm_compute in D. discriminate. }
  lazymatch goal with
  | |- exists s, ?l = _ /\ _ =>
    let v := eval vm_compute in l in
    lazymatch v with
    | Returned _ ?s =>
      exists s; split; [vm_cast_no_check (eq_refl v)|]
    end
  end.
  vm_compute. reflexivity.
Qed.

(** *** The two bounds *)

(** C1, the run of the code at the failing input: the template of
    [insert17_template] has seventeen bound directives.  At the
    seventeenth the guard of line 195 leaves the loop with [rep] still
    [DB_R_OK]: the compiler returns without error, the buffer holds the
    statement cut after "$16,", and [db_query] on a live connection sends
    that cut statement with sixteen parameters and returns the reply of
    the server, [DB_R_OK]. *)
Theorem seventeen_params_cut_and_sent :
  compiles_to (zeros 128) insert17_template insert17_args insert17_cut
              (u32_params 16)
  /\ exists s,
       db_query false (fun _ => true)
                (fun _ => Some (status_result PGRES_COMMAND_OK None))
                (fun _ => true) 3 (live_db 128) no_result
                insert17_template insert17_args world0
       = Returned DB_R_OK s
       /\ sent (s_world s) = [(0, insert17_cut, u32_params 16)].
Proof.
  split.
  - compiles_by_evaluation.
  - lazymatch goal with
    | |- exists s, ?l = _ /\ _ =>
      let v := eval vm_compute in l in
      lazymatch v with
      | Returned _ ?s =>
        exists s; split; [vm_cast_no_check (eq_refl v)|]
      end
    end.
    vm_compute. reflexivity.
Qed.

Lemma prepare_literals (txt : list ascii) :
  forall f : frame,
    forallb is_literal txt = true -> f_rep f = DB_R_OK ->
    f_o f <= length (f_q f) ->
    (f_o f + length txt <= length (f_q f) ->
     exists f', prepare txt f = Done f'
                /\ f_o f' = f_o f + length txt
                /\ length (f_q f') = length (f_q f))
    /\ (length (f_q f) < f_o f + length txt ->
        prepare txt f = Stop OutOfBounds).
Proof.
  induction txt as [|c rest IH]; intros f L K O.
  - split.
    + intros _. exists f. cbn [prepare]. rewrite K, Nat.add_0_r. auto.
    + cbn [length]. lia.
  - cbn [forallb] in L. apply andb_prop in L as [Lc L].
    rewrite (prepare_literal c rest f K Lc). cbn [length].
    destruct (Nat.lt_ge_cases (f_o f) (length (f_q f))) as [In|Out].
    + rewrite store_in_bounds by exact In. cbn [bind].
      set (f1 := {| f_q := blit (f_q f) (f_o f) [c]; f_o := S (f_o f);
                    f_params := f_params f; f_ap := f_ap f;
                    f_rep := f_rep f |}).
      assert (Lq : length (f_q f1) = length (f_q f)).
      { cbn. apply blit_length. cbn. lia. }
      destruct (IH f1 L K) as [Fit Over]; [rewrite Lq; cbn; lia|].
      rewrite Lq in Fit, Over. cbn [f_o f1] in Fit, Over.
      split.
      * intros H. destruct Fit as (f' & P & O' & Q'); [lia|].
        exists f'. repeat split; [exact P|lia|congruence].
      * intros H. apply Over. lia.
    + rewrite store_out_of_bounds by exact Out. cbn [bind].
      split; [lia|reflexivity].
Qed.

(** C2, the run of the code on the failing inputs: when the template is
    made of literal characters only (no NUL, no '%') and has as many
    characters as the scratch buffer or more, the compiler stores outside
    the buffer: a literal character at [db->q[sizeof db->q]] when the
    template is longer than the buffer, the terminating NUL there when it
    is as long.  No check ends the run with an error reply before. *)
Theorem literal_text_overruns_buffer :
  forall (m txt : list ascii) (ap : list varg),
    forallb is_literal txt = true ->
    length m <= length txt ->
    compile m txt ap = Stop OutOfBounds.
Proof.
  intros m txt ap L H. unfold compile.
  set (f0 := {| f_q := m; f_o := 0; f_params := []; f_ap := ap;
                f_rep := DB_R_OK |}).
  destruct (prepare_literals txt f0 L eq_refl (Nat.le_0_l _))
    as [Fit Over]. cbn [f_o f_q f0] in Fit, Over.
  destruct (Nat.eq_dec (length txt) (length m)) as [E|N].
  - destruct Fit as (f' & P & O' & Q'); [cbn; lia|].
    rewrite P. cbn [bind]. rewrite store_out_of_bounds; [reflexivity|].
    rewrite Q', O'. cbn. lia.
  - rewrite Over by (cbn; lia). reflexivity.
Qed.

Lemma literal_text_overruns_buffer_witness :
  compile (zeros 8) (s2l "SELECT 1") [] = Stop OutOfBounds.
Proof.
  apply (literal_text_overruns_buffer (zeros 8) (s2l "SELECT 1") []).
  - vm_compute. reflexivity.
  - vm_compute. lia.
Defined.

(** A directive whose text does not fit what is left of the buffer makes
    the compiler fail: the test of [snprintfok] on the directive paths. *)
Lemma directive_without_room (d : ascii) (k : kind) (a : varg)
    (rest : list ascii) (ap' : list varg) (s : list ascii)
    (p : list param) (f : frame) :
  f_rep f = DB_R_OK -> f_v f < DB_MAX_PARAMS ->
  kind_of d = Some k -> f_ap f = a :: ap' ->
  contribution k a (S (f_v f)) = Some (s, p) ->
  length (f_q f) <= f_o f + length s ->
  exists f', prepare ("%"%char :: d :: rest) f = Done f'
             /\ f_rep f' = DB_R_ERR /\ f_o f' = f_o f.
Proof.
  intros K V Hk Ha Hc Cut.
  destruct (directive_contribution d k a ap' s p f Hk Ha Hc) as [D _].
  rewrite (prepare_directive d rest f K V), D. cbn [bind].
  destruct (emit_cut s (f_params f ++ p) ap' f Cut) as [E O].
  rewrite prepare_stopped by (rewrite E; discriminate).
  eexists. split; [reflexivity|]. auto.
Qed.

(** ** What the loop of [db_query] leaves behind *)

Section Outcome.

Variable NDEBUG : bool.
Variable connect_ok : nat -> bool.
Variable exec_reply : nat -> option PGresult.
Variable keep_running : nat -> bool.

Local Abbreviation ensure' :=
  (ensure_connected NDEBUG connect_ok keep_running).
Local Abbreviation loop' :=
  (exec_loop NDEBUG connect_ok exec_reply keep_running).

(** What the loop has sent and what it has kept. *)
Lemma exec_loop_trace (fuel left : nat) :
  forall (ps : list param) (rep r : dbreply_t) (db : dbconn_t)
         (result : dbres_t) (w : world) (s : state),
    loop' fuel left ps rep db result w = Returned r s ->
    q (s_db s) = q db
    /\ cleared (s_world s) = cleared w
    /\ exists l,
         sent (s_world s) = sent w ++ l /\ length l <= left
         /\ Forall (fun e => snd (fst e) = c_str (q db) /\ snd e = ps) l.
Proof.
  induction left as [|left IH]; intros ps rep r db result w s.
  - cbn. intros [= _ <-]. cbn. repeat split.
    exists []. rewrite app_nil_r. auto.
  - destruct (ensure' fuel db w) as [[db1 w1]|] eqn:E.
    2:{ cbn [exec_loop]. rewrite E. discriminate. }
    pose proof (ensure_connected_frame _ _ _ _ _ _ _ _ E)
      as (Hdb & Hs & Hc & _).
    assert (Hq : q db1 = q db) by (rewrite Hdb; reflexivity).
    destruct (conn db1) as [c|] eqn:C.
    2:{ rewrite (exec_turn_no_connection _ _ _ _ _ _ _ _ _ _ _ _ _ E C).
        intros [= _ <-]. cbn [s_db s_world mutex_unlock set_mutex q].
        split; [exact Hq|]. split; [exact Hc|].
        exists []. rewrite app_nil_r.
        split; [exact Hs|]. split; [cbn; lia|constructor]. }
    assert (One : forall s',
               q (s_db s') = q db1 ->
               cleared (s_world s') = cleared w1 ->
               sent (s_world s') = sent w1 ++ [(c, c_str (q db1), ps)] ->
               q (s_db s') = q db
               /\ cleared (s_world s') = cleared w
               /\ exists l,
                    sent (s_world s') = sent w ++ l /\ length l <= S left
                    /\ Forall (fun e => snd (fst e) = c_str (q db)
                                        /\ snd e = ps) l).
    { intros s' Q1 C1 S1. split; [congruence|]. split; [congruence|].
      exists [(c, c_str (q db1), ps)]. rewrite S1, Hs.
      repeat split; [cbn; lia|]. constructor; [|constructor].
      cbn. now rewrite Hq. }
    assert (More : forall rep' result' s',
               loop' fuel left ps rep' (set_conn db1 None) result'
                     (note_finish (note_sent w1 c (c_str (q db1)) ps) c)
               = Returned r s' ->
               q (s_db s') = q db
               /\ cleared (s_world s') = cleared w
               /\ exists l,
                    sent (s_world s') = sent w ++ l /\ length l <= S left
                    /\ Forall (fun e => snd (fst e) = c_str (q db)
                                        /\ snd e = ps) l).
    { intros rep' result' s' L.
      apply IH in L as (Q1 & C1 & l & S1 & Le & F).
      cbn in Q1, C1, S1, F.
      split; [congruence|]. split; [congruence|].
      exists ((c, c_str (q db1), ps) :: l).
      rewrite S1, Hs, <- app_assoc. repeat split; [cbn; lia|].
      constructor; [cbn; now rewrite Hq|]. now rewrite <- Hq. }
    destruct (exec_reply (length (sent w1))) as [pr|] eqn:R.
    + rewrite (exec_turn_result _ _ _ _ _ _ _ _ _ _ _ _ _ _ _ E C R).
      cbv zeta.
      destruct (status_ok (PQresultStatus pr)).
      * intros [= _ <-]. now apply One.
      * destruct (is_fatal (PQresultStatus pr)
                  && is_null (PQresultErrorField_SQLSTATE pr)).
        -- apply More.
        -- intros [= _ <-]. now apply One.
    + rewrite (exec_turn_no_result _ _ _ _ _ _ _ _ _ _ _ _ _ _ E C R).
      apply More.
Qed.

(** A reply other than [DB_R_ERR] comes with the result that earned it. *)
Lemma exec_loop_good (fuel left : nat) :
  forall (ps : list param) (rep r : dbreply_t) (db : dbconn_t)
         (result : dbres_t) (w : world) (s : state),
    loop' fuel left ps rep db result w = Returned r s ->
    r <> DB_R_ERR ->
    (left = 0 -> rep = DB_R_ERR) ->
    exists pr c l,
      res (s_result s) = Some pr
      /\ conn (s_db s) = Some c
      /\ mutex (s_db s) = mutex db
      /\ sent (s_world s) = l ++ [(c, c_str (q db), ps)]
      /\ exec_reply (length l) = Some pr
      /\ (r = DB_R_OK -> status_ok (PQresultStatus pr) = true)
      /\ (r = DB_R_DUPLICATE_KEY ->
          status_ok (PQresultStatus pr) = false
          /\ is_duplicate (PQresultErrorField_SQLSTATE pr) = true).
Proof.
  induction left as [|left IH]; intros ps rep r db result w s L Good Z.
  - cbn in L. injection L as <- <-. now rewrite Z in Good.
  - destruct (ensure' fuel db w) as [[db1 w1]|] eqn:E.
    2:{ cbn [exec_loop] in L. rewrite E in L. discriminate. }
    pose proof (ensure_connected_frame _ _ _ _ _ _ _ _ E)
      as (Hdb & Hs & _).
    assert (Hq : q db1 = q db) by (rewrite Hdb; reflexivity).
    assert (Hm : mutex db1 = mutex db) by (rewrite Hdb; reflexivity).
    destruct (conn db1) as [c|] eqn:C.
    2:{ rewrite (exec_turn_no_connection _ _ _ _ _ _ _ _ _ _ _ _ _ E C)
          in L. injection L as <- <-. contradiction. }
    assert (More : forall result',
               loop' fuel left ps DB_R_ERR (set_conn db1 None) result'
                     (note_finish (note_sent w1 c (c_str (q db1)) ps) c)
               = Returned r s ->
               exists pr c0 l,
                 res (s_result s) = Some pr
                 /\ conn (s_db s) = Some c0
                 /\ mutex (s_db s) = mutex db
                 /\ sent (s_world s) = l ++ [(c0, c_str (q db), ps)]
                 /\ exec_reply (length l) = Some pr
                 /\ (r = DB_R_OK -> status_ok (PQresultStatus pr) = true)
                 /\ (r = DB_R_DUPLICATE_KEY ->
                     status_ok (PQresultStatus pr) = false
                     /\ is_duplicate (PQresultErrorField_SQLSTATE pr)
                        = true)).
    { intros result' L'.
      apply IH in L' as (pr & c0 & l & H1 & H2 & H3 & H4 & Hr & H5 & H6);
        auto.
      exists pr, c0, l. cbn in H3, H4. rewrite Hq in H4.
      repeat split; auto; try congruence; now apply H6. }
    destruct (exec_reply (length (sent w1))) as [pr|] eqn:R.
    + rewrite (exec_turn_result _ _ _ _ _ _ _ _ _ _ _ _ _ _ _ E C R) in L.
      cbv zeta in L.
      destruct (status_ok (PQresultStatus pr)) eqn:St.
      * injection L as <- <-. exists pr, c, (sent w1). cbn.
        rewrite Hq. repeat split; auto; discriminate.
      * destruct (is_fatal (PQresultStatus pr)) eqn:Fa;
          destruct (PQresultErrorField_SQLSTATE pr) as [code|] eqn:Co;
          cbn [is_null andb is_duplicate] in L.
        -- injection L as <- <-. exists pr, c, (sent w1). cbn.
           rewrite Hq, Co. cbn [is_duplicate]. repeat split; auto.
           ++ destruct (list_ascii_eqb _ _); [discriminate|contradiction].
           ++ destruct (list_ascii_eqb _ _); [reflexivity|contradiction].
        -- now apply More in L.
        -- injection L as <- <-. exists pr, c, (sent w1). cbn.
           rewrite Hq, Co. cbn [is_duplicate]. repeat split; auto.
           ++ destruct (list_ascii_eqb _ _); [discriminate|contradiction].
           ++ destruct (list_ascii_eqb _ _); [reflexivity|contradiction].
        -- injection L as <- <-. contradiction.
    + rewrite (exec_turn_no_result _ _ _ _ _ _ _ _ _ _ _ _ _ _ E C R) in L.
      now apply More in L.
Qed.

End Outcome.

(** ** [db_query]: the unfinished result *)

(** C3: [db_query] takes the mutex at line 166, before it looks at the
    handle of the caller at line 172.  With a result still in the handle,
    the call ends at [abort()] (the ProtocolViolation of the
    specification) only when the mutex is free; when the mutex is held the
    call waits at line 166 and the test is never reached.  A [db_query]
    that returned [DB_R_OK] or [DB_R_DUPLICATE_KEY] leaves a result in the
    handle and the mutex held, so the next [db_query] on that connection
    with that handle, whatever its template, waits for a mutex that only
    the caller itself could release: no ProtocolViolation is raised. *)
Theorem db_query_unfinished_result_waits :
  forall (NDEBUG : bool) (connect_ok : nat -> bool)
         (exec_reply : nat -> option PGresult) (keep_running : nat -> bool),
    (forall (fuel : nat) (db : dbconn_t) (result : dbres_t)
            (txt : list ascii) (ap : list varg) (w : world)
            (pr : PGresult),
       res result = Some pr ->
       db_query NDEBUG connect_ok exec_reply keep_running fuel db result
                txt ap w
       = if mutex db then Fault Blocked
         else Abort {| s_db := mutex_locked db; s_result := result;
                       s_world := w |})
    /\
    (forall (fuel : nat) (db : dbconn_t) (result : dbres_t)
            (txt : list ascii) (ap : list varg) (w : world)
            (r : dbreply_t) (s : state),
       db_query NDEBUG connect_ok exec_reply keep_running fuel db result
                txt ap w = Returned r s ->
       r <> DB_R_ERR ->
       res (s_result s) <> None
       /\ forall (fuel' : nat) (txt' : list ascii) (ap' : list varg),
            db_query NDEBUG connect_ok exec_reply keep_running fuel'
                     (s_db s) (s_result s) txt' ap' (s_world s)
            = Fault Blocked).
Proof.
  intros NDEBUG connect_ok exec_reply keep_running. split.
  - intros fuel db result txt ap w pr R.
    destruct (mutex db) eqn:M.
    + now apply db_query_blocked.
    + rewrite (db_query_free _ _ _ _ _ _ _ _ _ _ M), R. reflexivity.
  - intros fuel db result txt ap w r s Q Good.
    unfold db_query, mutex_lock in Q.
    destruct (mutex db); [discriminate|].
    destruct (res result); [discriminate|].
    destruct (compile (q (mutex_locked db)) txt ap) as [f|];
      [|discriminate].
    destruct (f_rep f); try (injection Q as <- <-; contradiction).
    apply exec_loop_good in Q as (pr & c & l & H1 & _ & H3 & _);
      auto; [|discriminate].
    split; [rewrite H1; discriminate|].
    intros fuel' txt' ap'. apply db_query_blocked. exact H3.
Qed.

Lemma db_query_unfinished_result_waits_witness :
  exists s,
    db_query false (fun _ => true)
             (fun _ => Some (status_result PGRES_TUPLES_OK None))
             (fun _ => true) 3 (live_db 64) no_result
             (s2l "SELECT 1") [] world0 = Returned DB_R_OK s
    /\ res (s_result s) <> None
    /\ db_query false (fun _ => true)
                (fun _ => Some (status_result PGRES_TUPLES_OK None))
                (fun _ => true) 3 (s_db s) (s_result s)
                (s2l "SELECT 2") [] (s_world s) = Fault Blocked.
Proof.
  let v := eval vm_compute in
         (db_query false (fun _ => true)
            (fun _ => Some (status_result PGRES_TUPLES_OK None))
            (fun _ => true) 3 (live_db 64) no_result
            (s2l "SELECT 1") [] world0) in
  lazymatch v with
  | Returned _ ?s =>
    assert (Q : db_query false (fun _ => true)
                  (fun _ => Some (status_result PGRES_TUPLES_OK None))
                  (fun _ => true) 3 (live_db 64) no_result
                  (s2l "SELECT 1") [] world0 = Returned DB_R_OK s)
      by (vm_cast_no_check (eq_refl v));
    exists s; split; [exact Q|];
    destruct (proj2 (db_query_unfinished_result_waits false (fun _ => true)
                (fun _ => Some (status_result PGRES_TUPLES_OK None))
                (fun _ => true)) _ _ _ _ _ _ _ _ Q ltac:(discriminate))
      as [H1 H2];
    split; [exact H1|exact (H2 3 (s2l "SELECT 2") [])]
  end.
Defined.

(** * Further properties of the code *)

(** ** Integers on the wire *)

Lemma byte_to_Z_to_byte (z : Z) : byte_to_Z (Z_to_byte z) = (z mod 256)%Z.
Proof.
  unfold byte_to_Z, Z_to_byte.
  assert (R : (0 <= z mod 256 < 256)%Z) by (apply Z.mod_pos_bound; lia).
  destruct (Byte.of_N (Z.to_N (z mod 256))) as [b|] eqn:E.
  - apply Byte.to_of_N in E. rewrite E. lia.
  - apply Byte.of_N_None_iff in E. lia.
Qed.

Lemma be_bytes_length (n : nat) : forall x, length (be_bytes n x) = n.
Proof.
  induction n as [|n IH]; intros x; cbn [be_bytes]; [reflexivity|].
  rewrite length_app, IH. cbn. lia.
Qed.

(** Decoding what was encoded gives the integer back, cut to the width. *)
Lemma be_val_be_bytes (n : nat) :
  forall x, be_val (be_bytes n x) = (x mod 256 ^ Z.of_nat n)%Z.
Proof.
  induction n as [|n IH]; intros x.
  - cbn. now rewrite Z.mod_1_r.
  - cbn [be_bytes]. rewrite be_val_snoc, IH, byte_to_Z_to_byte.
    rewrite Nat2Z.inj_succ, Z.pow_succ_r by lia.
    rewrite Z.rem_mul_r by lia. lia.
Qed.

(** X1: the directive [%u] binds for the integer [x] a parameter tagged
    INT4, binary, of the four bytes [htonl_mem x], and a result cell
    holding those bytes in an INT4 column is read back by
    [db_result_get_uint32] and by [db_result_get_uint64] as [x] modulo
    2^32; likewise [%U] binds an INT8 parameter of eight bytes that
    [db_result_get_uint64] reads back as [x] modulo 2^64 and
    [db_result_get_uint32] as [x] modulo 2^32. *)
Theorem integer_parameter_round_trip :
  forall (NDEBUG : bool) (x : Z) (ap : list varg) (f : frame)
         (result : dbres_t) (row column : nat) (old : Z),
    (f_ap f = VU32 x :: ap ->
     exists f', directive "u" f = Done f'
                /\ f_params f' = f_params f
                     ++ [{| typ := INT4OID; val := PBin (htonl_mem x);
                            len := 4; fmt := 1 |}])
    /\ (db_result_getval result row column = Some (htonl_mem x) ->
        result_ftype result column = INT4OID ->
        db_result_get_uint32 NDEBUG result row column old
          = Done (true, (x mod 2 ^ 32)%Z)
        /\ db_result_get_uint64 NDEBUG result row column old
          = Done (true, (x mod 2 ^ 32)%Z))
    /\ (f_ap f = VU64 x :: ap ->
        exists f', directive "U" f = Done f'
                   /\ f_params f' = f_params f
                        ++ [{| typ := INT8OID; val := PBin (htonll_mem x);
                               len := 8; fmt := 1 |}])
    /\ (db_result_getval result row column = Some (htonll_mem x) ->
        result_ftype result column = INT8OID ->
        db_result_get_uint64 NDEBUG result row column old
          = Done (true, (x mod 2 ^ 64)%Z)
        /\ db_result_get_uint32 NDEBUG result row column old
          = Done (true, (x mod 2 ^ 32)%Z)).
Proof.
  intros NDEBUG x ap f result row column old.
  assert (L4 : length (htonl_mem x) = 4) by apply be_bytes_length.
  assert (L8 : length (htonll_mem x) = 8) by apply be_bytes_length.
  assert (V4 : ntohl_at (htonl_mem x) = (x mod 2 ^ 32)%Z).
  { unfold ntohl_at. rewrite <- L4 at 1. rewrite firstn_all.
    unfold htonl_mem. now rewrite be_val_be_bytes. }
  assert (V8 : ntohll_at (htonll_mem x) = (x mod 2 ^ 64)%Z).
  { unfold ntohll_at. rewrite <- L8 at 1. rewrite firstn_all.
    unfold htonll_mem. now rewrite be_val_be_bytes. }
  split; [|split; [|split]].
  - intros Ha. unfold directive. cbn [Ascii.eqb Bool.eqb NUL zero].
    rewrite Ha. cbn [va_arg_u32 bind]. eexists. split; [reflexivity|].
    unfold emit_bound, emit.
    destruct (snprintf _ _ _ _) as [m n].
    destruct (snprintfok _ _); reflexivity.
  - intros Hd Ht. unfold db_result_get_uint32, db_result_get_uint64.
    rewrite Hd, Ht. change (INT4OID =? INT4OID)%Z with true. cbv iota.
    rewrite (load_exact _ _ L4). cbn [bind]. rewrite V4. split; reflexivity.
  - intros Ha. unfold directive. cbn [Ascii.eqb Bool.eqb NUL zero].
    rewrite Ha. cbn [va_arg_u64 bind]. eexists. split; [reflexivity|].
    unfold emit_bound, emit.
    destruct (snprintf _ _ _ _) as [m n].
    destruct (snprintfok _ _); reflexivity.
  - intros Hd Ht. unfold db_result_get_uint32, db_result_get_uint64.
    rewrite Hd, Ht. change (INT8OID =? INT4OID)%Z with false.
    change (INT8OID =? INT8OID)%Z with true. cbv iota.
    rewrite (load_exact _ _ L8). cbn [bind]. rewrite V8. split; [reflexivity|].
    do 2 f_equal. apply Z.mod_mod_divide. exists (2 ^ 32)%Z. reflexivity.
Qed.

Lemma integer_parameter_round_trip_witness :
  db_result_get_uint32 false
    {| res := Some (cell_result INT4OID (htonl_mem 1234567890)) |} 0 0 0%Z
  = Done (true, 1234567890%Z).
Proof.
  exact (proj1 (proj1 (proj2
    (integer_parameter_round_trip false 1234567890 []
       {| f_q := zeros 8; f_o := 0; f_params := [];
          f_ap := [VU32 1234567890]; f_rep := DB_R_OK |}
       {| res := Some (cell_result INT4OID (htonl_mem 1234567890)) |}
       0 0 0%Z)) eq_refl eq_refl)).
Defined.

(** ** What the template compiler keeps *)

Lemma emit_keeps (s : list ascii) (ps : list param) (ap : list varg)
    (f : frame) :
  f_o f <= length (f_q f) ->
  length (f_q (emit s ps ap f)) = length (f_q f)
  /\ f_o (emit s ps ap f) <= length (f_q f)
  /\ f_params (emit s ps ap f) = ps.
Proof.
  intros O. unfold emit, snprintf.
  destruct (length (f_q f) - f_o f) as [|room] eqn:E.
  - cbn. auto.
  - assert (L : length (blit (f_q f) (f_o f) (firstn room s ++ [NUL]))
                = length (f_q f)).
    { apply blit_length. rewrite length_app, length_firstn. cbn. lia. }
    destruct (snprintfok (length s) (S room)) eqn:K; cbn [f_q f_o f_params].
    + apply Nat.ltb_lt in K. repeat split; auto. lia.
    + repeat split; auto.
Qed.

Lemma directive_keeps (d : ascii) (f f' : frame) :
  directive d f = Done f' ->
  f_o f <= length (f_q f) ->
  length (f_q f') = length (f_q f)
  /\ f_o f' <= length (f_q f')
  /\ f_v f <= f_v f' <= S (f_v f).
Proof.
  intros D O. unfold directive in D.
  assert (Same : forall r,
             Done {| f_q := f_q f; f_o := f_o f; f_params := f_params f;
                     f_ap := f_ap f; f_rep := r |} = Done f' ->
             length (f_q f') = length (f_q f)
             /\ f_o f' <= length (f_q f')
             /\ f_v f <= f_v f' <= S (f_v f)).
  { intros r [= <-]. unfold f_v. cbn. repeat split; auto. }
  assert (Emit : forall s ps ap,
             length ps = f_v f \/ length ps = S (f_v f) ->
             Done (emit s ps ap f) = Done f' ->
             length (f_q f') = length (f_q f)
             /\ f_o f' <= length (f_q f')
             /\ f_v f <= f_v f' <= S (f_v f)).
  { intros s ps ap Hps [= <-].
    destruct (emit_keeps s ps ap f O) as (L & O' & P).
    unfold f_v at 2 3. rewrite P, L. repeat split; auto; lia. }
  assert (Bound : forall p ap,
             Done (emit_bound p ap f) = Done f' ->
             length (f_q f') = length (f_q f)
             /\ f_o f' <= length (f_q f')
             /\ f_v f <= f_v f' <= S (f_v f)).
  { intros p ap. unfold emit_bound. apply Emit. right.
    rewrite length_app. cbn. unfold f_v. lia. }
  repeat match type of D with
         | (if ?b then _ else _) = _ => destruct b
         end;
    try (apply Same in D; exact D);
    destruct (f_ap f) as [|[x|x|s] ap]; cbn in D; try discriminate;
    try (apply Bound in D; exact D);
    apply Emit in D; auto.
Qed.

Lemma prepare_keeps (n : nat) :
  forall (txt : list ascii) (f f' : frame),
    length txt <= n ->
    prepare txt f = Done f' ->
    f_o f <= length (f_q f) -> f_v f <= DB_MAX_PARAMS ->
    length (f_q f') = length (f_q f)
    /\ f_o f' <= length (f_q f')
    /\ f_v f' <= DB_MAX_PARAMS.
Proof.
  induction n as [|n IH]; intros txt f f' Hn P O V.
  - destruct txt; [|cbn in Hn; lia].
    cbn in P. destruct (f_rep f); injection P as <-; auto.
  - destruct txt as [|c rest].
    { cbn in P. destruct (f_rep f); injection P as <-; auto. }
    cbn [length] in Hn. cbn [prepare] in P.
    destruct (f_rep f) eqn:K; try (injection P as <-; auto; fail).
    destruct (Ascii.eqb c NUL); [injection P as <-; auto|].
    destruct (Ascii.eqb c "%"); cbn [negb] in P.
    + destruct (DB_MAX_PARAMS <=? f_v f) eqn:G; [injection P as <-; auto|].
      apply Nat.leb_gt in G.
      destruct rest as [|d rest'].
      * destruct (directive_keeps NUL f f' P O) as (L & O' & V1 & V2).
        repeat split; auto. lia.
      * cbn [length] in Hn.
        destruct (directive d f) as [f1|] eqn:D; cbn [bind] in P;
          [|discriminate].
        destruct (directive_keeps d f f1 D O) as (L & O' & V1 & V2).
        destruct (IH rest' f1 f' ltac:(lia) P O' ltac:(lia))
          as (L' & O'' & V').
        repeat split; auto. congruence.
    + unfold store in P.
      destruct (f_o f <? length (f_q f)) eqn:B; cbn [bind] in P;
        [|discriminate].
      apply Nat.ltb_lt in B.
      assert (L : length (blit (f_q f) (f_o f) [c]) = length (f_q f)).
      { apply blit_length. cbn. lia. }
      apply IH in P; try lia.
      * cbn [f_q f_o] in P. destruct P as (L' & O' & V').
        repeat split; auto. congruence.
      * cbn. lia.
      * exact V.
Qed.

Lemma c_str_before_nul (m : list ascii) :
  forall i, i < length m -> nth i m NUL = NUL -> length (c_str m) <= i.
Proof.
  induction m as [|c m IH]; intros i Hi Hn; cbn in *; [lia|].
  destruct (Ascii.eqb c NUL) eqn:E; cbn; [lia|].
  destruct i as [|i].
  - subst c. cbn in E. discriminate.
  - apply IH in Hn; lia.
Qed.

Lemma blit_nth (m : list ascii) (i : nat) (c : ascii) :
  i < length m -> nth i (blit m i [c]) NUL = c.
Proof.
  intros H. unfold blit.
  rewrite app_nth2; rewrite length_firstn; [|lia].
  replace (i - Nat.min i (length m)) with 0 by lia. reflexivity.
Qed.

(** X2: whenever the template compiler returns, whatever the template and
    the arguments are, the scratch buffer has the size it had, [o] is an
    index of the buffer and a NUL is stored there, so the statement in the
    buffer has at most [o] characters; and at most [DB_MAX_PARAMS]
    parameters are bound, so the arrays [typs], [vals], [lens] and [fmts]
    are never written past their end. *)
Theorem compile_keeps_bounds :
  forall (m txt : list ascii) (ap : list varg) (f : frame),
    compile m txt ap = Done f ->
    length (f_q f) = length m
    /\ f_o f < length m
    /\ nth (f_o f) (f_q f) NUL = NUL
    /\ length (c_str (f_q f)) <= f_o f
    /\ length (f_params f) <= DB_MAX_PARAMS.
Proof.
  intros m txt ap f C. unfold compile in C.
  destruct (prepare txt _) as [f1|] eqn:P; cbn [bind] in C; [|discriminate].
  apply (prepare_keeps (length txt)) in P; cbn; try lia.
  cbn in P. destruct P as (L & O & V).
  unfold store in C.
  destruct (f_o f1 <? length (f_q f1)) eqn:B; cbn [bind] in C;
    [|discriminate].
  apply Nat.ltb_lt in B. injection C as <-. cbn [f_q f_o f_params].
  assert (L1 : length (blit (f_q f1) (f_o f1) [NUL]) = length m).
  { rewrite blit_length; [exact L|cbn; lia]. }
  assert (N : nth (f_o f1) (blit (f_q f1) (f_o f1) [NUL]) NUL = NUL)
    by now apply blit_nth.
  split; [exact L1|]. split; [lia|]. split; [exact N|].
  split; [|exact V].
  apply c_str_before_nul; [lia|exact N].
Qed.

Lemma compile_keeps_bounds_witness :
  exists f,
    compile (zeros 64) scenario_template scenario_args = Done f
    /\ length (f_q f) = 64 /\ f_o f < 64
    /\ length (f_params f) <= DB_MAX_PARAMS.
Proof.
  let v := eval vm_compute in
         (compile (zeros 64) scenario_template scenario_args) in
  lazymatch v with
  | Done ?f =>
    assert (C : compile (zeros 64) scenario_template scenario_args = Done f)
      by (vm_cast_no_check (eq_refl (Done f)));
    exists f; split; [exact C|];
    destruct (compile_keeps_bounds (zeros 64) scenario_template
                scenario_args f C) as (L & O & _ & _ & V)
  end.
  change (length (zeros 64)) with 64 in L, O. auto.
Defined.

(** ** Templates that the compiler refuses *)

Lemma directive_unknown (d : ascii) (f : frame) :
  kind_of d = None ->
  directive d f
  = Done {| f_q := f_q f; f_o := f_o f; f_params := f_params f;
            f_ap := f_ap f; f_rep := DB_R_ERR |}.
Proof.
  intros H. unfold kind_of in H.
  destruct (find (fun e => Ascii.eqb d (fst e)) directive_table) eqn:F;
    [discriminate|].
  assert (E : forall c k, In (c, k) directive_table -> Ascii.eqb d c = false).
  { intros c k I. exact (find_none _ _ F (c, k) I). }
  unfold directive.
  destruct (Ascii.eqb d NUL); [reflexivity|].
  rewrite (E "a"%char Address), (E "b"%char Block), (E "u"%char Int32),
    (E "U"%char Int64), (E "S"%char Text), (E "s"%char RawInline),
    (E "t"%char QuotedInline) by (cbn; auto 10).
  reflexivity.
Qed.

Lemma literal_no_nul (pre : list ascii) :
  forallb is_literal pre = true -> ~ In NUL pre.
Proof.
  intros H I. rewrite forallb_forall in H. specialize (H NUL I).
  discriminate.
Qed.

(** The loop over a stretch of literal characters that fits. *)
Lemma prepare_literal_prefix (pre : list ascii) :
  forall f : frame,
    forallb is_literal pre = true -> f_rep f = DB_R_OK ->
    f_o f + length pre <= length (f_q f) ->
    exists f1,
      (forall tail, prepare (pre ++ tail) f = prepare tail f1)
      /\ f_o f1 = f_o f + length pre
      /\ length (f_q f1) = length (f_q f)
      /\ firstn (f_o f1) (f_q f1) = firstn (f_o f) (f_q f) ++ pre
      /\ f_params f1 = f_params f /\ f_ap f1 = f_ap f
      /\ f_rep f1 = DB_R_OK.
Proof.
  induction pre as [|c pre IH]; intros f L K Fit.
  - exists f. cbn. rewrite Nat.add_0_r, app_nil_r. repeat split; auto.
  - cbn [forallb] in L. apply andb_prop in L as [Lc L].
    cbn [length] in Fit.
    set (f1 := {| f_q := blit (f_q f) (f_o f) [c]; f_o := S (f_o f);
                  f_params := f_params f; f_ap := f_ap f;
                  f_rep := f_rep f |}).
    assert (Lq : length (f_q f1) = length (f_q f)).
    { cbn. apply blit_length. cbn. lia. }
    destruct (IH f1 L K) as (f2 & P & O & Q & F & Pa & Ap & R).
    { rewrite Lq. cbn. lia. }
    exists f2. split.
    { intros tail. cbn [app]. rewrite (prepare_literal c _ f K Lc).
      rewrite store_in_bounds by lia. cbn [bind]. apply P. }
    split; [rewrite O; cbn; lia|]. split; [congruence|].
    split.
    { rewrite F. cbn [f_q f_o f1].
      pose proof (blit_prefix (f_q f) (f_o f) [c] []) as B.
      cbn [length app] in B. rewrite Nat.add_1_r in B.
      rewrite B by lia. now rewrite <- app_assoc. }
    auto.
Qed.

(** X3: a template made of literal text that fits the buffer and then a
    ['%'] that ends the template or is followed by a character which is
    not one of [u U S a b s t] (another ['%'] for one: there is no way to
    write a literal percent sign) makes [db_query], called with the mutex
    free, return [DB_R_ERR] with
    the mutex released: nothing is asked of the server, the handle of the
    caller is as it was, and the literal text stays in the scratch
    buffer. *)
Theorem unknown_directive_is_refused :
  forall (NDEBUG : bool) (connect_ok : nat -> bool)
         (exec_reply : nat -> option PGresult) (keep_running : nat -> bool)
         (fuel : nat) (db : dbconn_t) (result : dbres_t)
         (pre tail : list ascii) (ap : list varg) (w : world),
    mutex db = false ->
    res result = None ->
    forallb is_literal pre = true ->
    length pre < length (q db) ->
    match tail with
    | [] => True
    | d :: _ => kind_of d = None
    end ->
    exists m,
      db_query NDEBUG connect_ok exec_reply keep_running fuel db result
               (pre ++ "%"%char :: tail) ap w
      = Returned DB_R_ERR
          {| s_db := mutex_unlock (set_q (mutex_locked db) m);
             s_result := result; s_world := w |}
      /\ c_str m = pre /\ length m = length (q db).
Proof.
  intros NDEBUG connect_ok exec_reply keep_running fuel db result pre tail
         ap w M Rn L Fit T.
  set (f0 := {| f_q := q db; f_o := 0; f_params := []; f_ap := ap;
                f_rep := DB_R_OK |}).
  destruct (prepare_literal_prefix pre f0 L eq_refl)
    as (f1 & P & O & Q & F & Pa & Ap & R); [cbn; lia|].
  cbn in O, Q, F, Pa.
  set (f2 := {| f_q := f_q f1; f_o := f_o f1; f_params := f_params f1;
                f_ap := f_ap f1; f_rep := DB_R_ERR |}).
  assert (V : f_v f1 < DB_MAX_PARAMS).
  { unfold f_v. rewrite Pa. cbn. unfold DB_MAX_PARAMS. lia. }
  assert (P2 : prepare ("%"%char :: tail) f1 = Done f2).
  { destruct tail as [|d rest].
    - cbn [prepare]. rewrite R.
      change (Ascii.eqb "%" NUL) with false.
      change (Ascii.eqb "%" "%") with true. cbn [negb].
      apply Nat.leb_gt in V. rewrite V. reflexivity.
    - rewrite (prepare_directive d rest f1 R V), (directive_unknown d f1 T).
      cbn [bind]. apply prepare_stopped. cbn. discriminate. }
  exists (blit (f_q f1) (f_o f1) [NUL]).
  split; [|split].
  - rewrite (db_query_free _ _ _ _ _ _ _ _ _ _ M), Rn.
    unfold compile. fold f0. rewrite P, P2. cbn [bind f_q f_o f2].
    rewrite store_in_bounds by lia. cbn [bind f_rep f_q]. reflexivity.
  - rewrite blit_split, F. apply c_str_terminated.
    now apply literal_no_nul.
  - rewrite blit_length; [exact Q|cbn; lia].
Qed.

Lemma unknown_directive_is_refused_witness :
  exists m,
    db_query false (fun _ => true)
             (fun _ => Some (status_result PGRES_TUPLES_OK None))
             (fun _ => true) 3 (live_db 64) no_result
             (s2l "SELECT 100" ++ "%"%char :: s2l "% FROM t") [] world0
    = Returned DB_R_ERR
        {| s_db := mutex_unlock (set_q (mutex_locked (live_db 64)) m);
           s_result := no_result; s_world := world0 |}
    /\ c_str m = s2l "SELECT 100" /\ length m = length (q (live_db 64)).
Proof.
  apply (unknown_directive_is_refused false (fun _ => true)
           (fun _ => Some (status_result PGRES_TUPLES_OK None))
           (fun _ => true) 3 (live_db 64) no_result
           (s2l "SELECT 100") (s2l "% FROM t") [] world0).
  - reflexivity.
  - reflexivity.
  - vm_compute. reflexivity.
  - vm_compute. lia.
  - vm_compute. reflexivity.
Defined.

(** ** What [db_query] leaves behind *)

(** X4: when [db_query] returns [DB_R_OK] or [DB_R_DUPLICATE_KEY], the
    template compiled, the mutex is still held, the connection is live and
    the handle of the caller holds the result of the last statement sent:
    the last [PQexecParams] was given the compiled text with the compiled
    parameters, and what it returned (the answer of the server to that
    call, the one numbered by the calls made before it) is the result in
    the handle; the status of that result is command-ok or rows-ok for
    [DB_R_OK], and for [DB_R_DUPLICATE_KEY] it is neither and its SQLSTATE
    is "23505". *)
Theorem db_query_good_reply_holds_result :
  forall (NDEBUG : bool) (connect_ok : nat -> bool)
         (exec_reply : nat -> option PGresult) (keep_running : nat -> bool)
         (fuel : nat) (db : dbconn_t) (result : dbres_t)
         (txt : list ascii) (ap : list varg) (w : world)
         (r : dbreply_t) (s : state),
    db_query NDEBUG connect_ok exec_reply keep_running fuel db result
             txt ap w = Returned r s ->
    r <> DB_R_ERR ->
    exists f pr c l,
      compile (q db) txt ap = Done f /\ f_rep f = DB_R_OK
      /\ res (s_result s) = Some pr
      /\ conn (s_db s) = Some c
      /\ mutex (s_db s) = true
      /\ sent (s_world s) = l ++ [(c, c_str (f_q f), f_params f)]
      /\ exec_reply (length l) = Some pr
      /\ s_result s = {| res := exec_reply (length l) |}
      /\ (r = DB_R_OK -> status_ok (PQresultStatus pr) = true)
      /\ (r = DB_R_DUPLICATE_KEY ->
          status_ok (PQresultStatus pr) = false
          /\ is_duplicate (PQresultErrorField_SQLSTATE pr) = true).
Proof.
  intros NDEBUG connect_ok exec_reply keep_running fuel db result txt ap w
         r s Q Good.
  unfold db_query, mutex_lock in Q.
  destruct (mutex db); [discriminate|].
  destruct (res result); [discriminate|].
  change (q (mutex_locked db)) with (q db) in Q.
  destruct (compile (q db) txt ap) as [f|] eqn:C; [|discriminate].
  destruct (f_rep f) eqn:K;
    try (injection Q as <- <-; contradiction).
  apply exec_loop_good in Q
      as (pr & c & l & H1 & H2 & H3 & H4 & Hr & H5 & H6);
    auto; [|discriminate].
  exists f, pr, c, l. cbn in H3, H4.
  assert (Hs : s_result s = {| res := exec_reply (length l) |}).
  { rewrite Hr, <- H1. now destruct (s_result s). }
  repeat split; auto; now apply H6.
Qed.

Lemma db_query_good_reply_holds_result_witness :
  exists s f pr c l,
    db_query false (fun _ => true)
             (fun _ => Some (status_result PGRES_TUPLES_OK None))
             (fun _ => true) 3 (live_db 64) no_result
             (s2l "SELECT 1") [] world0 = Returned DB_R_OK s
    /\ compile (q (live_db 64)) (s2l "SELECT 1") [] = Done f
    /\ res (s_result s) = Some pr /\ conn (s_db s) = Some c
    /\ mutex (s_db s) = true
    /\ sent (s_world s) = l ++ [(c, c_str (f_q f), f_params f)]
    /\ pr = status_result PGRES_TUPLES_OK None.
Proof.
  let v := eval vm_compute in
         (db_query false (fun _ => true)
            (fun _ => Some (status_result PGRES_TUPLES_OK None))
            (fun _ => true) 3 (live_db 64) no_result
            (s2l "SELECT 1") [] world0) in
  lazymatch v with
  | Returned _ ?s =>
    assert (Q : db_query false (fun _ => true)
                  (fun _ => Some (status_result PGRES_TUPLES_OK None))
                  (fun _ => true) 3 (live_db 64) no_result
                  (s2l "SELECT 1") [] world0 = Returned DB_R_OK s)
      by (vm_cast_no_check (eq_refl v));
    exists s;
    destruct (db_query_good_reply_holds_result _ _ _ _ _ _ _ _ _ _ _ _ Q
                ltac:(discriminate))
      as (f & pr & c & l & H1 & _ & H3 & H4 & H5 & H6 & H7 & _);
    cbv beta in H7; exists f, pr, c, l; repeat split; auto; congruence
  end.
Defined.

(** X5: whenever [db_query] returns, it has called [PQexecParams] at most
    twice and never [PQclear]; every statement it has sent is the text
    that the scratch buffer holds at the return, with one and the same list
    of parameters. *)
Theorem db_query_sends_what_it_compiled :
  forall (NDEBUG : bool) (connect_ok : nat -> bool)
         (exec_reply : nat -> option PGresult) (keep_running : nat -> bool)
         (fuel : nat) (db : dbconn_t) (result : dbres_t)
         (txt : list ascii) (ap : list varg) (w : world)
         (r : dbreply_t) (s : state),
    db_query NDEBUG connect_ok exec_reply keep_running fuel db result
             txt ap w = Returned r s ->
    cleared (s_world s) = cleared w
    /\ exists l ps,
         sent (s_world s) = sent w ++ l /\ length l <= 2
         /\ Forall (fun e => snd (fst e) = c_str (q (s_db s))
                             /\ snd e = ps) l.
Proof.
  intros NDEBUG connect_ok exec_reply keep_running fuel db result txt ap w
         r s Q.
  unfold db_query, mutex_lock in Q.
  destruct (mutex db); [discriminate|].
  destruct (res result); [discriminate|].
  destruct (compile (q (mutex_locked db)) txt ap) as [f|]; [|discriminate].
  destruct (f_rep f).
  - apply exec_loop_trace in Q as (Hq & Hc & l & Hs & Hl & F).
    split; [exact Hc|]. exists l, (f_params f). rewrite Hq.
    repeat split; auto.
  - injection Q as <- <-. cbn. split; [reflexivity|].
    exists [], []. rewrite app_nil_r. repeat split; auto.
  - injection Q as <- <-. cbn. split; [reflexivity|].
    exists [], []. rewrite app_nil_r. repeat split; auto.
Qed.

Lemma db_query_sends_what_it_compiled_witness :
  exists s,
    db_query false (fun _ => true)
             (fun k => if k =? 0 then None
                       else Some (status_result PGRES_TUPLES_OK None))
             (fun _ => true) 3 (live_db 64) no_result
             (s2l "SELECT 1") [] world0 = Returned DB_R_OK s
    /\ cleared (s_world s) = 0
    /\ exists l ps,
         sent (s_world s) = [] ++ l /\ length l <= 2
         /\ Forall (fun e => snd (fst e) = c_str (q (s_db s))
                             /\ snd e = ps) l.
Proof.
  let v := eval vm_compute in
         (db_query false (fun _ => true)
            (fun k => if k =? 0 then None
                      else Some (status_result PGRES_TUPLES_OK None))
            (fun _ => true) 3 (live_db 64) no_result
            (s2l "SELECT 1") [] world0) in
  lazymatch v with
  | Returned _ ?s =>
    assert (Q : db_query false (fun _ => true)
                  (fun k => if k =? 0 then None
                            else Some (status_result PGRES_TUPLES_OK None))
                  (fun _ => true) 3 (live_db 64) no_result
                  (s2l "SELECT 1") [] world0 = Returned DB_R_OK s)
      by (vm_cast_no_check (eq_refl v));
    exists s; split; [exact Q|];
    exact (db_query_sends_what_it_compiled _ _ _ _ _ _ _ _ _ _ _ _ Q)
  end.
Defined.

(** ** The resend after a fatal error *)

(** X6: when the first [PQexecParams] returns a result with status
    [PGRES_FATAL_ERROR] and no SQLSTATE, [db_query] (called with the mutex
    free) finishes the connection,
    clears its handle and runs [db_connect] once more.  If that leaves no
    connection the call returns [DB_R_ERR] with the mutex released and the
    fatal result still in the handle of the caller.  Otherwise the
    statement is sent again, and a result with status command-ok or rows-ok
    makes the call return [DB_R_OK] with that result in the handle; the
    fatal result is dropped without [PQclear]. *)
Theorem fatal_without_sqlstate_resent_once :
  forall (NDEBUG : bool) (connect_ok : nat -> bool)
         (exec_reply : nat -> option PGresult) (keep_running : nat -> bool)
         (fuel : nat) (db : dbconn_t) (result : dbres_t)
         (txt : list ascii) (ap : list varg) (w : world)
         (f : frame) (db1 : dbconn_t) (w1 : world) (c : PGconn)
         (pr1 : PGresult),
    let query := db_query NDEBUG connect_ok exec_reply keep_running fuel db
                          result txt ap w in
    mutex db = false ->
    res result = None -> compile (q db) txt ap = Done f ->
    f_rep f = DB_R_OK ->
    ensure_connected NDEBUG connect_ok keep_running fuel
                     (set_q (mutex_locked db) (f_q f)) w = Done (db1, w1) ->
    conn db1 = Some c ->
    exec_reply (length (sent w)) = Some pr1 ->
    PQresultStatus pr1 = PGRES_FATAL_ERROR ->
    PQresultErrorField_SQLSTATE pr1 = None ->
    let sql := c_str (f_q f) in
    let ps := f_params f in
    let w2 := note_finish (note_sent w1 c sql ps) c in
    forall (b : bool) (db3 : dbconn_t) (w3 : world),
      db_connect NDEBUG connect_ok keep_running fuel (set_conn db1 None)
                 w2 = Done (b, db3, w3) ->
      match conn db3 with
      | None =>
        query = Returned DB_R_ERR
                  {| s_db := mutex_unlock db3;
                     s_result := {| res := Some pr1 |}; s_world := w3 |}
      | Some c' =>
        forall pr2,
          exec_reply (S (length (sent w))) = Some pr2 ->
          status_ok (PQresultStatus pr2) = true ->
          query = Returned DB_R_OK
                    {| s_db := db3; s_result := {| res := Some pr2 |};
                       s_world := note_sent w3 c' sql ps |}
          /\ cleared w3 = cleared w
      end.
Proof.
  intros NDEBUG connect_ok exec_reply keep_running fuel db result txt ap w
         f db1 w1 c pr1 query M Rn Cf K E C R0 Fa Co sql ps w2 b db3 w3 D.
  pose proof (ensure_connected_frame _ _ _ _ _ _ _ _ E)
    as (Hdb1 & Hs1 & Hc1 & _).
  pose proof (db_connect_frame _ _ _ _ _ _ _ _ _ D) as (Hdb3 & Hs3 & Hc3 & _).
  assert (Hq1 : q db1 = f_q f) by (rewrite Hdb1; reflexivity).
  assert (Hq3 : q db3 = f_q f) by (rewrite Hdb3; exact Hq1).
  assert (Hlen : length (sent w3) = S (length (sent w))).
  { rewrite Hs3. cbn. rewrite length_app, Hs1. cbn. lia. }
  assert (Q1 : query
               = exec_loop NDEBUG connect_ok exec_reply keep_running fuel 1
                   ps DB_R_ERR (set_conn db1 None) {| res := Some pr1 |}
                   w2).
  { subst query.
    rewrite (db_query_compiled _ _ _ _ _ _ _ _ _ _ _ M Rn Cf K).
    rewrite <- Hs1 in R0.
    rewrite (exec_turn_result _ _ _ _ _ _ _ _ _ _ _ _ _ _ _ E C R0).
    cbv zeta. rewrite Fa, Co, Hq1. reflexivity. }
  assert (E2 : ensure_connected NDEBUG connect_ok keep_running fuel
                 (set_conn db1 None) w2 = Done (db3, w3)).
  { now apply (ensure_connected_down _ _ _ _ _ _ _ _ b). }
  destruct (conn db3) as [c'|] eqn:C3.
  - intros pr2 R1 St. split.
    + rewrite Q1. rewrite <- Hlen in R1.
      rewrite (exec_turn_result _ _ _ _ _ _ _ _ _ _ _ _ _ _ _ E2 C3 R1).
      cbv zeta. now rewrite St, Hq3.
    + rewrite Hc3. cbn. exact Hc1.
  - rewrite Q1.
    now rewrite (exec_turn_no_connection _ _ _ _ _ _ _ _ _ _ _ _ _ E2 C3).
Qed.

Lemma fatal_without_sqlstate_resent_once_witness :
  let exec_reply := fun k : nat =>
        if k =? 0 then Some (status_result PGRES_FATAL_ERROR None)
        else Some (status_result PGRES_COMMAND_OK None) in
  exists s,
    db_query false (fun _ => true) exec_reply (fun _ => true) 3 (live_db 64)
             no_result (s2l "SELECT 1") [] world0
    = Returned DB_R_OK s
    /\ res (s_result s) = Some (status_result PGRES_COMMAND_OK None)
    /\ cleared (s_world s) = 0.
Proof.
  intros exec_reply.
  set (m := blit (zeros 64) 0 (s2l "SELECT 1")).
  set (f := {| f_q := m; f_o := 8; f_params := []; f_ap := [];
               f_rep := DB_R_OK |}).
  set (db1 := set_q (mutex_locked (live_db 64)) m).
  set (w2 := note_finish (note_sent world0 0 (s2l "SELECT 1") []) 0).
  pose proof (fatal_without_sqlstate_resent_once false (fun _ => true)
                exec_reply (fun _ => true) 3 (live_db 64) no_result
                (s2l "SELECT 1") [] world0 f db1 world0 0
                (status_result PGRES_FATAL_ERROR None)) as H.
  cbv zeta in H.
  assert (Cf : compile (q (live_db 64)) (s2l "SELECT 1") [] = Done f)
    by (vm_compute; reflexivity).
  assert (E : ensure_connected false (fun _ => true) (fun _ => true) 3
                (set_q (mutex_locked (live_db 64)) (f_q f)) world0
              = Done (db1, world0)) by (vm_compute; reflexivity).
  assert (D : db_connect false (fun _ => true) (fun _ => true) 3
                (set_conn db1 None)
                (note_finish (note_sent world0 0 (c_str (f_q f)) (f_params f))
                             0)
              = Done (true, set_conn db1 (Some 0), note_connect w2))
    by (vm_compute; reflexivity).
  specialize (H eq_refl eq_refl Cf eq_refl E eq_refl eq_refl eq_refl
                eq_refl _ _ _ D).
  change (conn (set_conn db1 (Some 0))) with (Some 0) in H.
  cbv iota in H.
  destruct (H (status_result PGRES_COMMAND_OK None) eq_refl eq_refl)
    as [Q _].
  eexists. split; [exact Q|]. split; reflexivity.
Defined.

(** ** The pauses and the end of [db_connect] *)

Section ConnectMore.

Variable NDEBUG : bool.
Variable connect_ok : nat -> bool.
Variable keep_running : nat -> bool.

Local Abbreviation tryconnect' := (db_tryconnect NDEBUG connect_ok).
Local Abbreviation connect_loop' :=
  (db_connect_loop NDEBUG connect_ok keep_running).
Local Abbreviation connect' := (db_connect NDEBUG connect_ok keep_running).

Lemma db_tryconnect_down (db : dbconn_t) (w : world) :
  conn db = None ->
  tryconnect' db w
  = Done (match conninfo db with
          | None => (false, set_conn db None, w)
          | Some _ =>
            if connect_ok (connects w)
            then (true, set_conn db (Some (connects w)), note_connect w)
            else (false, set_conn db None,
                  note_finish (note_connect w) (connects w))
          end).
Proof.
  intros C. unfold db_tryconnect. rewrite C. cbn [is_null].
  rewrite assert_true. cbn [bind].
  destruct (conninfo db); [destruct (connect_ok (connects w))|];
    reflexivity.
Qed.

Lemma db_tryconnect_slept (db db' : dbconn_t) (w w' : world) (ok : bool) :
  tryconnect' db w = Done (ok, db', w') ->
  slept w' = slept w /\ polls w' = polls w.
Proof.
  unfold db_tryconnect, assert_.
  destruct (NDEBUG || is_null (conn db)); cbn [bind]; [|discriminate].
  destruct (conninfo db); [destruct (connect_ok (connects w))|];
    intros [= _ _ <-]; auto.
Qed.

(** Every pause of the loop lasts from 2 to 29 seconds. *)
Lemma db_connect_loop_pauses (fuel : nat) :
  forall (i : Z) (db db' : dbconn_t) (w w' : world),
    connect_loop' fuel i db w = Done (db', w') ->
    exists l,
      slept w' = slept w ++ l
      /\ Forall (fun t => 2 <= t <= 29)%Z l
      /\ length l <= polls w' - polls w
      /\ polls w <= polls w'
      /\ (keeptrying db = false -> (0 <= i <= 3)%Z ->
          Z.of_nat (length l) <= 3 - i)%Z.
Proof.
  assert (Nil : forall (i : Z) (w0 w1 : world),
             slept w1 = slept w0 -> polls w0 <= polls w1 ->
             exists l,
               slept w1 = slept w0 ++ l
               /\ Forall (fun t => 2 <= t <= 29)%Z l
               /\ length l <= polls w1 - polls w0
               /\ polls w0 <= polls w1
               /\ (0 <= i <= 3 -> Z.of_nat (length l) <= 3 - i)%Z).
  { intros i w0 w1 Sl Po. exists []. rewrite app_nil_r.
    split; [exact Sl|]. split; [constructor|].
    split; [cbn [length]; lia|]. split; [exact Po|].
    cbn [length]. lia. }
  induction fuel as [|fuel IH]; intros i db db' w w'; cbn [db_connect_loop].
  - destruct (keeptrying db || (i <? 3)%Z); [discriminate|].
    intros [= <- <-].
    destruct (Nil i w w eq_refl (le_n _)) as (l & A & B & C & D & E).
    exists l. auto 10.
  - destruct (keeptrying db || (i <? 3)%Z) eqn:Cond.
    2:{ intros [= <- <-].
        destruct (Nil i w w eq_refl (le_n _)) as (l & A & B & C & D & E).
        exists l. auto 10. }
    destruct (tryconnect' db w) as [[[ok db1] w1]|] eqn:T; cbn [bind];
      [|discriminate].
    pose proof (db_tryconnect_slept _ _ _ _ _ T) as [Sl Po].
    pose proof (db_tryconnect_frame _ _ _ _ _ _ _ T) as (Hdb & _).
    destruct ok.
    + intros [= <- <-].
      destruct (Nil i w w1 Sl ltac:(lia)) as (l & A & B & C & D & E).
      exists l. auto 10.
    + destruct (keep_running (polls w1)); cbn [negb].
      * intros L. apply IH in L as (l & Hs & F & Hl & Hp & Hb).
        cbn [slept polls note_sleep note_poll] in Hs, Hl, Hp.
        exists ((i mod 28 + 2)%Z :: l).
        rewrite Hs, Sl, <- app_assoc.
        split; [reflexivity|]. split.
        { constructor; [|exact F].
          pose proof (Z.mod_pos_bound i 28). lia. }
        split; [cbn [length]; lia|]. split; [lia|].
        intros Hk Hi. rewrite Hk in Cond. cbn [orb] in Cond.
        apply Z.ltb_lt in Cond.
        assert (Hk1 : keeptrying db1 = false) by (rewrite Hdb; exact Hk).
        specialize (Hb Hk1). rewrite Z.mod_small in Hb by lia.
        cbn [length]. lia.
      * intros [= <- <-].
        destruct (Nil (i + 1)%Z w (note_poll w1)) as (l & A & B & C & D & E).
        { cbn [slept note_poll]. exact Sl. }
        { cbn [polls note_poll]. lia. }
        exists l. split; [exact A|]. split; [exact B|].
        split; [exact C|]. split; [exact D|].
        intros Hk Hi. rewrite Hk in Cond. cbn [orb] in Cond.
        apply Z.ltb_lt in Cond. lia.
Qed.

(** With [keeptrying] set the loop goes on, whatever its counter, until a
    [PQconnectdb] gives a connection. *)
Lemma db_connect_loop_until_success (n : nat) :
  forall (fuel : nat) (i : Z) (db : dbconn_t) (w : world),
    keeptrying db = true -> conn db = None -> conninfo db <> None ->
    (forall j, j < n -> connect_ok (connects w + j) = false) ->
    connect_ok (connects w + n) = true ->
    (forall j, j < n -> keep_running (polls w + j) = true) ->
    n < fuel ->
    exists w',
      connect_loop' fuel i db w
      = Done (set_conn db (Some (connects w + n)), w')
      /\ connects w' = connects w + n + 1
      /\ polls w' = polls w + n
      /\ length (slept w') = length (slept w) + n
      /\ sent w' = sent w.
Proof.
  induction n as [|n IH]; intros fuel i db w Hk Hc Hi Fail Ok Run Fuel.
  - destruct fuel as [|fuel]; [lia|]. cbn [db_connect_loop].
    rewrite Hk. cbn [orb]. rewrite (db_tryconnect_down db w Hc).
    destruct (conninfo db); [|contradiction].
    rewrite Nat.add_0_r in Ok. rewrite Ok. cbn [bind].
    exists (note_connect w). rewrite !Nat.add_0_r. cbn.
    repeat split; auto; lia.
  - destruct fuel as [|fuel]; [lia|]. cbn [db_connect_loop].
    rewrite Hk. cbn [orb]. rewrite (db_tryconnect_down db w Hc).
    destruct (conninfo db) as [ci|] eqn:Ci; [|contradiction].
    pose proof (Fail 0 ltac:(lia)) as F0. rewrite Nat.add_0_r in F0.
    rewrite F0. cbn [bind polls note_finish note_connect].
    pose proof (Run 0 ltac:(lia)) as R0. rewrite Nat.add_0_r in R0.
    rewrite R0. cbn [negb].
    set (db1 := set_conn db None).
    set (w1 := note_sleep
                 (note_poll (note_finish (note_connect w) (connects w)))
                 (i mod 28 + 2)).
    destruct (IH fuel ((i + 1) mod 2 ^ 32)%Z db1 w1)
      as (w' & L & Cn & Po & Sl & Se).
    + exact Hk.
    + reflexivity.
    + cbn. now rewrite Ci.
    + intros j Hj. cbn [connects w1 note_sleep note_poll note_finish
                          note_connect].
      replace (S (connects w) + j) with (connects w + S j) by lia.
      apply Fail. lia.
    + cbn [connects w1 note_sleep note_poll note_finish note_connect].
      replace (S (connects w) + n) with (connects w + S n) by lia.
      exact Ok.
    + intros j Hj. cbn [polls w1 note_sleep note_poll note_finish
                          note_connect].
      replace (S (polls w) + j) with (polls w + S j) by lia.
      apply Run. lia.
    + lia.
    + exists w'. cbn [connects polls slept sent w1 note_sleep note_poll
                        note_finish note_connect] in L, Cn, Po, Sl, Se.
      rewrite length_app in Sl. cbn [length] in Sl.
      replace (connects w + S n) with (S (connects w) + n) by lia.
      split; [exact L|]. repeat split; try lia. exact Se.
Qed.

(** With [keeptrying] set, no connection to be had and the thread told to
    keep running, the loop never ends. *)
Lemma db_connect_loop_endless (fuel : nat) :
  forall (i : Z) (db : dbconn_t) (w : world),
    keeptrying db = true -> conn db = None ->
    (conninfo db = None \/ forall k, connect_ok k = false) ->
    (forall k, keep_running k = true) ->
    connect_loop' fuel i db w = Stop OutOfFuel.
Proof.
  induction fuel as [|fuel IH]; intros i db w Hk Hc Bad Run;
    cbn [db_connect_loop]; rewrite Hk; cbn [orb]; [reflexivity|].
  rewrite (db_tryconnect_down db w Hc).
  assert (T : exists w1,
             match conninfo db with
             | None => (false, set_conn db None, w)
             | Some _ =>
               if connect_ok (connects w)
               then (true, set_conn db (Some (connects w)), note_connect w)
               else (false, set_conn db None,
                     note_finish (note_connect w) (connects w))
             end = (false, set_conn db None, w1)).
  { destruct (conninfo db) eqn:Ci; [|eauto].
    destruct Bad as [Bad|Bad]; [discriminate|]. rewrite Bad. eauto. }
  destruct T as [w1 ->]. cbn [bind]. rewrite Run. cbn [negb].
  apply IH; auto.
Qed.

End ConnectMore.

(** X7: whenever [db_connect] returns, every pause it has made lasted from
    2 to 29 seconds, and without [keeptrying] it has made at most three. *)
Theorem db_connect_pauses :
  forall (NDEBUG : bool) (connect_ok keep_running : nat -> bool)
         (fuel : nat) (db db' : dbconn_t) (w w' : world) (b : bool),
    db_connect NDEBUG connect_ok keep_running fuel db w = Done (b, db', w') ->
    exists l,
      slept w' = slept w ++ l
      /\ Forall (fun t => 2 <= t <= 29)%Z l
      /\ (keeptrying db = false -> length l <= 3).
Proof.
  intros NDEBUG connect_ok keep_running fuel db db' w w' b D.
  unfold db_connect in D.
  destruct (assert_ NDEBUG (is_null (conn db))); cbn [bind] in D;
    [|discriminate].
  destruct (db_connect_loop NDEBUG connect_ok keep_running fuel 0 db w)
    as [[db1 w1]|] eqn:L; cbn [bind] in D; [|discriminate].
  injection D as _ <- <-.
  apply db_connect_loop_pauses in L as (l & Hs & F & _ & _ & Hb).
  exists l. split; [exact Hs|]. split; [exact F|].
  intros Hk. specialize (Hb Hk). lia.
Qed.

Lemma db_connect_pauses_witness :
  exists l,
    slept (note_sleep (note_sleep world0 2) 3) = slept world0 ++ l
    /\ Forall (fun t => 2 <= t <= 29)%Z l
    /\ (keeptrying (fresh_db 64) = false -> length l <= 3).
Proof.
  refine (db_connect_pauses false (fun k => 2 <=? k) (fun _ => true) 3
            (fresh_db 64) (set_conn (fresh_db 64) (Some 2)) world0
            {| connects := 3; sent := []; finished := [0; 1]; cleared := 0;
               polls := 2; slept := [2; 3]%Z |} true _).
  vm_compute. reflexivity.
Defined.

(** X8: with [keeptrying] set, connection information present and the
    thread told to keep running, [db_connect] goes on past three attempts:
    when the first [n] calls of [PQconnectdb] fail and the next one gives a
    connection, it returns [true] with that connection after [n + 1] calls
    and [n] pauses. *)
Theorem db_connect_keeps_trying_until_success :
  forall (NDEBUG : bool) (connect_ok keep_running : nat -> bool)
         (n fuel : nat) (db : dbconn_t) (w : world),
    keeptrying db = true -> conn db = None -> conninfo db <> None ->
    (forall j, j < n -> connect_ok (connects w + j) = false) ->
    connect_ok (connects w + n) = true ->
    (forall j, j < n -> keep_running (polls w + j) = true) ->
    n < fuel ->
    exists w',
      db_connect NDEBUG connect_ok keep_running fuel db w
      = Done (true, set_conn db (Some (connects w + n)), w')
      /\ connects w' = connects w + n + 1
      /\ polls w' = polls w + n
      /\ length (slept w') = length (slept w) + n
      /\ sent w' = sent w.
Proof.
  intros NDEBUG connect_ok keep_running n fuel db w Hk Hc Hi Fail Ok Run
         Fuel.
  destruct (db_connect_loop_until_success NDEBUG connect_ok keep_running n
              fuel 0%Z db w Hk Hc Hi Fail Ok Run Fuel)
    as (w' & L & Rest).
  exists w'. split; [|exact Rest].
  unfold db_connect. rewrite Hc. cbn [is_null]. rewrite assert_true.
  cbn [bind]. rewrite L. reflexivity.
Qed.

Lemma db_connect_keeps_trying_until_success_witness :
  exists w',
    db_connect false (fun k => 5 <=? k) (fun _ => true) 6
               (snd (db_set_keeptrying (fresh_db 64) true)) world0
    = Done (true,
            set_conn (snd (db_set_keeptrying (fresh_db 64) true)) (Some 5),
            w')
    /\ connects w' = 6 /\ polls w' = 5 /\ length (slept w') = 5
    /\ sent w' = [].
Proof.
  apply (db_connect_keeps_trying_until_success false (fun k => 5 <=? k)
           (fun _ => true) 5 6
           (snd (db_set_keeptrying (fresh_db 64) true)) world0).
  - reflexivity.
  - reflexivity.
  - vm_compute. discriminate.
  - intros j Hj. cbn [connects world0 Nat.add].
    apply Nat.leb_gt. exact Hj.
  - reflexivity.
  - reflexivity.
  - lia.
Defined.

(** X9: with [keeptrying] set, the connection down, no connection to be
    had (no connection information, or every [PQconnectdb] failing) and
    the thread told to keep running, a call of [db_query] made with the
    mutex free and whose template compiled never returns: the loop of
    [db_connect] uses up any amount of fuel. *)
Theorem db_query_keeptrying_never_returns :
  forall (NDEBUG : bool) (connect_ok : nat -> bool)
         (exec_reply : nat -> option PGresult) (keep_running : nat -> bool)
         (db : dbconn_t) (result : dbres_t) (txt : list ascii)
         (ap : list varg) (w : world) (f : frame),
    mutex db = false ->
    keeptrying db = true -> conn db = None ->
    (conninfo db = None \/ forall k, connect_ok k = false) ->
    (forall k, keep_running k = true) ->
    res result = None -> compile (q db) txt ap = Done f ->
    f_rep f = DB_R_OK ->
    forall fuel,
      db_query NDEBUG connect_ok exec_reply keep_running fuel db result
               txt ap w = Fault OutOfFuel.
Proof.
  intros NDEBUG connect_ok exec_reply keep_running db result txt ap w f
         M Hk Hc Bad Run Rn Cf K fuel.
  rewrite (db_query_compiled _ _ _ _ _ _ _ _ _ _ _ M Rn Cf K).
  cbn [exec_loop]. unfold ensure_connected, db_connect.
  change (conn (set_q (mutex_locked db) (f_q f))) with (conn db).
  rewrite Hc. cbn [is_null]. rewrite assert_true. cbn [bind].
  rewrite (db_connect_loop_endless NDEBUG connect_ok keep_running fuel 0%Z
             (set_q (mutex_locked db) (f_q f)) w Hk Hc Bad Run).
  reflexivity.
Qed.

Lemma db_query_keeptrying_never_returns_witness :
  db_query false (fun _ => false)
           (fun _ => Some (status_result PGRES_TUPLES_OK None))
           (fun _ => true) 1000
           (snd (db_set_keeptrying (fresh_db 64) true)) no_result
           (s2l "SELECT 1") [] world0 = Fault OutOfFuel.
Proof.
  assert (Cf : compile (q (snd (db_set_keeptrying (fresh_db 64) true)))
                 (s2l "SELECT 1") []
               = Done {| f_q := blit (zeros 64) 0 (s2l "SELECT 1");
                         f_o := 8; f_params := []; f_ap := [];
                         f_rep := DB_R_OK |}) by (vm_compute; reflexivity).
  exact (db_query_keeptrying_never_returns false (fun _ => false)
           (fun _ => Some (status_result PGRES_TUPLES_OK None))
           (fun _ => true) (snd (db_set_keeptrying (fresh_db 64) true))
           no_result (s2l "SELECT 1") [] world0 _ eq_refl eq_refl eq_refl
           (or_intror (fun _ => eq_refl)) (fun _ => eq_refl) eq_refl Cf
           eq_refl 1000).
Defined.

(** X10: when [thread_keep_running] answers [false] after the first failed
    attempt, [db_connect] returns [false] at once, with or without
    [keeptrying]: one attempt, one question, no pause. *)
Theorem db_connect_stops_when_told :
  forall (NDEBUG : bool) (connect_ok keep_running : nat -> bool)
         (fuel : nat) (db : dbconn_t) (w : world),
    conn db = None ->
    (conninfo db = None \/ connect_ok (connects w) = false) ->
    keep_running (polls w) = false ->
    1 <= fuel ->
    exists w',
      db_connect NDEBUG connect_ok keep_running fuel db w
      = Done (false, set_conn db None, w')
      /\ slept w' = slept w /\ polls w' = S (polls w)
      /\ connects w' <= S (connects w) /\ sent w' = sent w.
Proof.
  intros NDEBUG connect_ok keep_running fuel db w Hc Bad Stop Fuel.
  destruct fuel as [|fuel]; [lia|].
  unfold db_connect. rewrite Hc. cbn [is_null]. rewrite assert_true.
  cbn [bind db_connect_loop].
  change (0 <? 3)%Z with true. rewrite orb_true_r.
  rewrite (db_tryconnect_down NDEBUG connect_ok db w Hc).
  destruct (conninfo db) eqn:Ci.
  - destruct Bad as [Bad|Bad]; [discriminate|]. rewrite Bad.
    cbn [bind polls note_finish note_connect]. rewrite Stop. cbn.
    eexists. split; [reflexivity|]. cbn. auto.
  - cbn [bind]. rewrite Stop. cbn.
    eexists. split; [reflexivity|]. cbn. auto.
Qed.

Lemma db_connect_stops_when_told_witness :
  exists w',
    db_connect false (fun _ => false) (fun _ => false) 1
               (snd (db_set_keeptrying (fresh_db 64) true)) world0
    = Done (false,
            set_conn (snd (db_set_keeptrying (fresh_db 64) true)) None, w')
    /\ slept w' = slept world0 /\ polls w' = S (polls world0)
    /\ connects w' <= S (connects world0) /\ sent w' = sent world0.
Proof.
  exact (db_connect_stops_when_told false (fun _ => false) (fun _ => false)
           1 (snd (db_set_keeptrying (fresh_db 64) true)) world0 eq_refl
           (or_intror eq_refl) eq_refl (le_n 1)).
Defined.

(** A turn of the loop of [db_connect] that fails and goes on. *)
Lemma db_connect_loop_turn (NDEBUG : bool)
    (connect_ok keep_running : nat -> bool) (fuel : nat) (i : Z)
    (db : dbconn_t) (w : world) :
  keeptrying db || (i <? 3)%Z = true -> conn db = None ->
  (conninfo db = None \/ connect_ok (connects w) = false) ->
  keep_running (polls w) = true ->
  db_connect_loop NDEBUG connect_ok keep_running (S fuel) i db w
  = db_connect_loop NDEBUG connect_ok keep_running fuel
      ((i + 1) mod 2 ^ 32)%Z (set_conn db None)
      (note_sleep
         (note_poll match conninfo db with
                    | None => w
                    | Some _ => note_finish (note_connect w) (connects w)
                    end)
         (i mod 28 + 2)%Z).
Proof.
  intros Cond Hc Bad Run. cbn [db_connect_loop]. rewrite Cond.
  rewrite (db_tryconnect_down NDEBUG connect_ok db w Hc).
  destruct (conninfo db) eqn:Ci.
  - destruct Bad as [Bad|Bad]; [discriminate|]. rewrite Bad.
    cbn [bind polls note_finish note_connect]. rewrite Run. reflexivity.
  - cbn [bind]. rewrite Run. reflexivity.
Qed.

(** Without [keeptrying], with no connection to be had and the thread told
    to keep running, [db_connect] makes its three turns and pauses 2, 3
    and 4 seconds, the last time before giving up. *)
Lemma db_connect_three_turns (NDEBUG : bool)
    (connect_ok keep_running : nat -> bool) (fuel : nat) (db : dbconn_t)
    (w : world) :
  keeptrying db = false -> conn db = None ->
  (conninfo db = None \/ forall k, connect_ok k = false) ->
  (forall k, keep_running k = true) ->
  3 <= fuel ->
  exists w',
    db_connect NDEBUG connect_ok keep_running fuel db w
    = Done (false, set_conn db None, w')
    /\ slept w' = slept w ++ [2; 3; 4]%Z
    /\ sent w' = sent w
    /\ connects w' = match conninfo db with
                     | None => connects w
                     | Some _ => connects w + 3
                     end
    /\ finished w' = match conninfo db with
                     | None => finished w
                     | Some _ =>
                       finished w ++ [connects w; S (connects w);
                                      S (S (connects w))]
                     end.
Proof.
  intros Hk Hc Bad Run Fuel.
  destruct fuel as [|[|[|fuel]]]; try lia.
  assert (T : forall (fuel' : nat) (i : Z) (d : dbconn_t) (x : world),
             (0 <= i < 3)%Z -> conn d = None -> keeptrying d = false ->
             conninfo d = conninfo db ->
             db_connect_loop NDEBUG connect_ok keep_running (S fuel') i d x
             = db_connect_loop NDEBUG connect_ok keep_running fuel'
                 (i + 1)%Z (set_conn d None)
                 (note_sleep
                    (note_poll
                       match conninfo db with
                       | None => x
                       | Some _ => note_finish (note_connect x) (connects x)
                       end)
                    (i + 2)%Z)).
  { intros fuel' i d x Hi Hd Kd Cd.
    rewrite db_connect_loop_turn.
    - rewrite Z.mod_small by lia. rewrite (Z.mod_small i 28) by lia.
      rewrite Cd. reflexivity.
    - rewrite Kd. cbn [orb]. apply Z.ltb_lt. lia.
    - exact Hd.
    - destruct Bad as [B|B]; [left; congruence|right; apply B].
    - apply Run. }
  unfold db_connect. rewrite Hc. cbn [is_null]. rewrite assert_true.
  cbn [bind].
  rewrite (T _ 0%Z db w) by (auto; lia).
  rewrite (T _ (0 + 1)%Z) by (auto; lia).
  rewrite (T _ (0 + 1 + 1)%Z) by (auto; lia).
  assert (Out : forall (fuel' : nat) (d : dbconn_t) (x : world),
             keeptrying d = false ->
             db_connect_loop NDEBUG connect_ok keep_running fuel'
                             (0 + 1 + 1 + 1)%Z d x = Done (d, x)).
  { intros fuel' d x Kd. destruct fuel'; cbn [db_connect_loop];
      rewrite Kd; reflexivity. }
  rewrite Out by exact Hk. cbn [bind conn set_conn is_null negb].
  eexists. split; [reflexivity|].
  destruct (conninfo db);
    cbn [slept sent connects finished note_sleep note_poll note_finish
         note_connect];
    rewrite <- ?app_assoc; cbn [app]; repeat split; try reflexivity; lia.
Qed.

(** X11: without [keeptrying], with connection information, every
    [PQconnectdb] failing and the thread told to keep running,
    [db_connect] returns [false] after exactly three calls of
    [PQconnectdb], each failed connection finished, and after pauses of 2,
    3 and 4 seconds: it pauses after the last attempt too, before giving
    up. *)
Theorem db_connect_gives_up_after_three :
  forall (NDEBUG : bool) (connect_ok keep_running : nat -> bool)
         (fuel : nat) (db : dbconn_t) (w : world),
    keeptrying db = false -> conn db = None -> conninfo db <> None ->
    (forall k, connect_ok k = false) ->
    (forall k, keep_running k = true) ->
    3 <= fuel ->
    exists w',
      db_connect NDEBUG connect_ok keep_running fuel db w
      = Done (false, set_conn db None, w')
      /\ connects w' = connects w + 3
      /\ finished w' = finished w ++ [connects w; S (connects w);
                                      S (S (connects w))]
      /\ slept w' = slept w ++ [2; 3; 4]%Z
      /\ sent w' = sent w.
Proof.
  intros NDEBUG connect_ok keep_running fuel db w Hk Hc Ci Fail Run Fuel.
  destruct (db_connect_three_turns NDEBUG connect_ok keep_running fuel db w
              Hk Hc (or_intror Fail) Run Fuel)
    as (w' & D & Sl & Se & Cn & Fi).
  exists w'. destruct (conninfo db); [|contradiction]. auto 10.
Qed.

Lemma db_connect_gives_up_after_three_witness :
  exists w',
    db_connect false (fun _ => false) (fun _ => true) 3 (fresh_db 64) world0
    = Done (false, set_conn (fresh_db 64) None, w')
    /\ connects w' = connects world0 + 3
    /\ finished w' = finished world0 ++ [connects world0;
                                         S (connects world0);
                                         S (S (connects world0))]
    /\ slept w' = slept world0 ++ [2; 3; 4]%Z
    /\ sent w' = sent world0.
Proof.
  apply (db_connect_gives_up_after_three false (fun _ => false)
           (fun _ => true) 3 (fresh_db 64) world0).
  - reflexivity.
  - reflexivity.
  - vm_compute. discriminate.
  - reflexivity.
  - reflexivity.
  - lia.
Defined.



(** ** Setting up and tearing down *)

Lemma c_str_no_nul (s : list ascii) : ~ In NUL s -> c_str s = s.
Proof.
  intros H. rewrite <- (app_nil_r s) at 1.
  induction s as [|c s IH]; cbn; [reflexivity|].
  destruct (Ascii.eqb c NUL) eqn:E.
  - apply Ascii.eqb_eq in E. exfalso. apply H. now left.
  - f_equal. apply IH. intros I. apply H. now right.
Qed.

Lemma c_str_length (s : list ascii) : length (c_str s) <= length s.
Proof.
  induction s as [|c s IH]; cbn; [lia|].
  destruct (Ascii.eqb c NUL); cbn; lia.
Qed.

(** X13: [db_init] makes no connection: the handle is null, the mutex
    free, notices on, [keeptrying] off and the scratch buffer zeroed.
    Without a name and a user there is no connection information; with
    both it is "dbname = N user = U" when that has at most 127 characters,
    and in every case it is cut to at most 127 characters, the size of the
    local buffer less one. *)
Theorem db_init_connection_information :
  forall (n : nat) (name user : option (list ascii)),
    let db := db_init n name user in
    conn db = None /\ mutex db = false /\ notices db = true
    /\ keeptrying db = false /\ q db = zeros n
    /\ (conninfo db = None <-> name = None /\ user = None)
    /\ (forall ci, conninfo db = Some ci -> length ci <= 127)
    /\ (forall nm us,
          name = Some nm -> user = Some us ->
          ~ In NUL nm -> ~ In NUL us ->
          length nm + length us <= 110 ->
          conninfo db
          = Some (s2l "dbname = " ++ nm ++ s2l " user = " ++ us)).
Proof.
  intros n name user db. subst db. unfold db_init.
  cbn [conn mutex notices keeptrying q conninfo].
  do 5 (split; [reflexivity|]).
  split; [|split].
  - destruct name, user; split; try discriminate; auto;
      intros [A B]; discriminate.
  - intros ci H.
    assert (B : forall t, length (c_str (firstn 127 t)) <= 127).
    { intros t. etransitivity; [apply c_str_length|].
      rewrite length_firstn. lia. }
    destruct name, user; try discriminate H;
      match type of H with
      | Some ?x = Some _ =>
          assert (E : x = ci) by congruence; rewrite <- E; apply B
      end.
  - intros nm us -> -> Nn Nu Len. f_equal.
    set (t := s2l "dbname = " ++ nm ++ s2l " user = " ++ us).
    assert (Lt : length t <= 127).
    { subst t. rewrite !length_app. cbn [length s2l list_ascii_of_string].
      lia. }
    assert (Et : (s2l "dbname = " ++ nm) ++ s2l " " ++ s2l "user = " ++ us
                 = t).
    { subst t. rewrite <- app_assoc. reflexivity. }
    rewrite Et, firstn_all2 by exact Lt.
    apply c_str_no_nul. subst t. intros I.
    rewrite !in_app_iff in I.
    destruct I as [I|[I|[I|I]]]; auto;
      cbn in I; repeat (destruct I as [I|I]; [discriminate|]); exact I.
Qed.

Lemma db_init_connection_information_witness :
  conninfo (db_init 64 (Some (s2l "ddb")) (Some (s2l "web")))
  = Some (s2l "dbname = " ++ s2l "ddb" ++ s2l " user = " ++ s2l "web").
Proof.
  refine (proj2 (proj2 (proj2 (proj2 (proj2 (proj2 (proj2
    (db_init_connection_information 64 (Some (s2l "ddb"))
       (Some (s2l "web"))))))))) (s2l "ddb") (s2l "web") eq_refl eq_refl
    _ _ _).
  - apply no_nul_check. vm_compute. reflexivity.
  - apply no_nul_check. vm_compute. reflexivity.
  - vm_compute. lia.
Defined.

(** X14: [db_cleanup] finishes the connection if there is one, once, and
    leaves the handle and the connection information null; a second
    [db_cleanup] finishes nothing and changes nothing. *)
Theorem db_cleanup_once :
  forall (db : dbconn_t) (w : world),
    let '(db1, w1) := db_cleanup db w in
    conn db1 = None /\ conninfo db1 = None
    /\ finished w1 = finished w ++ match conn db with
                                   | Some c => [c]
                                   | None => []
                                   end
    /\ sent w1 = sent w /\ q db1 = q db
    /\ db_cleanup db1 w1 = (db1, w1).
Proof.
  intros db w. unfold db_cleanup.
  destruct (conn db) as [c|] eqn:C; destruct (conninfo db) as [ci|] eqn:Ci;
    cbn [conninfo set_conn set_conninfo conn]; rewrite ?Ci, ?C;
    cbn [conninfo set_conn set_conninfo conn finished note_finish sent q];
    rewrite ?app_nil_r, ?C, ?Ci; repeat split; reflexivity.
Qed.

(** ** The other accessors *)

(** X15: [db_result_get_enum] gives the cell of a column of any type, of
    an integer or a boolean column as of a text column; wherever
    [db_result_get_string] returns a string, [db_result_get_enum] returns
    the same one. *)
Theorem get_enum_ignores_type :
  forall (NDEBUG : bool) (result : dbres_t) (row column : nat)
         (str : option (list byte)),
    (forall d, db_result_getval result row column = Some d ->
               db_result_get_enum NDEBUG result row column str
               = Done (true, Some d))
    /\ (forall v, db_result_get_string NDEBUG result row column str
                  = Done (true, v) ->
                  db_result_get_enum NDEBUG result row column str
                  = Done (true, v))
    /\ (db_result_getval result row column = None ->
        db_result_get_enum NDEBUG result row column str
        = db_result_get_string NDEBUG result row column str).
Proof.
  intros NDEBUG result row column str.
  unfold db_result_get_enum, db_result_get_string, assert_.
  destruct (db_result_getval result row column) as [d|].
  - split; [intros d' [= <-]; reflexivity|]. split; [|discriminate].
    intros v.
    destruct ((result_ftype result column =? TEXTOID)%Z
              || (result_ftype result column =? VARCHAROID)%Z).
    + intros [= <-]. reflexivity.
    + destruct (NDEBUG || false); cbn; discriminate.
  - split; [discriminate|]. split; [|reflexivity].
    intros v. destruct (NDEBUG || false); cbn; discriminate.
Qed.

Lemma get_enum_ignores_type_witness :
  db_result_get_enum false
    {| res := Some (cell_result INT4OID [x00; x00; x00; x07]) |} 0 0 None
  = Done (true, Some [x00; x00; x00; x07]).
Proof.
  exact (proj1 (get_enum_ignores_type false
           {| res := Some (cell_result INT4OID [x00; x00; x00; x07]) |}
           0 0 None) _ eq_refl).
Defined.

(** X16: an accessor by field name fails, leaving the variable of the
    caller untouched, when the result has no field of that name (also when
    there is no result); otherwise it is the accessor by position at the
    column that [PQfnumber] gives. *)
Theorem field_accessors_look_up_the_column :
  forall (NDEBUG : bool) (result : dbres_t) (row : nat)
         (field : list ascii),
    (result_fnumber result field = (-1)%Z ->
     (forall b, db_result_field_bool result row field b = (false, b))
     /\ (forall s, db_result_field_string NDEBUG result row field s
                   = Done (false, s))
     /\ (forall x, db_result_field_uint32 NDEBUG result row field x
                   = Done (false, x))
     /\ (forall x, db_result_field_uint64 NDEBUG result row field x
                   = Done (false, x)))
    /\
    (forall column : nat,
       result_fnumber result field = Z.of_nat column ->
       (Z.of_nat column < 2 ^ 32)%Z ->
       (forall b, db_result_field_bool result row field b
                  = db_result_get_bool result row column b)
       /\ (forall s, db_result_field_string NDEBUG result row field s
                     = db_result_get_string NDEBUG result row column s)
       /\ (forall x, db_result_field_uint32 NDEBUG result row field x
                     = db_result_get_uint32 NDEBUG result row column x)
       /\ (forall x, db_result_field_uint64 NDEBUG result row field x
                     = db_result_get_uint64 NDEBUG result row column x)).
Proof.
  intros NDEBUG result row field. split.
  - intros H.
    unfold db_result_field_bool, db_result_field_string,
      db_result_field_uint32, db_result_field_uint64.
    rewrite H. cbn. auto.
  - intros column H Small.
    assert (Ne : (Z.of_nat column =? -1)%Z = false)
      by (apply Z.eqb_neq; lia).
    assert (Ca : column_arg (Z.of_nat column) = column).
    { unfold column_arg. rewrite Z.mod_small by lia. apply Nat2Z.id. }
    unfold db_result_field_bool, db_result_field_string,
      db_result_field_uint32, db_result_field_uint64.
    rewrite H, Ne, Ca.
    repeat split; intros x.
    + destruct (db_result_get_bool result row column x) as [[|] b];
        reflexivity.
    + destruct (db_result_get_string NDEBUG result row column x)
        as [[[|] v]|]; reflexivity.
    + destruct (db_result_get_uint32 NDEBUG result row column x)
        as [[[|] v]|]; reflexivity.
    + destruct (db_result_get_uint64 NDEBUG result row column x)
        as [[[|] v]|]; reflexivity.
Qed.

Lemma field_accessors_look_up_the_column_witness :
  db_result_field_uint64 false
    {| res := Some (cell_result INT8OID (htonll_mem 5000000000)) |} 0
    (s2l "gw_id") 7%Z
  = Done (false, 7%Z).
Proof.
  exact (proj2 (proj2 (proj2 (proj1
    (field_accessors_look_up_the_column false
       {| res := Some (cell_result INT8OID (htonll_mem 5000000000)) |} 0
       (s2l "gw_id")) eq_refl))) 7%Z).
Defined.

(** ** [db_create] *)

Lemma compile_length (m txt : list ascii) (ap : list varg) (f : frame) :
  compile m txt ap = Done f -> length (f_q f) = length m.
Proof.
  intros C. unfold compile in C.
  destruct (prepare txt _) as [f1|] eqn:P; cbn [bind] in C; [|discriminate].
  apply (prepare_keeps (length txt)) in P; cbn; try lia.
  cbn in P. destruct P as (L & O & V).
  unfold store in C.
  destruct (f_o f1 <? length (f_q f1)) eqn:B; cbn [bind] in C;
    [|discriminate].
  apply Nat.ltb_lt in B. injection C as <-. cbn [f_q].
  rewrite blit_length; [exact L|cbn; lia].
Qed.

Lemma render_literal (txt : list ascii) :
  forall i, forallb is_literal txt = true ->
            render i txt [] = Some (txt, [])
            /\ directive_letters txt = [].
Proof.
  induction txt as [|c txt IH]; intros i H; [split; reflexivity|].
  cbn [forallb] in H. apply andb_true_iff in H as [Hc H].
  unfold is_literal in Hc. apply andb_true_iff in Hc as [_ Hc].
  apply negb_true_iff in Hc.
  destruct (IH i H) as [R D].
  cbn [render directive_letters]. rewrite Hc, R, D. split; reflexivity.
Qed.

Lemma literal_compiles (m query : list ascii) :
  forallb is_literal query = true -> length query < length m ->
  compiles_to m (fst (as_it_is query)) (snd (as_it_is query)) query [].
Proof.
  intros L Len. destruct (render_literal query 1 L) as [R D].
  destruct (compile_refines m query [] query [] R) as
    (t1 & t2 & s1 & s2 & Et & Es & _ & Cp & Room);
    [cbn; unfold DB_MAX_PARAMS; lia|now apply literal_no_nul|exact Len|].
  destruct Room as [-> ->].
  { apply few_directives_have_room. rewrite D. cbn. lia. }
  rewrite app_nil_r in Es. subst s1. exact Cp.
Qed.

Lemma drop_table_compiles (m name : list ascii) :
  ~ In NUL name -> length name + 29 < length m ->
  compiles_to m (fst (drop_table name)) (snd (drop_table name))
              (drop_table_sql name) [].
Proof.
  intros N Len.
  assert (R : render 1 (fst (drop_table name)) (snd (drop_table name))
              = Some (drop_table_sql name, [])).
  { cbn [drop_table fst snd]. vm_compute. reflexivity. }
  destruct (compile_refines m _ _ _ _ R) as
    (t1 & t2 & s1 & s2 & Et & Es & _ & Cp & Room).
  - cbn. unfold DB_MAX_PARAMS. lia.
  - unfold drop_table_sql. rewrite !in_app_iff. intros [I|[I|I]]; auto;
      cbn in I; repeat (destruct I as [I|I]; [discriminate|]); exact I.
  - unfold drop_table_sql. rewrite !length_app. cbn [length s2l
      list_ascii_of_string]. lia.
  - destruct Room as [-> ->].
    { apply few_directives_have_room. vm_compute. lia. }
    rewrite app_nil_r in Es. rewrite Es. exact Cp.
Qed.

Lemma drop_type_compiles (m name : list ascii) :
  ~ In NUL name -> length name + 28 < length m ->
  compiles_to m (fst (drop_type name)) (snd (drop_type name))
              (drop_type_sql name) [].
Proof.
  intros N Len.
  assert (R : render 1 (fst (drop_type name)) (snd (drop_type name))
              = Some (drop_type_sql name, [])).
  { cbn [drop_type fst snd]. vm_compute. reflexivity. }
  destruct (compile_refines m _ _ _ _ R) as
    (t1 & t2 & s1 & s2 & Et & Es & _ & Cp & Room).
  - cbn. unfold DB_MAX_PARAMS. lia.
  - unfold drop_type_sql. rewrite !in_app_iff. intros [I|[I|I]]; auto;
      cbn in I; repeat (destruct I as [I|I]; [discriminate|]); exact I.
  - unfold drop_type_sql. rewrite !length_app. cbn [length s2l
      list_ascii_of_string]. lia.
  - destruct Room as [-> ->].
    { apply few_directives_have_room. vm_compute. lia. }
    rewrite app_nil_r in Es. rewrite Es. exact Cp.
Qed.

Section CreateRuns.

Variable NDEBUG : bool.
Variable connect_ok : nat -> bool.
Variable exec_reply : nat -> option PGresult.
Variable keep_running : nat -> bool.

Local Abbreviation loop'' :=
  (exec_loop NDEBUG connect_ok exec_reply keep_running).
Local Abbreviation query'' :=
  (db_query NDEBUG connect_ok exec_reply keep_running).
Local Abbreviation finish'' :=
  (query_finish NDEBUG connect_ok exec_reply keep_running).
Local Abbreviation each'' :=
  (query_each NDEBUG connect_ok exec_reply keep_running).




(** The pair of calls over a live connection, for a template that compiles
    and a reply that ends the loop of [db_query] at its first turn. *)
Lemma query_finish_reply (fuel : nat) (txt : list ascii) (ap : list varg)
    (s : state) (c : PGconn) (sql : list ascii) (ps : list param)
    (pr : PGresult) :
  mutex (s_db s) = false ->
  conn (s_db s) = Some c -> res (s_result s) = None ->
  compiles_to (q (s_db s)) txt ap sql ps ->
  exec_reply (length (sent (s_world s))) = Some pr ->
  status_ok (PQresultStatus pr) = true
  \/ is_fatal (PQresultStatus pr)
     && is_null (PQresultErrorField_SQLSTATE pr) = false ->
  exists s',
    finish'' fuel txt ap s
    = Gives (if status_ok (PQresultStatus pr) then DB_R_OK
             else if is_duplicate (PQresultErrorField_SQLSTATE pr)
                  then DB_R_DUPLICATE_KEY else DB_R_ERR) s'
    /\ length (q (s_db s')) = length (q (s_db s))
    /\ conn (s_db s') = Some c
    /\ res (s_result s') = None
    /\ mutex (s_db s') = false
    /\ sent (s_world s') = sent (s_world s) ++ [(c, sql, ps)]
    /\ cleared (s_world s') = S (cleared (s_world s))
    /\ connects (s_world s') = connects (s_world s)
    /\ finished (s_world s') = finished (s_world s).
Proof.
  intros M C R (f & Cf & Kf & Sf & Pf) E Cl.
  pose proof (compile_length _ _ _ _ Cf) as Lf.
  unfold query_finish.
  rewrite (db_query_compiled NDEBUG connect_ok exec_reply keep_running
             fuel (s_db s) (s_result s) txt ap (s_world s) f M R Cf Kf).
  erewrite exec_turn_result;
    [|apply (ensure_connected_live _ _ _ _ _ _ c); exact C
     |exact C|exact E].
  cbv zeta.
  destruct (status_ok (PQresultStatus pr)) eqn:So.
  - eexists. split; [reflexivity|].
    cbn. rewrite repeat_length, Sf, Pf. repeat split; auto.
  - destruct Cl as [Cl|Cl]; [discriminate|]. rewrite Cl.
    eexists. split; [reflexivity|].
    cbn. rewrite repeat_length, Sf, Pf. repeat split; auto.
Qed.

Lemma query_each_ok (fuel n : nat) (c : PGconn) :
  forall (stmts : list (list ascii * list varg))
         (sqls : list (list ascii)),
    Forall2 (fun st sql =>
               forall m, length m = n ->
                         compiles_to m (fst st) (snd st) sql [])
            stmts sqls ->
    forall s : state,
      mutex (s_db s) = false ->
      length (q (s_db s)) = n -> conn (s_db s) = Some c ->
      res (s_result s) = None ->
      (forall k, length (sent (s_world s)) <= k
                 < length (sent (s_world s)) + length stmts ->
                 exists pr, exec_reply k = Some pr
                            /\ status_ok (PQresultStatus pr) = true) ->
      exists s',
        each'' fuel stmts s = Gives true s'
        /\ mutex (s_db s') = false
        /\ length (q (s_db s')) = n
        /\ conn (s_db s') = Some c
        /\ res (s_result s') = None
        /\ sent (s_world s')
           = sent (s_world s) ++ map (fun sql => (c, sql, [])) sqls
        /\ cleared (s_world s') = cleared (s_world s) + length stmts
        /\ connects (s_world s') = connects (s_world s)
        /\ finished (s_world s') = finished (s_world s).
Proof.
  induction 1 as [|[txt ap] sql stmts sqls Hc _ IH]; intros s M L C R Ok.
  - exists s. cbn. rewrite app_nil_r. repeat split; auto; lia.
  - cbn [query_each].
    destruct (Ok (length (sent (s_world s)))) as (pr & E & So);
      [cbn [length]; lia|].
    destruct (query_finish_reply fuel txt ap s c sql [] pr M C R
                (Hc _ L) E (or_introl So))
      as (s1 & Q & L1 & C1 & R1 & M1 & S1 & Cl1 & Cn1 & F1).
    rewrite So in Q. rewrite Q.
    destruct (IH s1)
      as (s' & Q' & M' & L' & C' & R' & S' & Cl' & Cn' & F');
      [exact M1|lia|exact C1|exact R1| |].
    + intros k Hk. apply Ok. rewrite S1, length_app in Hk.
      cbn [length] in *. lia.
    + exists s'. split; [exact Q'|].
      rewrite S', S1, Cl', Cl1, Cn', Cn1, F', F1, <- app_assoc.
      cbn [map app length]. repeat split; auto; lia.
Qed.

End CreateRuns.

Lemma Forall2_map_both {A B C : Type} (P : B -> C -> Prop) (f : A -> B)
    (g : A -> C) (l : list A) :
  Forall (fun t => P (f t) (g t)) l -> Forall2 P (map f l) (map g l).
Proof. induction 1; cbn; constructor; auto. Qed.



(** X18: called with the mutex free over a live connection, with names and
    CREATE statements that fit
    the scratch buffer (the statements without a ['%']), and a server that
    accepts each statement, [db_create] returns [true] having sent, in this
    order and without parameters, a DROP TABLE for each table, a DROP TYPE
    for each type, the CREATE statement of each type and the CREATE
    statement of each table; it has cleared as many results, and neither
    connected nor closed the connection. *)
Theorem db_create_sends_in_order :
  forall (NDEBUG : bool) (connect_ok : nat -> bool)
         (exec_reply : nat -> option PGresult) (keep_running : nat -> bool)
         (fuel : nat) (db : dbconn_t)
         (types tables : list (list ascii * list ascii)) (w : world)
         (c : PGconn),
    mutex db = false ->
    conn db = Some c ->
    Forall (fun t => ~ In NUL (fst t)
                     /\ length (fst t) + 29 < length (q db)
                     /\ forallb is_literal (snd t) = true
                     /\ length (snd t) < length (q db)) tables ->
    Forall (fun t => ~ In NUL (fst t)
                     /\ length (fst t) + 28 < length (q db)
                     /\ forallb is_literal (snd t) = true
                     /\ length (snd t) < length (q db)) types ->
    (forall k, length (sent w) <= k
               < length (sent w) + 2 * (length types + length tables) ->
               exists pr, exec_reply k = Some pr
                          /\ status_ok (PQresultStatus pr) = true) ->
    exists s,
      db_create NDEBUG connect_ok exec_reply keep_running fuel db
                types tables w = Gives true s
      /\ conn (s_db s) = Some c
      /\ sent (s_world s)
         = sent w
           ++ map (fun sql => (c, sql, []))
                  (map (fun t => drop_table_sql (fst t)) tables
                   ++ map (fun t => drop_type_sql (fst t)) types
                   ++ map snd types ++ map snd tables)
      /\ cleared (s_world s)
         = cleared w + 2 * (length types + length tables)
      /\ connects (s_world s) = connects w
      /\ finished (s_world s) = finished w.
Proof.
  intros NDEBUG connect_ok exec_reply keep_running fuel db types tables w
         c M C Ftab Ftyp Ok.
  set (n := length (q db)) in *.
  unfold db_create.
  set (P := fun (st : list ascii * list varg) (sql : list ascii) =>
              forall m, length m = n ->
                        compiles_to m (fst st) (snd st) sql []).
  assert (A1 : Forall2 P (map (fun t => drop_table (fst t)) tables)
                 (map (fun t => drop_table_sql (fst t)) tables)).
  { apply Forall2_map_both. eapply Forall_impl; [|exact Ftab].
    intros t (N & L & _) m Lm. apply drop_table_compiles; [exact N|lia]. }
  assert (A2 : Forall2 P (map (fun t => drop_type (fst t)) types)
                 (map (fun t => drop_type_sql (fst t)) types)).
  { apply Forall2_map_both. eapply Forall_impl; [|exact Ftyp].
    intros t (N & L & _) m Lm. apply drop_type_compiles; [exact N|lia]. }
  assert (A3 : Forall2 P (map (fun t => as_it_is (snd t)) types)
                 (map snd types)).
  { apply Forall2_map_both. eapply Forall_impl; [|exact Ftyp].
    intros t (_ & _ & Li & L) m Lm. apply literal_compiles;
      [exact Li|lia]. }
  assert (A4 : Forall2 P (map (fun t => as_it_is (snd t)) tables)
                 (map snd tables)).
  { apply Forall2_map_both. eapply Forall_impl; [|exact Ftab].
    intros t (_ & _ & Li & L) m Lm. apply literal_compiles;
      [exact Li|lia]. }
  destruct (query_each_ok NDEBUG connect_ok exec_reply keep_running fuel n
              c _ _ A1
              {| s_db := db; s_result := db_initres; s_world := w |})
    as (s1 & Q1 & M1 & L1 & C1 & R1 & S1 & Cl1 & Cn1 & F1);
    [exact M|reflexivity|exact C|reflexivity| |].
  { intros k Hk. apply Ok. cbn [s_world] in Hk.
    rewrite length_map in Hk. lia. }
  cbn [s_world] in S1, Cl1, Cn1, F1. rewrite Q1.
  destruct (query_each_ok NDEBUG connect_ok exec_reply keep_running fuel n
              c _ _ A2 s1)
    as (s2 & Q2 & M2 & L2 & C2 & R2 & S2 & Cl2 & Cn2 & F2);
    [exact M1|exact L1|exact C1|exact R1| |].
  { intros k Hk. apply Ok. rewrite S1, length_app, !length_map in Hk.
    lia. }
  rewrite Q2.
  destruct (query_each_ok NDEBUG connect_ok exec_reply keep_running fuel n
              c _ _ A3 s2)
    as (s3 & Q3 & M3 & L3 & C3 & R3 & S3 & Cl3 & Cn3 & F3);
    [exact M2|exact L2|exact C2|exact R2| |].
  { intros k Hk. apply Ok.
    rewrite S2, S1, !length_app, !length_map in Hk. lia. }
  rewrite Q3.
  destruct (query_each_ok NDEBUG connect_ok exec_reply keep_running fuel n
              c _ _ A4 s3)
    as (s4 & Q4 & M4 & L4 & C4 & R4 & S4 & Cl4 & Cn4 & F4);
    [exact M3|exact L3|exact C3|exact R3| |].
  { intros k Hk. apply Ok.
    rewrite S3, S2, S1, !length_app, !length_map in Hk. lia. }
  exists s4. split; [exact Q4|]. split; [exact C4|].
  split.
  { rewrite S4, S3, S2, S1, !map_app, <- !app_assoc. reflexivity. }
  split.
  { rewrite Cl4, Cl3, Cl2, Cl1, !length_map. lia. }
  split; congruence.
Qed.

Lemma db_create_sends_in_order_witness :
  exists s,
    db_create false (fun _ => true)
              (fun _ => Some (status_result PGRES_COMMAND_OK None))
              (fun _ => true) 3 (live_db 64)
              [(s2l "mood", s2l "CREATE TYPE mood AS ENUM ('ok')")]
              [(s2l "t", s2l "CREATE TABLE t (m mood)")] world0
    = Gives true s
    /\ sent (s_world s)
       = map (fun sql => (0, sql, []))
             [s2l "DROP TABLE IF EXISTS t CASCADE";
              s2l "DROP TYPE IF EXISTS mood CASCADE";
              s2l "CREATE TYPE mood AS ENUM ('ok')";
              s2l "CREATE TABLE t (m mood)"].
Proof.
  assert (Ftab : Forall
            (fun t : list ascii * list ascii =>
               ~ In NUL (fst t)
               /\ length (fst t) + 29 < length (q (live_db 64))
               /\ forallb is_literal (snd t) = true
               /\ length (snd t) < length (q (live_db 64)))
            [(s2l "t", s2l "CREATE TABLE t (m mood)")]).
  { constructor; [|constructor].
    split; [apply no_nul_check; vm_compute; reflexivity|].
    split; [vm_compute; lia|].
    split; [vm_compute; reflexivity|vm_compute; lia]. }
  assert (Ftyp : Forall
            (fun t : list ascii * list ascii =>
               ~ In NUL (fst t)
               /\ length (fst t) + 28 < length (q (live_db 64))
               /\ forallb is_literal (snd t) = true
               /\ length (snd t) < length (q (live_db 64)))
            [(s2l "mood", s2l "CREATE TYPE mood AS ENUM ('ok')")]).
  { constructor; [|constructor].
    split; [apply no_nul_check; vm_compute; reflexivity|].
    split; [vm_compute; lia|].
    split; [vm_compute; reflexivity|vm_compute; lia]. }
  destruct (db_create_sends_in_order false (fun _ => true)
              (fun _ => Some (status_result PGRES_COMMAND_OK None))
              (fun _ => true) 3 (live_db 64) _ _ world0 0 eq_refl eq_refl
              Ftab Ftyp)
    as (s & Q & _ & S & _).
  - intros k _. eexists. split; reflexivity.
  - exists s. split; [exact Q|exact S].
Defined.

Section CreateStops.

Variable NDEBUG : bool.
Variable connect_ok : nat -> bool.
Variable exec_reply : nat -> option PGresult.
Variable keep_running : nat -> bool.

Local Abbreviation each3 :=
  (query_each NDEBUG connect_ok exec_reply keep_running).




End CreateStops.



(** ** The scratch buffer between queries *)

Lemma c_str_upto_nul (a t : list ascii) : c_str (a ++ NUL :: t) = c_str a.
Proof.
  induction a as [|c a IH]; cbn; [reflexivity|].
  destruct (Ascii.eqb c NUL); [reflexivity|now rewrite IH].
Qed.

Lemma blit_keeps_before (m : list ascii) (i : nat) (t : list ascii) :
  i <= length m -> firstn i (blit m i t) = firstn i m.
Proof.
  intros H. pose proof (blit_prefix m i [] t H) as P.
  cbn [length app] in P. now rewrite Nat.add_0_r, app_nil_r in P.
Qed.

Lemma store_same (m m' : list ascii) (i : nat) (c : ascii) :
  length m = length m' -> firstn i m = firstn i m' ->
  same_run (fun a b => length a = length m /\ length b = length m
                       /\ S i <= length m
                       /\ firstn (S i) a = firstn (S i) b)
           (store m i c) (store m' i c).
Proof.
  intros L F. unfold store. rewrite <- L.
  destruct (i <? length m) eqn:B; cbn [same_run]; [|reflexivity].
  apply Nat.ltb_lt in B.
  split; [apply blit_length; cbn; lia|].
  split; [rewrite blit_length; cbn; lia|].
  split; [lia|].
  pose proof (blit_prefix m i [c] [] ltac:(lia)) as P.
  pose proof (blit_prefix m' i [c] [] ltac:(lia)) as P'.
  cbn [length app] in P, P'. rewrite Nat.add_1_r in P, P'.
  now rewrite P, P', F.
Qed.

Lemma emit_same (s : list ascii) (ps : list param) (ap : list varg)
    (f g : frame) :
  same_frame f g -> f_o f <= length (f_q f) ->
  same_frame (emit s ps ap f) (emit s ps ap g).
Proof.
  intros (Ho & Hp & Ha & Hr & Hl & Hf) O. unfold emit.
  rewrite <- Hl, <- Ho, <- Hr.
  assert (O' : f_o f <= length (f_q g)) by lia.
  destruct (length (f_q f) - f_o f) as [|room] eqn:Sz;
    unfold snprintf, snprintfok.
  - replace (length s <? 0) with false by (symmetry; now apply Nat.ltb_ge; lia).
    repeat split; cbn; auto. now rewrite <- Ho in Hf.
  - destruct (length s <? S room) eqn:B.
    + apply Nat.ltb_lt in B.
      rewrite firstn_all2 by lia.
      repeat split; cbn [f_o f_params f_ap f_rep f_q]; auto.
      * rewrite !blit_length; rewrite ?length_app; cbn [length]; lia.
      * rewrite !blit_prefix by lia. rewrite <- Ho in Hf. now rewrite Hf.
    + apply Nat.ltb_ge in B.
      assert (Lt : length (firstn room s ++ [NUL]) = S room).
      { rewrite length_app, length_firstn. cbn [length]. lia. }
      repeat split; cbn [f_o f_params f_ap f_rep f_q]; auto.
      * rewrite !blit_length; lia.
      * rewrite !blit_keeps_before by lia. now rewrite <- Ho in Hf.
Qed.

Lemma directive_same (d : ascii) (f g : frame) :
  same_frame f g -> f_o f <= length (f_q f) ->
  same_run same_frame (directive d f) (directive d g).
Proof.
  intros S O. pose proof S as (Ho & Hp & Ha & Hr & Hl & Hf).
  unfold directive, emit_bound. rewrite <- Ha, <- Hp.
  assert (E : same_frame
                {| f_q := f_q f; f_o := f_o f; f_params := f_params f;
                   f_ap := f_ap f; f_rep := DB_R_ERR |}
                {| f_q := f_q g; f_o := f_o g; f_params := f_params f;
                   f_ap := f_ap f; f_rep := DB_R_ERR |})
    by (repeat split; cbn; auto).
  repeat (match goal with
          | |- context [if ?b then _ else _] => destruct b
          end; [try exact E|]);
    try exact E;
    unfold va_arg_str, va_arg_u32, va_arg_u64;
    destruct (f_ap f) as [|[x|x|x] ap]; cbn [bind same_run];
    try reflexivity; now apply emit_same.
Qed.

Lemma prepare_same (n : nat) :
  forall (txt : list ascii) (f g : frame),
    length txt <= n ->
    same_frame f g -> f_o f <= length (f_q f) ->
    same_run same_frame (prepare txt f) (prepare txt g).
Proof.
  induction n as [|n IH]; intros txt f g Len S O;
    pose proof S as (Ho & Hp & Ha & Hr & Hl & Hf).
  - destruct txt; [|cbn in Len; lia]. cbn [prepare]. rewrite <- Hr.
    destruct (f_rep f); exact S.
  - destruct txt as [|c rest]; cbn [prepare]; rewrite <- Hr.
    + destruct (f_rep f); exact S.
    + destruct (f_rep f) eqn:K; try exact S.
      destruct (Ascii.eqb c NUL); [exact S|].
      destruct (negb (Ascii.eqb c "%")).
      * rewrite <- Ho in Hf |- *.
        pose proof (store_same (f_q f) (f_q g) (f_o f) c Hl Hf) as St.
        rewrite <- Hp, <- Ha.
        destruct (store (f_q f) (f_o f) c) as [a|e];
          destruct (store (f_q g) (f_o f) c) as [b|e'];
          cbn [same_run bind] in St |- *; try contradiction; [|exact St].
        destruct St as (La & Lb & Si & Fi).
        apply IH; [cbn in Len; lia| |cbn; lia].
        repeat split; cbn; auto; lia.
      * unfold f_v. rewrite <- Hp.
        destruct (DB_MAX_PARAMS <=? length (f_params f)); [exact S|].
        destruct rest as [|d rest'].
        { now apply directive_same. }
        pose proof (directive_same d f g S O) as D.
        destruct (directive d f) as [f1|e] eqn:D1;
          destruct (directive d g) as [g1|e'];
          cbn [same_run bind] in D |- *; try contradiction; [|exact D].
        apply IH; [cbn in Len; lia|exact D|].
        destruct (directive_keeps d f f1 D1 O) as (L1 & O1 & _). exact O1.
Qed.

(** X20: what the compiler leaves depends on the template, the arguments
    and the size of the scratch buffer, not on what the buffer held: text
    left by an earlier query (the buffer is zeroed only when a result is
    finished) never reaches the SQL of the next one.  Run on two buffers of
    one size, the compiler faults on both alike or gives the same reply, the
    same parameters and the same SQL text. *)
Theorem compile_ignores_old_text :
  forall (m m' txt : list ascii) (ap : list varg),
    length m = length m' ->
    same_run (fun f g => f_rep f = f_rep g
                         /\ f_params f = f_params g
                         /\ f_o f = f_o g
                         /\ c_str (f_q f) = c_str (f_q g))
             (compile m txt ap) (compile m' txt ap).
Proof.
  intros m m' txt ap L. unfold compile.
  assert (P : same_run same_frame
                (prepare txt {| f_q := m; f_o := 0; f_params := [];
                                f_ap := ap; f_rep := DB_R_OK |})
                (prepare txt {| f_q := m'; f_o := 0; f_params := [];
                                f_ap := ap; f_rep := DB_R_OK |})).
  { apply (prepare_same (length txt)); [lia| |cbn; lia].
    repeat split; auto. }
  destruct (prepare txt _) as [f|e]; destruct (prepare txt _) as [g|e'];
    cbn [same_run bind] in P |- *; try contradiction; [|exact P].
  destruct P as (Ho & Hp & Ha & Hr & Hl & Hf).
  rewrite <- Ho in Hf |- *.
  pose proof (store_same (f_q f) (f_q g) (f_o f) NUL Hl Hf) as St.
  destruct (store (f_q f) (f_o f) NUL) as [a|e] eqn:Sa;
    destruct (store (f_q g) (f_o f) NUL) as [b|e'] eqn:Sb;
    cbn [same_run bind] in St |- *; try contradiction; [|exact St].
  cbn [f_rep f_params f_o f_q]. repeat split; auto.
  unfold store in Sa, Sb.
  destruct (f_o f <? length (f_q f)); [|discriminate].
  destruct (f_o f <? length (f_q g)); [|discriminate].
  injection Sa as <-. injection Sb as <-.
  rewrite !blit_split. cbn [app]. rewrite !c_str_upto_nul.
  now rewrite Hf.
Qed.

Lemma compile_ignores_old_text_witness :
  same_run (fun f g => f_rep f = f_rep g
                       /\ f_params f = f_params g
                       /\ f_o f = f_o g
                       /\ c_str (f_q f) = c_str (f_q g))
           (compile (zeros 64) scenario_template scenario_args)
           (compile (blit (zeros 64) 0
                          (s2l "SELECT secret FROM vault WHERE owner='root'"))
                    scenario_template scenario_args).
Proof.
  apply (compile_ignores_old_text (zeros 64)
           (blit (zeros 64) 0
                 (s2l "SELECT secret FROM vault WHERE owner='root'"))
           scenario_template scenario_args).
  vm_compute. reflexivity.
Defined.
